(** * Financial dashboard (app.py): shallow embedding and verified properties

    The development follows [src/app.py]: the Flask handlers that create,
    update, list and delete monthly financial records ([FinancialData]) and the
    handler that derives the equity series ([get_financial_results]).

    Modelling conventions.
    - A Python [float] is an IEEE 754 binary64 value: [spec_float] with
      precision 53 and maximal exponent 1024, with the Standard Library's
      executable operations.  [float(str)] and the [.2f] format are the
      correctly rounded conversions (round half to even on the exact value).
    - A Python [str] is a [string]; each character stands for the code point of
      the same number, so texts are restricted to code points below 256.
    - An exception is a value of [exn]; code that may raise returns [result].
    - The database table is the list of its rows in row-id order.  A handler
      maps the committed table to a response and the committed table after the
      request; changes of the session that are not committed are discarded
      when the request ends.  A row is read back as it was written, except
      that a negative zero is read back as [0.0]; a row with a NaN is
      refused. *)

From Stdlib Require Import ZArith List String Ascii Bool Lia SpecFloat.
From Stdlib Require Import Sorting.Sorted Sorting.Permutation.
From Stdlib Require Import Structures.OrderedTypeEx.
Import ListNotations.

Set Warnings "-register-all".

Local Open Scope string_scope.
Local Open Scope Z_scope.

(** ** Exceptions and fallible computations *)

Inductive exn : Type :=
| ValueError
| AttributeError
| KeyError (key : string)
| TypeError
| IndexError
| OverflowError
| ZeroDivisionError
| IntegrityError
| StatementError.

Inductive result (A : Type) : Type :=
| Ok (a : A)
| Raise (e : exn).

Arguments Ok {A} a.
Arguments Raise {A} e.

Definition bind {A B : Type} (r : result A) (k : A -> result B) : result B :=
  match r with
  | Ok a => k a
  | Raise e => Raise e
  end.

Notation "x <- r ;; k" := (bind r (fun x => k))
  (at level 61, r at next level, right associativity).

(** ** Binary64 floating point *)

Module F64.

Definition prec : Z := 53.
Definition emax : Z := 1024.

Definition float : Type := spec_float.

Definition zero : float := S754_zero false.
Definition nan : float := S754_nan.

Definition add (x y : float) : float := SFadd prec emax x y.
Definition sub (x y : float) : float := SFsub prec emax x y.
Definition mul (x y : float) : float := SFmul prec emax x y.

Definition is_zero (x : float) : bool :=
  match x with
  | S754_zero _ => true
  | _ => false
  end.

Definition is_nan (x : float) : bool :=
  match x with
  | S754_nan => true
  | _ => false
  end.

(** [x / y] on floats: Python raises ZeroDivisionError when [y] is a zero, of
    either sign, whatever [x] is. *)
Definition truediv (x y : float) : result float :=
  if is_zero y then Raise ZeroDivisionError
  else Ok (SFdiv prec emax x y).

Definition eqb (x y : float) : bool := SFeqb x y.
Definition ltb (x y : float) : bool := SFltb x y.
(** [x != y] is the negation of [==]; it is true when either side is a NaN. *)
Definition neb (x y : float) : bool := negb (SFeqb x y).
(** [x > y] *)
Definition gtb (x y : float) : bool := SFltb y x.

(** Division of [a] by [b > 0] rounded to the nearest integer, ties to the
    even one. *)
Definition rne_div (a b : Z) : Z :=
  let q := a / b in
  match 2 * (a mod b) ?= b with
  | Lt => q
  | Gt => q + 1
  | Eq => if Z.even q then q else q + 1
  end.

(** [floor (log2 (n / d))] for positive [n] and [d]. *)
Definition ilog2_ratio (n d : Z) : Z :=
  let t := Z.log2 n - Z.log2 d in
  if n * 2 ^ Z.max 0 (- t) <? d * 2 ^ Z.max 0 t then t - 1 else t.

(** The binary64 value nearest to [n / d] ([n >= 0], [d > 0]) with sign [s];
    ties go to the even mantissa, values beyond the range to infinity. *)
Definition of_ratio (s : bool) (n d : Z) : float :=
  if n <=? 0 then S754_zero s
  else
    let e := Z.max (ilog2_ratio n d - 52) (-1074) in
    let m := rne_div (n * 2 ^ Z.max 0 (- e)) (d * 2 ^ Z.max 0 e) in
    let '(m, e) := if m =? 2 ^ 53 then (2 ^ 52, e + 1) else (m, e) in
    if m =? 0 then S754_zero s
    else if 971 <? e then S754_infinity s
    else S754_finite s (Z.to_pos m) e.

(** The binary64 value nearest to [digits * 10 ^ k]. *)
Definition of_decimal (s : bool) (digits k : Z) : float :=
  if 0 <=? k then of_ratio s (digits * 10 ^ k) 1
  else of_ratio s digits (10 ^ (- k)).

(** [float(z)] for a Python [int]: nearest value, OverflowError beyond the
    range. *)
Definition of_int (z : Z) : result float :=
  match of_ratio (z <? 0) (Z.abs z) 1 with
  | S754_infinity _ => Raise OverflowError
  | x => Ok x
  end.

(** A small integer as a float (used for literals such as [100]). *)
Definition lit (z : Z) : float := of_ratio (z <? 0) (Z.abs z) 1.

(** [round (|x| * 100)] to the nearest integer, ties to even, for the finite
    value [m * 2 ^ e]: the digits that [.2f] prints. *)
Definition hundredths (m : positive) (e : Z) : Z :=
  if 0 <=? e then Z.pos m * 2 ^ e * 100
  else rne_div (Z.pos m * 100) (2 ^ (- e)).

End F64.


(** ** Text: the [str] methods the handlers call *)

Module Text.

Definition chr (n : N) : ascii := ascii_of_N n.
Definition ord (c : ascii) : N := N_of_ascii c.

(** [str.isspace] on code points below 256: tab to carriage return, the
    four separators 28..31, space, next line (133) and no-break space (160). *)
Definition is_space (c : ascii) : bool :=
  let n := ord c in
  (((9 <=? n) && (n <=? 13)) || ((28 <=? n) && (n <=? 32))
   || (n =? 133) || (n =? 160))%N.

Definition is_digit (c : ascii) : bool :=
  ((48 <=? ord c) && (ord c <=? 57))%N.

Definition digit_value (c : ascii) : Z := Z.of_N (ord c) - 48.
Definition digit_char (d : Z) : ascii := chr (Z.to_N (48 + d)).

Fixpoint lstrip (s : string) : string :=
  match s with
  | String c s' => if is_space c then lstrip s' else s
  | EmptyString => EmptyString
  end.

Fixpoint rstrip (s : string) : string :=
  match s with
  | EmptyString => EmptyString
  | String c s' =>
      match rstrip s' with
      | EmptyString => if is_space c then EmptyString else String c EmptyString
      | r => String c r
      end
  end.

(** [s.strip()] *)
Definition strip (s : string) : string := rstrip (lstrip s).

(** [s.split(sep)] for a separator of one character. *)
Fixpoint split (sep : ascii) (s : string) : list string :=
  match s with
  | EmptyString => [EmptyString]
  | String c s' =>
      if Ascii.eqb c sep then EmptyString :: split sep s'
      else
        match split sep s' with
        | h :: t => String c h :: t
        | [] => [String c EmptyString]
        end
  end.

Fixpoint zeros (n : nat) : string :=
  match n with
  | O => EmptyString
  | S k => String "0" (zeros k)
  end.

(** [s.zfill(width)]: zeros are inserted after a leading sign. *)
Definition zfill (width : nat) (s : string) : string :=
  let pad := zeros (width - String.length s) in
  match s with
  | String c s' =>
      if Ascii.eqb c "+" || Ascii.eqb c "-" then String c (pad ++ s')
      else pad ++ s
  | EmptyString => pad
  end.

(** The scan of [s.replace(old, new)] for a non-empty [old]: [skip] counts
    the characters of the current occurrence of [old] still to be dropped. *)
Fixpoint replace_from (old new : string) (skip : nat) (s : string) : string :=
  match s with
  | EmptyString => EmptyString
  | String c s' =>
      match skip with
      | S k => replace_from old new k s'
      | O =>
          if prefix old s
          then new ++ replace_from old new (String.length old - 1) s'
          else String c (replace_from old new O s')
      end
  end.

Fixpoint interleave (new s : string) : string :=
  match s with
  | EmptyString => new
  | String c s' => new ++ String c (interleave new s')
  end.

(** [s.replace(old, new)] *)
Definition replace (old new s : string) : string :=
  match old with
  | EmptyString => interleave new s
  | _ => replace_from old new O s
  end.

Definition lower_char (c : ascii) : ascii :=
  if ((65 <=? ord c) && (ord c <=? 90))%N then chr (ord c + 32) else c.

Fixpoint lower (s : string) : string :=
  match s with
  | EmptyString => EmptyString
  | String c s' => String (lower_char c) (lower s')
  end.

(** Decimal digits of [n >= 0], most significant first; [fuel] bounds the
    number of digits. *)
Fixpoint digits_fuel (fuel : nat) (n : Z) (acc : string) : string :=
  match fuel with
  | O => acc
  | S f =>
      let acc' := String (digit_char (n mod 10)) acc in
      if n <? 10 then acc' else digits_fuel f (n / 10) acc'
  end.

Definition digits (n : Z) : string :=
  digits_fuel (S (Z.to_nat (Z.log2 n))) n EmptyString.

(** Thousands separators: a comma before every group of three digits, counted
    from the right. *)
Fixpoint group3 (s : string) : string :=
  match s with
  | EmptyString => EmptyString
  | String c s' =>
      String c
        (match s' with
         | EmptyString => EmptyString
         | _ =>
             if (String.length s' mod 3 =? 0)%nat
             then String "," (group3 s')
             else group3 s'
         end)
  end.

End Text.

(** ** Conversions between floats and text *)

Module Conv.

Import Text.

(** Underscores of a numeric literal: one is allowed only between two
    digits.  Returns the text without them, or [None] when one is misplaced
    ([prev] is the previous character, NUL at the start). *)
Fixpoint drop_underscores (prev : ascii) (s : string) : option string :=
  match s with
  | EmptyString => if Ascii.eqb prev "_" then None else Some EmptyString
  | String c s' =>
      if Ascii.eqb c "_" then
        if is_digit prev then drop_underscores c s' else None
      else if Ascii.eqb prev "_" && negb (is_digit c) then None
      else option_map (String c) (drop_underscores c s')
  end.

(** Reads the longest run of digits at the head of [s], continuing the
    number [acc]: the number read, how many digits, and the rest. *)
Fixpoint take_digits (s : string) (acc : Z) (cnt : Z) : Z * Z * string :=
  match s with
  | String c s' =>
      if is_digit c then take_digits s' (10 * acc + digit_value c) (cnt + 1)
      else (acc, cnt, s)
  | EmptyString => (acc, cnt, s)
  end.

Definition take_sign (s : string) : bool * string :=
  match s with
  | String c s' =>
      if Ascii.eqb c "-" then (true, s')
      else if Ascii.eqb c "+" then (false, s')
      else (false, s)
  | EmptyString => (false, s)
  end.

(** The exponent part: empty, or [e] or [E], an optional sign and at least
    one digit, up to the end of the text. *)
Definition parse_exponent (s : string) : option Z :=
  match s with
  | EmptyString => Some 0
  | String c s' =>
      if Ascii.eqb c "e" || Ascii.eqb c "E" then
        let '(neg, s'') := take_sign s' in
        let '(ev, ne, rest) := take_digits s'' 0 0 in
        if (0 <? ne) && String.eqb rest EmptyString
        then Some (if neg then - ev else ev)
        else None
      else None
  end.

(** [digits [. digits] [exponent]] or [. digits [exponent]] *)
Definition parse_number (neg : bool) (s : string) : option F64.float :=
  let '(ip, ni, r1) := take_digits s 0 0 in
  let '(d, nf, r2) :=
    match r1 with
    | String c r1' =>
        if Ascii.eqb c "." then take_digits r1' ip 0 else (ip, 0, r1)
    | EmptyString => (ip, 0, r1)
    end in
  if 0 <? ni + nf then
    match parse_exponent r2 with
    | Some ev => Some (F64.of_decimal neg d (ev - nf))
    | None => None
    end
  else None.

(** The white space that [float] skips around a number: tab to carriage
    return, space, next line (133) and no-break space (160).  The separators
    28 to 31, which [str.strip] removes, are not skipped. *)
Definition is_float_space (c : ascii) : bool :=
  let n := ord c in
  (((9 <=? n) && (n <=? 13)) || (n =? 32) || (n =? 133) || (n =? 160))%N.

Fixpoint skip_left (s : string) : string :=
  match s with
  | String c s' => if is_float_space c then skip_left s' else s
  | EmptyString => EmptyString
  end.

Fixpoint skip_right (s : string) : string :=
  match s with
  | EmptyString => EmptyString
  | String c s' =>
      match skip_right s' with
      | EmptyString =>
          if is_float_space c then EmptyString else String c EmptyString
      | r => String c r
      end
  end.

Definition skip_spaces (s : string) : string := skip_right (skip_left s).

(** [float(s)] for a [str]: surrounding white space is skipped, then an
    optional sign and a decimal number, [inf], [infinity] or [nan] in any
    letter case.  Anything else raises ValueError. *)
Definition float_of_string (s : string) : result F64.float :=
  match drop_underscores (chr 0) (skip_spaces s) with
  | None => Raise ValueError
  | Some t =>
      let '(neg, body) := take_sign t in
      let l := lower body in
      if String.eqb l "inf" || String.eqb l "infinity"
      then Ok (S754_infinity neg)
      else if String.eqb l "nan" then Ok S754_nan
      else
        match parse_number neg body with
        | Some x => Ok x
        | None => Raise ValueError
        end
  end.

Definition sign_text (plus neg : bool) : string :=
  if neg then "-" else if plus then "+" else "".

Definition two_digits (n : Z) : string :=
  String (digit_char (n / 10)) (String (digit_char (n mod 10)) EmptyString).

(** The format [.2f] with the options [+] (always a sign) and [,]
    (thousands separators): the exact value of [x] rounded to two fraction
    digits, ties to even. *)
Definition format_f2 (plus comma : bool) (x : F64.float) : string :=
  match x with
  | S754_nan => sign_text plus false ++ "nan"
  | S754_infinity s => sign_text plus s ++ "inf"
  | S754_zero s => sign_text plus s ++ "0.00"
  | S754_finite s m e =>
      let h := F64.hundredths m e in
      let ip := digits (h / 100) in
      sign_text plus s ++ (if comma then group3 ip else ip)
        ++ "." ++ two_digits (h mod 100)
  end.

End Conv.

(** ** JSON values of a request body *)

Inductive json : Type :=
| JNull
| JBool (b : bool)
| JInt (z : Z)
| JFloat (x : F64.float)
| JStr (s : string)
| JList (l : list json)
| JDict (d : list (string * json)).

Module Json.

Fixpoint assoc (k : string) (d : list (string * json)) : option json :=
  match d with
  | [] => None
  | (k', v) :: d' => if String.eqb k k' then Some v else assoc k d'
  end.

(** [data[key]] for a text key: only a dict has text keys. *)
Definition getitem (data : json) (key : string) : result json :=
  match data with
  | JDict d =>
      match assoc key d with
      | Some v => Ok v
      | None => Raise (KeyError key)
      end
  | _ => Raise TypeError
  end.

(** [data.get(key)]: [None] for a missing key; only a dict has [get]. *)
Definition get (data : json) (key : string) : result json :=
  match data with
  | JDict d =>
      match assoc key d with
      | Some v => Ok v
      | None => Ok JNull
      end
  | _ => Raise AttributeError
  end.

(** Truth value of a JSON value in a condition. *)
Definition truthy (v : json) : bool :=
  match v with
  | JNull => false
  | JBool b => b
  | JInt z => negb (z =? 0)
  | JFloat x => negb (F64.is_zero x)
  | JStr s => negb (String.eqb s EmptyString)
  | JList l => match l with [] => false | _ => true end
  | JDict d => match d with [] => false | _ => true end
  end.

(** [v.strip()]: only text has the method. *)
Definition strip (v : json) : result string :=
  match v with
  | JStr s => Ok (Text.strip s)
  | _ => Raise AttributeError
  end.

(** [float(v)] *)
Definition to_float (v : json) : result F64.float :=
  match v with
  | JStr s => Conv.float_of_string s
  | JFloat x => Ok x
  | JInt z => F64.of_int z
  | JBool b => Ok (F64.lit (if b then 1 else 0))
  | JNull | JList _ | JDict _ => Raise TypeError
  end.

End Json.

(** ** Regular expressions without repetition, matched by backtracking *)

Module Re.

Inductive regex : Type :=
| Chr (c : ascii)
| Range (lo hi : ascii)
| Seq (r1 r2 : regex)
| Alt (r1 r2 : regex).

Definition in_range (lo hi c : ascii) : bool :=
  ((Text.ord lo <=? Text.ord c) && (Text.ord c <=? Text.ord hi))%N.

(** [exec r s k]: [r] matches a prefix of [s] and [k] accepts the rest;
    alternatives are tried from left to right and the first success is
    returned. *)
Fixpoint exec {A : Type} (r : regex) (s : string)
    (k : string -> option A) : option A :=
  match r with
  | Chr c =>
      match s with
      | String c' s' => if Ascii.eqb c' c then k s' else None
      | EmptyString => None
      end
  | Range lo hi =>
      match s with
      | String c' s' => if in_range lo hi c' then k s' else None
      | EmptyString => None
      end
  | Seq r1 r2 => exec r1 s (fun s' => exec r2 s' k)
  | Alt r1 r2 =>
      match exec r1 s k with
      | Some a => Some a
      | None => exec r2 s k
      end
  end.

Definition newline : ascii := Text.chr 10.

(** [re.match] of the pattern [^r$]: [$] holds at the end of the text and
    also just before a final newline. *)
Definition match_to_end (r : regex) (s : string) : bool :=
  match exec r s (fun rest =>
          if String.eqb rest EmptyString
             || String.eqb rest (String newline EmptyString)
          then Some tt else None) with
  | Some _ => true
  | None => false
  end.

(** [re.match] of [r]: the text left after the match found first. *)
Definition match_prefix (r : regex) (s : string) : option string :=
  exec r s (fun rest => Some rest).

Definition digit : regex := Range "0" "9".

End Re.

(** ** The table of financial records *)

(** One row of [FinancialData].  The timestamps [created_at] and [updated_at]
    are maintained by the ORM and are left out. *)
Record FinancialData : Type := {
  id : Z;
  user_id : Z;
  reference_date : string;
  cash_balance : F64.float;
  bank_balance : F64.float;
  accounts_receivable : F64.float;
  inventory_balance : F64.float;
  other_credits : F64.float;
  fixed_assets : F64.float;
  investments : F64.float;
  accounts_payable : F64.float;
  loans_financing : F64.float;
  installments_payable : F64.float;
  total_sales : F64.float
}.

Definition table : Type := list FinancialData.

Module Db.

(** [filter_by(user_id=uid)] *)
Definition by_user (uid : Z) (t : table) : table :=
  filter (fun r => user_id r =? uid) t.

(** [filter_by(user_id=uid, reference_date=ref)] *)
Definition by_user_date (uid : Z) (ref : string) (t : table) : table :=
  filter (fun r => (user_id r =? uid) && String.eqb (reference_date r) ref) t.

(** [.first()] *)
Definition first (rows : table) : option FinancialData :=
  match rows with
  | [] => None
  | r :: _ => Some r
  end.

Fixpoint insert_sorted (le : string -> string -> bool) (r : FinancialData)
    (rows : table) : table :=
  match rows with
  | [] => [r]
  | r' :: rows' =>
      if le (reference_date r) (reference_date r') then r :: rows
      else r' :: insert_sorted le r rows'
  end.

Fixpoint sort_by_date (le : string -> string -> bool) (rows : table) : table :=
  match rows with
  | [] => []
  | r :: rows' => insert_sorted le r (sort_by_date le rows')
  end.

(** [order_by(FinancialData.reference_date)]: ascending in the order of the
    texts, character by character. *)
Definition order_by_date (rows : table) : table :=
  sort_by_date String.leb rows.

(** [order_by(FinancialData.reference_date.desc())] *)
Definition order_by_date_desc (rows : table) : table :=
  sort_by_date (fun a b => String.leb b a) rows.

Definition amounts (r : FinancialData) : list F64.float :=
  [cash_balance r; bank_balance r; accounts_receivable r;
   inventory_balance r; other_credits r; fixed_assets r; investments r;
   accounts_payable r; loans_financing r; installments_payable r;
   total_sales r].

(** SQLite stores a NaN as NULL, which the NOT NULL amount columns refuse:
    writing such a row fails. *)
Definition storable (r : FinancialData) : bool :=
  forallb (fun x => negb (F64.is_nan x)) (amounts r).

(** The row id SQLite gives to a new row: one more than the largest. *)
Definition next_id (t : table) : Z :=
  1 + fold_right (fun r acc => Z.max (id r) acc) 0 t.

(** A float as SQLite gives it back: one without fraction is written as an
    integer, so a negative zero is read as [0.0]; every other value is read
    as it was written. *)
Definition stored_amount (x : F64.float) : F64.float :=
  match x with
  | S754_zero _ => F64.zero
  | _ => x
  end.

(** The row that is read back after [r] was written. *)
Definition stored (r : FinancialData) : FinancialData :=
  {| id := id r;
     user_id := user_id r;
     reference_date := reference_date r;
     cash_balance := stored_amount (cash_balance r);
     bank_balance := stored_amount (bank_balance r);
     accounts_receivable := stored_amount (accounts_receivable r);
     inventory_balance := stored_amount (inventory_balance r);
     other_credits := stored_amount (other_credits r);
     fixed_assets := stored_amount (fixed_assets r);
     investments := stored_amount (investments r);
     accounts_payable := stored_amount (accounts_payable r);
     loans_financing := stored_amount (loans_financing r);
     installments_payable := stored_amount (installments_payable r);
     total_sales := stored_amount (total_sales r) |}.

(** [session.add(r); session.commit()] *)
Definition insert (r : FinancialData) (t : table) : result table :=
  if storable r then Ok (t ++ [stored r])%list else Raise IntegrityError.

(** The committed update of the row with the id of [r]. *)
Definition update (r : FinancialData) (t : table) : result table :=
  if storable r
  then Ok (map (fun r' => if id r' =? id r then stored r else r') t)
  else Raise IntegrityError.

(** [session.delete(r); session.commit()] *)
Definition delete (r : FinancialData) (t : table) : table :=
  filter (fun r' => negb (id r' =? id r)) t.

End Db.

(** ** Responses *)

(** The texts of the [message] field. *)
Inductive message : Type :=
| MsgInvalidDate                (* Formato de data invalido. Use MM/YYYY *)
| MsgDuplicate                  (* Ja existem dados cadastrados para este mes *)
| MsgAdded                      (* Dados financeiros adicionados com sucesso! *)
| MsgMissingField (e : exn)     (* Campo obrigatorio faltando: str(e) *)
| MsgException (e : exn)        (* str(e) *)
| MsgNoData                     (* Dados nao fornecidos *)
| MsgNoReference                (* Data de referencia nao fornecida *)
| MsgNotFound                   (* Dados nao encontrados *)
| MsgConvert (e : exn)          (* Erro ao converter valores: str(e) *)
| MsgUpdated                    (* Dados atualizados com sucesso *)
| MsgDeleted                    (* Dados excluidos com sucesso! *)
| MsgResultsFailed.             (* Erro ao calcular resultados financeiros *)

(** One element of [data] in the answer of [get_financial_results]. *)
Record MetricRow : Type := {
  month : string;
  equity : string;
  equity_raw : F64.float;
  variation : string;
  revenue_result : string
}.

Inductive body : Type :=
| Success (m : message)              (* status: success, message *)
| Error (m : message)                (* status: error, message *)
| SuccessData (data : list MetricRow) (* status: success, data *)
| Months (months : list string).

Record response : Type := {
  code : Z;
  content : body
}.

Definition respond (c : Z) (b : body) : response :=
  {| code := c; content := b |}.

(** ** The monetary columns *)

Inductive field : Type :=
| CashBalance | BankBalance | AccountsReceivable | InventoryBalance
| OtherCredits | FixedAssets | Investments | AccountsPayable
| LoansFinancing | InstallmentsPayable | TotalSales.

Definition field_name (f : field) : string :=
  match f with
  | CashBalance => "cash_balance"
  | BankBalance => "bank_balance"
  | AccountsReceivable => "accounts_receivable"
  | InventoryBalance => "inventory_balance"
  | OtherCredits => "other_credits"
  | FixedAssets => "fixed_assets"
  | Investments => "investments"
  | AccountsPayable => "accounts_payable"
  | LoansFinancing => "loans_financing"
  | InstallmentsPayable => "installments_payable"
  | TotalSales => "total_sales"
  end.

Definition get_field (f : field) (r : FinancialData) : F64.float :=
  match f with
  | CashBalance => cash_balance r
  | BankBalance => bank_balance r
  | AccountsReceivable => accounts_receivable r
  | InventoryBalance => inventory_balance r
  | OtherCredits => other_credits r
  | FixedAssets => fixed_assets r
  | Investments => investments r
  | AccountsPayable => accounts_payable r
  | LoansFinancing => loans_financing r
  | InstallmentsPayable => installments_payable r
  | TotalSales => total_sales r
  end.

(** [r.f = x] *)
Definition set_field (f : field) (x : F64.float) (r : FinancialData)
  : FinancialData :=
  let pick g := if match f, g with
                   | CashBalance, CashBalance
                   | BankBalance, BankBalance
                   | AccountsReceivable, AccountsReceivable
                   | InventoryBalance, InventoryBalance
                   | OtherCredits, OtherCredits
                   | FixedAssets, FixedAssets
                   | Investments, Investments
                   | AccountsPayable, AccountsPayable
                   | LoansFinancing, LoansFinancing
                   | InstallmentsPayable, InstallmentsPayable
                   | TotalSales, TotalSales => true
                   | _, _ => false
                   end
                then x else get_field g r in
  {| id := id r;
     user_id := user_id r;
     reference_date := reference_date r;
     cash_balance := pick CashBalance;
     bank_balance := pick BankBalance;
     accounts_receivable := pick AccountsReceivable;
     inventory_balance := pick InventoryBalance;
     other_credits := pick OtherCredits;
     fixed_assets := pick FixedAssets;
     investments := pick Investments;
     accounts_payable := pick AccountsPayable;
     loans_financing := pick LoansFinancing;
     installments_payable := pick InstallmentsPayable;
     total_sales := pick TotalSales |}.

(** The columns in the order in which both handlers read them. *)
Definition all_fields : list field :=
  [CashBalance; BankBalance; AccountsReceivable; InventoryBalance;
   OtherCredits; FixedAssets; Investments; AccountsPayable;
   LoansFinancing; InstallmentsPayable; TotalSales].

(** ** Periods: normalisation and validation (create path) *)

(** The pattern [^(0[1-9]|1[0-2])/20[0-9]{2}$] without its anchors. *)
Definition period_pattern : Re.regex :=
  Re.Seq
    (Re.Alt (Re.Seq (Re.Chr "0") (Re.Range "1" "9"))
            (Re.Seq (Re.Chr "1") (Re.Range "0" "2")))
    (Re.Seq (Re.Chr "/")
       (Re.Seq (Re.Chr "2")
          (Re.Seq (Re.Chr "0") (Re.Seq Re.digit Re.digit)))).

(** The pattern that [strptime] builds for the format [%m/%Y]:
    [(1[0-2]|0[1-9]|[1-9])/\d\d\d\d]. *)
Definition strptime_pattern : Re.regex :=
  Re.Seq
    (Re.Alt (Re.Seq (Re.Chr "1") (Re.Range "0" "2"))
       (Re.Alt (Re.Seq (Re.Chr "0") (Re.Range "1" "9"))
               (Re.Range "1" "9")))
    (Re.Seq (Re.Chr "/")
       (Re.Seq Re.digit (Re.Seq Re.digit (Re.Seq Re.digit Re.digit)))).

Definition number_of (s : string) : Z :=
  let '(n, _, _) := Conv.take_digits s 0 0 in n.

(** [datetime.strptime(s, '%m/%Y')]: the month and the year, or ValueError
    when the pattern does not match, when text remains after the match, or
    when the year is 0. *)
Definition strptime_month_year (s : string) : result (Z * Z) :=
  match Re.match_prefix strptime_pattern s with
  | Some EmptyString =>
      match Text.split "/" s with
      | [m; y] =>
          if number_of y <? 1 then Raise ValueError
          else Ok (number_of m, number_of y)
      | _ => Raise ValueError
      end
  | _ => Raise ValueError
  end.

(** The validation of a normalised period: the pattern, then [strptime]. *)
Definition check_period (ref : string) : result unit :=
  if Re.match_to_end period_pattern ref
  then _ <- strptime_month_year ref ;; Ok tt
  else Raise ValueError.

(** Lines 120 to 129 of [add_financial_data]: the normalised
    [data['reference_date']], or the exception raised on the way. *)
Definition read_reference_date (data : json) : result string :=
  raw <- Json.getitem data "reference_date" ;;
  stripped <- Json.strip raw ;;
  match Text.split "/" stripped with
  | [month; year] =>
      let month := Text.zfill 2 month in
      let ref := month ++ "/" ++ year in
      _ <- check_period ref ;;
      Ok ref
  | _ => Raise ValueError
  end.

(** [FinancialData.normalize_date]: any exception gives the argument back. *)
Definition normalize_date (date_str : string) : string :=
  match Text.split "/" (Text.strip date_str) with
  | [month; year] => Text.zfill 2 month ++ "/" ++ year
  | _ => date_str
  end.

(** ** Money: [process_currency] and [format_currency] *)

(** [process_currency(value)]: the currency mark and the dots are removed, the
    comma becomes the decimal point; ValueError and AttributeError give 0.0. *)
Definition process_currency (value : json) : result F64.float :=
  let attempt :=
    match value with
    | JStr s =>
        Conv.float_of_string
          (Text.strip
             (Text.replace "," "."
                (Text.replace "." "" (Text.replace "R$" "" s))))
    | _ => Raise AttributeError
    end in
  match attempt with
  | Ok processed => Ok processed
  | Raise ValueError | Raise AttributeError => Ok F64.zero
  | Raise e => Raise e
  end.

(** [.replace(',', '_').replace('.', ',').replace('_', '.')] *)
Definition swap_separators (s : string) : string :=
  Text.replace "_" "." (Text.replace "." "," (Text.replace "," "_" s)).

(** [format_currency(value)] for the float of a column. *)
Definition format_currency (value : F64.float) : string :=
  swap_separators ("R$ " ++ Conv.format_f2 false true value).

(** ** POST /api/financial-data *)

Definition read_amount (data : json) (f : field) : result F64.float :=
  v <- Json.getitem data (field_name f) ;;
  process_currency v.

(** The call [FinancialData(user_id=..., reference_date=..., ...)]: the
    arguments are evaluated in order, then the constructor normalises the
    date. *)
Definition new_record (t : table) (uid : Z) (ref : string) (data : json)
  : result FinancialData :=
  cash <- read_amount data CashBalance ;;
  bank <- read_amount data BankBalance ;;
  receivable <- read_amount data AccountsReceivable ;;
  inventory <- read_amount data InventoryBalance ;;
  credits <- read_amount data OtherCredits ;;
  assets <- read_amount data FixedAssets ;;
  invest <- read_amount data Investments ;;
  payable <- read_amount data AccountsPayable ;;
  loans <- read_amount data LoansFinancing ;;
  installments <- read_amount data InstallmentsPayable ;;
  sales <- read_amount data TotalSales ;;
  Ok {| id := Db.next_id t;
        user_id := uid;
        reference_date := normalize_date ref;
        cash_balance := cash;
        bank_balance := bank;
        accounts_receivable := receivable;
        inventory_balance := inventory;
        other_credits := credits;
        fixed_assets := assets;
        investments := invest;
        accounts_payable := payable;
        loans_financing := loans;
        installments_payable := installments;
        total_sales := sales |}.

Definition add_financial_data (t : table) (uid : Z) (data : json)
  : response * table :=
  match read_reference_date data with
  | Raise ValueError | Raise IndexError =>
      (respond 400 (Error MsgInvalidDate), t)
  | Raise e => (respond 400 (Error (MsgException e)), t)
  | Ok ref =>
      match Db.first (Db.by_user_date uid ref t) with
      | Some _ => (respond 400 (Error MsgDuplicate), t)
      | None =>
          match new_record t uid ref data with
          | Raise (KeyError k) =>
              (respond 400 (Error (MsgMissingField (KeyError k))), t)
          | Raise e => (respond 400 (Error (MsgException e)), t)
          | Ok financial_data =>
              match Db.insert financial_data t with
              | Ok t' => (respond 200 (Success MsgAdded), t')
              | Raise e => (respond 400 (Error (MsgException e)), t)
              end
          end
      end
  end.

(** ** PUT /api/financial-data *)

(** The assignments [financial_data.f = float(data['f'])] in order: the
    object of the session after the last assignment that ran, and the
    exception that stopped them, if any. *)
Fixpoint assign_all (fs : list field) (data : json) (obj : FinancialData)
  : FinancialData * option exn :=
  match fs with
  | [] => (obj, None)
  | f :: fs' =>
      match (v <- Json.getitem data (field_name f) ;; Json.to_float v) with
      | Ok x => assign_all fs' data (set_field f x obj)
      | Raise e => (obj, Some e)
      end
  end.

(** The text with which SQLite compares a text column when the parameter is
    an integer: its decimal digits, after a minus sign when it is negative. *)
Definition int_text (z : Z) : string :=
  Conv.sign_text false (z <? 0) ++ Text.digits (Z.abs z).

(** The record looked up by [filter_by(user_id, reference_date).first()] for
    the value read from the body.  An integer is bound as a signed integer of
    64 bits, which raises OverflowError when it does not fit, and is compared
    as its text; a boolean is bound as the integer 1 or 0.  A list or a dict
    cannot be bound: the statement fails.  A float is compared as its text,
    which contains no [/] and equals no period stored by
    [add_financial_data]. *)
Definition find_for_update (t : table) (uid : Z) (reference_date : json)
  : result (option FinancialData) :=
  match reference_date with
  | JStr ref => Ok (Db.first (Db.by_user_date uid ref t))
  | JInt z =>
      if (- 2 ^ 63 <=? z) && (z <? 2 ^ 63)
      then Ok (Db.first (Db.by_user_date uid (int_text z) t))
      else Raise OverflowError
  | JBool b =>
      Ok (Db.first (Db.by_user_date uid (int_text (if b then 1 else 0)) t))
  | JList _ | JDict _ => Raise StatementError
  | JFloat _ | JNull => Ok None
  end.

Definition update_financial_data (t : table) (uid : Z) (data : json)
  : response * table :=
  if negb (Json.truthy data) then (respond 400 (Error MsgNoData), t)
  else
    match Json.get data "reference_date" with
    | Raise e => (respond 500 (Error (MsgException e)), t)
    | Ok reference_date =>
        if negb (Json.truthy reference_date)
        then (respond 400 (Error MsgNoReference), t)
        else
          match find_for_update t uid reference_date with
          | Raise e => (respond 500 (Error (MsgException e)), t)
          | Ok None => (respond 404 (Error MsgNotFound), t)
          | Ok (Some financial_data) =>
              match assign_all all_fields data financial_data with
              | (_, Some ValueError) =>
                  (respond 400 (Error (MsgConvert ValueError)), t)
              | (_, Some (KeyError k)) =>
                  (respond 400 (Error (MsgConvert (KeyError k))), t)
              | (_, Some e) => (respond 500 (Error (MsgException e)), t)
              | (financial_data', None) =>
                  match Db.update financial_data' t with
                  | Ok t' => (respond 200 (Success MsgUpdated), t')
                  | Raise e => (respond 500 (Error (MsgException e)), t)
                  end
              end
          end
    end.

(** ** DELETE /api/financial-data/<reference_date> *)

Definition delete_financial_data (t : table) (uid : Z) (ref : string)
  : response * table :=
  match Db.first (Db.by_user_date uid ref t) with
  | None => (respond 404 (Error MsgNotFound), t)
  | Some financial_data =>
      (respond 200 (Success MsgDeleted), Db.delete financial_data t)
  end.

(** ** GET /api/financial-data/months *)

Definition get_available_months (t : table) (uid : Z) : response :=
  let data := Db.order_by_date_desc (Db.by_user uid t) in
  respond 200 (Months (map reference_date data)).

(** ** GET /api/financial-results *)

(** A Python number: [revenue_result] is a float or the int [0]. *)
Inductive number : Type :=
| PyInt (z : Z)
| PyFloat (x : F64.float).

(** [f"{v:.2f}"]: an int is converted to a float first. *)
Definition format_number_f2 (v : number) : result string :=
  match v with
  | PyFloat x => Ok (Conv.format_f2 false false x)
  | PyInt z => x <- F64.of_int z ;; Ok (Conv.format_f2 false false x)
  end.

(** The sum of the seven asset columns minus the three liability columns,
    added and subtracted from left to right. *)
Definition equity_of (item : FinancialData) : F64.float :=
  F64.sub
    (F64.sub
       (F64.sub
          (F64.add
             (F64.add
                (F64.add
                   (F64.add
                      (F64.add
                         (F64.add (cash_balance item) (bank_balance item))
                         (accounts_receivable item))
                      (inventory_balance item))
                   (other_credits item))
                (fixed_assets item))
             (investments item))
          (accounts_payable item))
       (loans_financing item))
    (installments_payable item).

(** Lines 461 to 465: the text of the variation against the equity of the
    previous iteration. *)
Definition variation_text (previous_equity : option F64.float)
    (equity : F64.float) : result string :=
  match previous_equity with
  | Some previous =>
      ratio <- F64.truediv (F64.sub equity previous) previous ;;
      let variation := F64.mul ratio (F64.lit 100) in
      Ok (if F64.neb variation F64.zero
          then Conv.format_f2 true false variation ++ "%"
          else "0,00%")
  | None => Ok "N/A"
  end.

(** Line 468: the result over the sales, or the int [0]. *)
Definition revenue_result_of (equity : F64.float) (item : FinancialData)
  : result number :=
  if F64.gtb (total_sales item) F64.zero
  then
    ratio <- F64.truediv equity (total_sales item) ;;
    Ok (PyFloat (F64.mul ratio (F64.lit 100)))
  else Ok (PyInt 0).

(** Line 475: [f"{revenue_result:.2f}%"] *)
Definition revenue_result_text (revenue_result : number) : result string :=
  text <- format_number_f2 revenue_result ;;
  Ok (text ++ "%").

(** [s.strftime(fmt)] for a [str]: the type has no such attribute.  The
    column [reference_date] is declared [db.String(7)], so it is read back as
    a [str]. *)
Definition str_strftime (s : string) (fmt : string) : result string :=
  Raise AttributeError.

(** Lines 470 to 476: the dict appended to [results]; its values are
    evaluated from top to bottom. *)
Definition metric_row (item : FinancialData) (equity : F64.float)
    (variation_text : string) (revenue_result : number) : result MetricRow :=
  month_text <- str_strftime (reference_date item) "%m/%Y" ;;
  let equity_text :=
    swap_separators ("R$ " ++ Conv.format_f2 false true equity) in
  revenue_text <- revenue_result_text revenue_result ;;
  Ok {| month := month_text;
        equity := equity_text;
        equity_raw := equity;
        variation := variation_text;
        revenue_result := revenue_text |}.

(** The loop over [data], with its two variables [results] and
    [previous_equity]. *)
Fixpoint results_loop (data : table) (previous_equity : option F64.float)
    (results : list MetricRow) : result (list MetricRow) :=
  match data with
  | [] => Ok results
  | item :: data' =>
      let equity := equity_of item in
      text <- variation_text previous_equity equity ;;
      revenue_result <- revenue_result_of equity item ;;
      row <- metric_row item equity text revenue_result ;;
      results_loop data' (Some equity) (results ++ [row])%list
  end.

Definition get_financial_results (t : table) (uid : Z) : response :=
  let data := Db.order_by_date (Db.by_user uid t) in
  match data with
  | [] => respond 200 (SuccessData [])
  | _ =>
      match results_loop data None [] with
      | Ok results => respond 200 (SuccessData results)
      | Raise _ => respond 500 (Error MsgResultsFailed)
      end
  end.

(** ** Sequences of requests *)

Inductive request : Type :=
| Post (uid : Z) (data : json)
| Put (uid : Z) (data : json)
| Delete (uid : Z) (ref : string).

Definition handle (t : table) (q : request) : response * table :=
  match q with
  | Post uid data => add_financial_data t uid data
  | Put uid data => update_financial_data t uid data
  | Delete uid ref => delete_financial_data t uid ref
  end.

(** The table after the requests [qs], served one after the other. *)
Definition run (t : table) (qs : list request) : table :=
  fold_left (fun t q => snd (handle t q)) qs t.

(** The tables that requests can produce from the empty table. *)
Inductive reachable : table -> Prop :=
| reachable_empty : reachable []
| reachable_step t q : reachable t -> reachable (snd (handle t q)).

(** ** Notions used in the statements *)

(** A record with the given cash balance and sales and every other amount
    zero; its equity is its cash balance. *)
Definition snapshot (i uid : Z) (ref : string) (cash sales : F64.float)
  : FinancialData :=
  {| id := i;
     user_id := uid;
     reference_date := ref;
     cash_balance := cash;
     bank_balance := F64.zero;
     accounts_receivable := F64.zero;
     inventory_balance := F64.zero;
     other_credits := F64.zero;
     fixed_assets := F64.zero;
     investments := F64.zero;
     accounts_payable := F64.zero;
     loans_financing := F64.zero;
     installments_payable := F64.zero;
     total_sales := sales |}.

(** A request body with the given period and the same value in each of the
    eleven amounts. *)
Definition body_with (period : json) (amount : json) : json :=
  JDict (("reference_date", period)
         :: map (fun f => (field_name f, amount)) all_fields).

(** The canonical form of a period: a month from 01 to 12, a slash, and a
    year of four digits that starts with 20. *)
Definition canonical_period (s : string) : Prop :=
  exists m y : Z,
    1 <= m <= 12 /\ 0 <= y <= 99 /\
    s = Conv.two_digits m ++ "/20" ++ Conv.two_digits y.

(** The key of the uniqueness constraint. *)
Definition period_key (r : FinancialData) : Z * string :=
  (user_id r, reference_date r).


(** ** Auxiliary notions of the proofs *)

Fixpoint smap (f : ascii -> ascii) (s : string) : string :=
  match s with
  | EmptyString => EmptyString
  | String c s' => String (f c) (smap f s')
  end.

Fixpoint sfilter (p : ascii -> bool) (s : string) : string :=
  match s with
  | EmptyString => EmptyString
  | String c s' => if p c then String c (sfilter p s') else sfilter p s'
  end.

Fixpoint sall (p : ascii -> bool) (s : string) : bool :=
  match s with
  | EmptyString => true
  | String c s' => p c && sall p s'
  end.

(** The number that the digits of [s] continue from [acc]. *)
Fixpoint sval (acc : Z) (s : string) : Z :=
  match s with
  | EmptyString => acc
  | String c s' => sval (10 * acc + Text.digit_value c) s'
  end.

Definition subst_char (a b c : ascii) : ascii := if Ascii.eqb c a then b else c.

Definition other_than (a c : ascii) : bool := negb (Ascii.eqb c a).

(** The characters of the format [,.2f]. *)
Definition money_char (c : ascii) : bool :=
  Text.is_digit c
  || Ascii.eqb c "-" || Ascii.eqb c "," || Ascii.eqb c "."
  || Ascii.eqb c "n" || Ascii.eqb c "a" || Ascii.eqb c "i" || Ascii.eqb c "f".

Definition swap_char (c : ascii) : ascii :=
  subst_char "_" "." (subst_char "." "," (subst_char "," "_" c)).

(** The text that [.2f] gives for [h] hundredths with the sign [neg]. *)
Definition fixed_text (comma neg : bool) (h : Z) : string :=
  let ip := Text.digits (h / 100) in
  Conv.sign_text false neg ++ (if comma then Text.group3 ip else ip)
    ++ "." ++ Conv.two_digits (h mod 100).

(** [2 ^ L] as a fraction: the numerator [up L] and the denominator
    [dn L]. *)
Definition up (L : Z) : Z := 2 ^ Z.max 0 L.

Definition dn (L : Z) : Z := 2 ^ Z.max 0 (- L).

(** [n / d >= 2 ^ L] *)
Definition ge2 (n d L : Z) : Prop := d * up L <= n * dn L.

(** The integers [lo], ..., [lo + n - 1]. *)
Definition zrange (lo n : nat) : list Z := map Z.of_nat (seq lo n).

Definition is_ok_unit (r : result unit) : bool :=
  match r with
  | Ok _ => true
  | Raise _ => false
  end.

(** What every table produced by requests satisfies: the row ids are
    distinct, no two rows have the same owner and period, and every period is
    canonical. *)
Record table_ok (t : table) : Prop := {
  ok_ids : NoDup (map id t);
  ok_keys : NoDup (map period_key t);
  ok_periods : Forall (fun r => canonical_period (reference_date r)) t
}.

(** The year and the month that a period denotes. *)
Definition year_month (s : string) : Z * Z :=
  match Text.split "/" s with
  | [m; y] => (number_of y, number_of m)
  | _ => (0, 0)
  end.

(** [a] is a month not before [b]. *)
Definition not_before (a b : string) : Prop :=
  fst (year_month b) < fst (year_month a)
  \/ (fst (year_month b) = fst (year_month a)
      /\ snd (year_month b) <= snd (year_month a)).

(** Periods listed with the most recent first. *)
Definition most_recent_first (periods : list string) : Prop :=
  StronglySorted not_before periods.

(** Two creations by user 1, for January 2024 and then February 2023. *)
Definition two_years : table :=
  run []
    [Post 1 (body_with (JStr "01/2024") (JStr "R$ 100,00"));
     Post 1 (body_with (JStr "02/2023") (JStr "R$ 100,00"))].

(** ** GET /api/financial-data and GET /api/financial-data/<reference_date> *)

(** The dict that both handlers build for a record: the amounts as currency
    texts under their column names, in the order of the source.
    [list_financial_data] also gives the owner. *)
Record FormattedData : Type := {
  shown_id : Z;
  shown_user_id : option Z;
  shown_reference_date : string;
  shown_amounts : list (string * string)
}.

(** The message of [get_financial_data] for a period without record. *)
Inductive data_message : Type :=
| MsgResourceNotFound.          (* Recurso nao encontrado *)

Inductive data_body : Type :=
| DataList (records : list FormattedData)
| DataOne (record : FormattedData)
| DataError (m : data_message).

Record data_response : Type := {
  data_code : Z;
  data_content : data_body
}.

Definition formatted_amounts (item : FinancialData) : list (string * string) :=
  map (fun f => (field_name f, format_currency (get_field f item))) all_fields.

(** [list_financial_data]: every record of the user, in the order of the
    table. *)
Definition list_financial_data (t : table) (uid : Z) : data_response :=
  let data := Db.by_user uid t in
  {| data_code := 200;
     data_content :=
       DataList
         (map (fun item =>
                 {| shown_id := id item;
                    shown_user_id := Some (user_id item);
                    shown_reference_date := reference_date item;
                    shown_amounts := formatted_amounts item |})
              data) |}.

Section GetFinancialData.

(** [urllib.parse.unquote], a function of the Python library, taken as a
    parameter. *)
Variable unquote : string -> string.

(** [get_financial_data(reference_date)]: the record of the user for the
    decoded period.  The argument of the route is [encoded] here and its
    decoding [decoded]; the source keeps both in [reference_date]. *)
Definition get_financial_data (t : table) (uid : Z) (encoded : string)
  : data_response :=
  let decoded := unquote encoded in
  match Db.first (Db.by_user_date uid decoded t) with
  | None => {| data_code := 404; data_content := DataError MsgResourceNotFound |}
  | Some data =>
      {| data_code := 200;
         data_content :=
           DataOne
             {| shown_id := id data;
                shown_user_id := None;
                shown_reference_date := reference_date data;
                shown_amounts := formatted_amounts data |} |}
  end.

End GetFinancialData.

(** ** Further notions used in the statements *)

(** The user who sends a request. *)
Definition sender (q : request) : Z :=
  match q with
  | Post uid _ => uid
  | Put uid _ => uid
  | Delete uid _ => uid
  end.

(** The amount columns of a record, by name. *)
Definition amounts_of (r : FinancialData) : list (string * F64.float) :=
  map (fun f => (field_name f, get_field f r)) all_fields.

(** The first amount column, in the order of the source, that the body does
    not have. *)
Definition first_missing (d : list (string * json)) : option field :=
  find (fun f => match Json.assoc (field_name f) d with
                 | None => true
                 | Some _ => false
                 end) all_fields.

(** The dict of a record as the read handlers show it, with the owner or
    without. *)
Definition shown (with_owner : bool) (r : FinancialData) : FormattedData :=
  {| shown_id := id r;
     shown_user_id := if with_owner then Some (user_id r) else None;
     shown_reference_date := reference_date r;
     shown_amounts := formatted_amounts r |}.

(** A table with one record of user 1 for January 2024. *)
Definition one_record : table :=
  [snapshot 1 1 "01/2024" F64.zero F64.zero].

(** A body of update for 01/2024 with the text of the negative zero in every
    amount. *)
Definition minus_zeros : list (string * json) :=
  ("reference_date", JStr "01/2024")
  :: map (fun f => (field_name f, JStr "-0")) all_fields.

(** A body of update for 01/2024 with the float 7.0 in every amount. *)
Definition sevens : list (string * json) :=
  ("reference_date", JStr "01/2024")
  :: map (fun f => (field_name f, JFloat (F64.lit 7))) all_fields.

(** The float that [process_currency] gives for a value, [0.0] where it
    gives none. *)
Definition amount_read (v : json) : F64.float :=
  match process_currency v with
  | Ok x => x
  | Raise _ => F64.zero
  end.

(** A body of creation for 1/2024 with the cash balance as currency text, the
    bank balance as an integer and every other amount as the number
    1234.5. *)
Definition text_and_numbers : json :=
  JDict
    [("reference_date", JStr "1/2024");
     ("cash_balance", JStr "R$ 1.234,50");
     ("bank_balance", JInt 1234);
     ("accounts_receivable", JFloat (F64.of_decimal false 12345 (-1)));
     ("inventory_balance", JFloat (F64.of_decimal false 12345 (-1)));
     ("other_credits", JFloat (F64.of_decimal false 12345 (-1)));
     ("fixed_assets", JFloat (F64.of_decimal false 12345 (-1)));
     ("investments", JFloat (F64.of_decimal false 12345 (-1)));
     ("accounts_payable", JFloat (F64.of_decimal false 12345 (-1)));
     ("loans_financing", JFloat (F64.of_decimal false 12345 (-1)));
     ("installments_payable", JFloat (F64.of_decimal false 12345 (-1)));
     ("total_sales", JFloat (F64.of_decimal false 12345 (-1)))].

(** What [unquote] gives for a text whose only escapes are [%2F]: each of
    them becomes a slash. *)
Definition unquote_slash (s : string) : string := Text.replace "%2F" "/" s.

(** * Properties *)

(** ** Rounding to binary64 *)

(** [of_ratio] agrees with the division of the Standard Library's IEEE 754
    model wherever both apply, here for the quotients of the integers 1 to
    300 by 1, 3, 7, 10, 100 and 1000, and its results are valid binary64
    values. *)
Lemma of_ratio_matches_division :
  forallb (fun n =>
    forallb (fun d =>
      SFeqb (SFdiv F64.prec F64.emax (F64.lit n) (F64.lit d))
            (F64.of_ratio false n d)
      && valid_binary F64.prec F64.emax (F64.of_ratio false n d))
      [1; 3; 7; 10; 100; 1000])
    (zrange 1 300) = true.
Proof. vm_compute. reflexivity. Qed.

(** ** The equity series *)

Lemma gtb_zero_not_zero (x : F64.float) :
  F64.gtb x F64.zero = true -> F64.is_zero x = false.
Proof.
  destruct x as [s | s | | s m e]; simpl; try reflexivity.
  unfold F64.gtb, SFltb; simpl. discriminate.
Qed.

Lemma revenue_result_of_eq (equity : F64.float) (item : FinancialData) :
  revenue_result_of equity item =
  Ok (if F64.gtb (total_sales item) F64.zero
      then PyFloat (F64.mul (SFdiv F64.prec F64.emax equity (total_sales item))
                      (F64.lit 100))
      else PyInt 0).
Proof.
  unfold revenue_result_of.
  destruct (F64.gtb (total_sales item) F64.zero) eqn:Hpos; [|reflexivity].
  unfold F64.truediv. rewrite (gtb_zero_not_zero _ Hpos). reflexivity.
Qed.

Lemma metric_row_raises item equity text revenue :
  metric_row item equity text revenue = Raise AttributeError.
Proof. reflexivity. Qed.

Lemma results_loop_raises item data previous results :
  exists e, results_loop (item :: data) previous results = Raise e.
Proof.
  simpl.
  destruct (variation_text previous (equity_of item)) as [text | e]; simpl;
    [|eauto].
  rewrite revenue_result_of_eq. simpl. eauto.
Qed.

Lemma insert_sorted_not_nil le r rows : Db.insert_sorted le r rows <> [].
Proof. destruct rows; simpl; [|destruct (le _ _)]; discriminate. Qed.

Lemma sort_by_date_nil_iff le rows : Db.sort_by_date le rows = [] <-> rows = [].
Proof.
  destruct rows as [|r rows]; simpl; [tauto|].
  split; [|discriminate].
  intros H. exfalso. exact (insert_sorted_not_nil _ _ _ H).
Qed.

Lemma results_fail_when_some_record (t : table) (uid : Z) :
  Db.by_user uid t <> [] ->
  get_financial_results t uid = respond 500 (Error MsgResultsFailed).
Proof.
  intros Hne. unfold get_financial_results, Db.order_by_date.
  destruct (Db.sort_by_date String.leb (Db.by_user uid t)) as [|item data] eqn:Hs.
  - apply sort_by_date_nil_iff in Hs. contradiction.
  - destruct (results_loop_raises item data None []) as [e He].
    rewrite He. reflexivity.
Qed.


(** ** Periods *)

Lemma in_range_digit_char (lo hi : Z) (c : ascii) :
  0 <= lo <= 9 -> 0 <= hi <= 9 ->
  Re.in_range (Text.digit_char lo) (Text.digit_char hi) c = true ->
  exists d, lo <= d <= hi /\ c = Text.digit_char d.
Proof.
  intros Hlo Hhi H. unfold Re.in_range in H.
  apply andb_true_iff in H. destruct H as [H1 H2].
  apply N.leb_le in H1, H2.
  unfold Text.digit_char, Text.chr, Text.ord in *.
  rewrite N_ascii_embedding in H1 by lia.
  rewrite N_ascii_embedding in H2 by lia.
  exists (Z.of_N (N_of_ascii c) - 48). split; [lia|].
  replace (Z.to_N (48 + (Z.of_N (N_of_ascii c) - 48))) with (N_of_ascii c) by lia.
  symmetry. apply ascii_N_embedding.
Qed.

Lemma digit_char_in_range (d : Z) :
  0 <= d <= 9 -> Re.in_range "0" "9" (Text.digit_char d) = true.
Proof.
  intros H. unfold Re.in_range, Text.digit_char, Text.chr, Text.ord.
  rewrite N_ascii_embedding by lia.
  change (N_of_ascii "0") with 48%N. change (N_of_ascii "9") with 57%N.
  apply andb_true_iff. split; apply N.leb_le; lia.
Qed.

Lemma two_digits_of (a b : Z) :
  0 <= b <= 9 ->
  Conv.two_digits (10 * a + b)
  = String (Text.digit_char a) (String (Text.digit_char b) EmptyString).
Proof.
  intros H. unfold Conv.two_digits.
  replace ((10 * a + b) / 10) with a by (apply Z.div_unique with b; lia).
  replace ((10 * a + b) mod 10) with b by (apply Z.mod_unique with a; lia).
  reflexivity.
Qed.

Ltac split_if H :=
  let go c := (let E := fresh "E" in
               destruct c eqn:E; simpl in H; try discriminate H) in
  match type of H with
  | context [Ascii.eqb ?a ?b] => go (Ascii.eqb a b)
  | context [Re.in_range ?a ?b ?c] => go (Re.in_range a b c)
  | context [String.eqb ?a ?b] => go (String.eqb a b)
  end.

Lemma period_pattern_shape (s : string) :
  Re.match_to_end period_pattern s = true ->
  exists m y rest,
    1 <= m <= 12 /\ 0 <= y <= 99 /\
    (rest = EmptyString \/ rest = String Re.newline EmptyString) /\
    s = Conv.two_digits m ++ "/20" ++ Conv.two_digits y ++ rest.
Proof.
  intros H. unfold Re.match_to_end, period_pattern, Re.digit in H.
  destruct s as [|c1 [|c2 [|c3 [|c4 [|c5 [|c6 [|c7 rest]]]]]]];
    simpl in H; try (repeat split_if H; discriminate H).

  assert (Hy : Re.in_range "0" "9" c6 = true /\ Re.in_range "0" "9" c7 = true
               /\ c3 = "/"%char /\ c4 = "2"%char /\ c5 = "0"%char
               /\ (rest = EmptyString \/ rest = String Re.newline EmptyString)
               /\ ((c1 = "0"%char /\ Re.in_range "1" "9" c2 = true)
                   \/ (c1 = "1"%char /\ Re.in_range "0" "2" c2 = true))).
  { destruct (Ascii.eqb c3 "/") eqn:E3;
      [|repeat split_if H; discriminate H].
    destruct (Ascii.eqb c4 "2") eqn:E4;
      [|repeat split_if H; discriminate H].
    destruct (Ascii.eqb c5 "0") eqn:E5;
      [|repeat split_if H; discriminate H].
    destruct (Re.in_range "0" "9" c6) eqn:E6;
      [|repeat split_if H; discriminate H].
    destruct (Re.in_range "0" "9" c7) eqn:E7;
      [|repeat split_if H; discriminate H].
    apply Ascii.eqb_eq in E3, E4, E5.
    destruct ((rest =? "")%string || (rest =? String Re.newline "")%string) eqn:Er;
      [|repeat split_if H; discriminate H].
    apply orb_true_iff in Er.
    repeat split; try assumption.
    - destruct Er as [Er | Er]; apply String.eqb_eq in Er; auto.
    - destruct (Ascii.eqb c1 "0") eqn:E1.
      + apply Ascii.eqb_eq in E1. destruct (Re.in_range "1" "9" c2) eqn:E2; auto.
        destruct (Ascii.eqb c1 "1") eqn:E1'; [|discriminate H].
        apply Ascii.eqb_eq in E1'. subst. discriminate.
      + destruct (Ascii.eqb c1 "1") eqn:E1'; [|discriminate H].
        apply Ascii.eqb_eq in E1'.
        destruct (Re.in_range "0" "2" c2) eqn:E2; [auto|discriminate H]. }
  destruct Hy as (H6 & H7 & -> & -> & -> & Hrest & Hm).
  apply (in_range_digit_char 0 9) in H6; [|lia|lia].
  apply (in_range_digit_char 0 9) in H7; [|lia|lia].
  destruct H6 as (a & Ha & ->). destruct H7 as (b & Hb & ->).
  destruct Hm as [[-> H2] | [-> H2]].
  - apply (in_range_digit_char 1 9) in H2; [|lia|lia].
    destruct H2 as (d & Hd & ->).
    exists d, (10 * a + b), rest. repeat split; try lia; try assumption.
    rewrite (two_digits_of a b) by lia.
    replace d with (10 * 0 + d) at 2 by lia.
    rewrite (two_digits_of 0 d) by lia. reflexivity.
  - apply (in_range_digit_char 0 2) in H2; [|lia|lia].
    destruct H2 as (d & Hd & ->).
    exists (10 + d), (10 * a + b), rest. repeat split; try lia; try assumption.
    rewrite (two_digits_of a b) by lia.
    replace (10 + d) with (10 * 1 + d) by lia.
    rewrite (two_digits_of 1 d) by lia. reflexivity.
Qed.


Lemma in_zrange (lo n : nat) (z : Z) :
  Z.of_nat lo <= z < Z.of_nat lo + Z.of_nat n -> In z (zrange lo n).
Proof.
  intros H. unfold zrange. apply in_map_iff. exists (Z.to_nat z).
  split; [lia|]. apply in_seq. lia.
Qed.


Lemma canonical_periods_checked :
  forallb (fun m =>
    forallb (fun y =>
      let s := Conv.two_digits m ++ "/20" ++ Conv.two_digits y in
      is_ok_unit (check_period s)
      && negb (is_ok_unit (check_period (s ++ String Re.newline EmptyString))))
      (zrange 0 100))
    (zrange 1 12) = true.
Proof. vm_compute. reflexivity. Qed.

Lemma canonical_period_checked (m y : Z) :
  1 <= m <= 12 -> 0 <= y <= 99 ->
  let s := Conv.two_digits m ++ "/20" ++ Conv.two_digits y in
  check_period s = Ok tt
  /\ check_period (s ++ String Re.newline EmptyString) <> Ok tt.
Proof.
  intros Hm Hy s.
  pose proof canonical_periods_checked as H.
  rewrite forallb_forall in H. specialize (H m (in_zrange 1 12 m ltac:(lia))).
  rewrite forallb_forall in H. specialize (H y (in_zrange 0 100 y ltac:(lia))).
  cbv zeta in H. fold s in H. apply andb_true_iff in H. destruct H as [H1 H2].
  split.
  - destruct (check_period s) as [[]|]; [reflexivity|discriminate].
  - intros E. rewrite E in H2. discriminate.
Qed.

Lemma check_period_canonical (s : string) :
  check_period s = Ok tt <-> canonical_period s.
Proof.
  split.
  - intros H. pose proof H as H0. unfold check_period in H.
    destruct (Re.match_to_end period_pattern s) eqn:Hm; [|discriminate].
    destruct (period_pattern_shape s Hm)
      as (m & y & rest & Hmr & Hyr & Hrest & ->).
    destruct Hrest as [-> | ->].
    + exists m, y. repeat split; try lia.
    + exfalso.
      apply (proj2 (canonical_period_checked m y Hmr Hyr)). exact H0.
  - intros (m & y & Hm & Hy & ->). apply canonical_period_checked; assumption.
Qed.

Lemma invalid_period_rejected (t : table) (uid : Z) (data : json) (raw : string) :
  Json.getitem data "reference_date" = Ok (JStr raw) ->
  (forall ref, read_reference_date data <> Ok ref) ->
  add_financial_data t uid data = (respond 400 (Error MsgInvalidDate), t).
Proof.
  intros Hraw Hbad. unfold add_financial_data.
  destruct (read_reference_date data) as [ref | e] eqn:Hr.
  - destruct (Hbad ref eq_refl).
  - unfold read_reference_date in Hr. rewrite Hraw in Hr. simpl in Hr.
    destruct (Text.split "/" (Text.strip raw)) as [|mo [|ye [|]]];
      try (injection Hr as <-; reflexivity).
    unfold check_period in Hr.
    destruct (Re.match_to_end _ _); simpl in Hr;
      [|injection Hr as <-; reflexivity].
    unfold strptime_month_year in Hr.
    repeat match type of Hr with
           | context [match ?x with _ => _ end] => destruct x; simpl in Hr
           end; try discriminate Hr; injection Hr as <-; reflexivity.
Qed.

(** C7.  The validation of a normalised period on the create path succeeds
    exactly when the text is a month from 01 to 12, a slash and a year of four
    digits that starts with 20.  The period 13/2024 fails it, and a creation
    with that period is answered with status 400 and the message of the
    invalid date format, the table unchanged. *)
Theorem C7_period_validation (s : string) (t : table) (uid : Z)
    (fields : list (string * json)) :
  (check_period s = Ok tt <-> canonical_period s)
  /\ check_period "13/2024" = Raise ValueError
  /\ add_financial_data t uid (JDict (("reference_date", JStr "13/2024") :: fields))
     = (respond 400 (Error MsgInvalidDate), t).
Proof.
  split; [apply check_period_canonical|]. split; [reflexivity|].
  reflexivity.
Qed.

(** ** The table under requests *)

Lemma read_reference_date_canonical (data : json) (ref : string) :
  read_reference_date data = Ok ref -> canonical_period ref.
Proof.
  unfold read_reference_date. intros H.
  destruct (Json.getitem data "reference_date") as [raw|]; [|discriminate].
  simpl in H. destruct (Json.strip raw) as [stripped|]; [|discriminate].
  simpl in H.
  destruct (Text.split "/" stripped) as [|mo [|ye [|]]]; try discriminate.
  destruct (check_period _) as [[]|] eqn:Hc; [|discriminate].
  simpl in H. injection H as <-. apply check_period_canonical, Hc.
Qed.

Lemma canonical_periods_normalized :
  forallb (fun m =>
    forallb (fun y =>
      let s := Conv.two_digits m ++ "/20" ++ Conv.two_digits y in
      String.eqb (normalize_date s) s)
      (zrange 0 100))
    (zrange 1 12) = true.
Proof. vm_compute. reflexivity. Qed.

Lemma normalize_date_canonical (ref : string) :
  canonical_period ref -> normalize_date ref = ref.
Proof.
  intros (m & y & Hm & Hy & ->).
  pose proof canonical_periods_normalized as H.
  rewrite forallb_forall in H. specialize (H m (in_zrange 1 12 m ltac:(lia))).
  rewrite forallb_forall in H. specialize (H y (in_zrange 0 100 y ltac:(lia))).
  apply String.eqb_eq in H. exact H.
Qed.

Lemma new_record_inv (t : table) (uid : Z) (ref : string) (data : json)
    (fd : FinancialData) :
  new_record t uid ref data = Ok fd ->
  id fd = Db.next_id t /\ user_id fd = uid
  /\ reference_date fd = normalize_date ref.
Proof.
  unfold new_record. intros H.
  repeat match type of H with
         | context [bind ?r _] => destruct r; simpl in H; [|discriminate H]
         end.
  injection H as <-. repeat split.
Qed.

Lemma stored_keeps (r : FinancialData) :
  id (Db.stored r) = id r /\ user_id (Db.stored r) = user_id r
  /\ reference_date (Db.stored r) = reference_date r.
Proof. repeat split. Qed.

Lemma stored_get_field (f : field) (r : FinancialData) :
  get_field f (Db.stored r) = Db.stored_amount (get_field f r).
Proof. destruct f; reflexivity. Qed.

Lemma stored_amount_not_nan (x : F64.float) :
  F64.is_nan (Db.stored_amount x) = F64.is_nan x.
Proof. destruct x; reflexivity. Qed.

Lemma stored_is_storable (r : FinancialData) :
  Db.storable (Db.stored r) = Db.storable r.
Proof.
  unfold Db.storable, Db.amounts, Db.stored. cbn [forallb cash_balance
    bank_balance accounts_receivable inventory_balance other_credits
    fixed_assets investments accounts_payable loans_financing
    installments_payable total_sales].
  rewrite !stored_amount_not_nan. reflexivity.
Qed.

(** What a request of creation does to the table. *)
Lemma add_financial_data_table (t : table) (uid : Z) (data : json) :
  (code (fst (add_financial_data t uid data)) <> 200
   /\ snd (add_financial_data t uid data) = t)
  \/ (exists ref fd,
        fst (add_financial_data t uid data) = respond 200 (Success MsgAdded)
        /\ read_reference_date data = Ok ref
        /\ Db.by_user_date uid ref t = []
        /\ new_record t uid ref data = Ok fd
        /\ Db.storable fd = true
        /\ snd (add_financial_data t uid data) = (t ++ [Db.stored fd])%list).
Proof.
  unfold add_financial_data.
  destruct (read_reference_date data) as [ref | e] eqn:Hr.
  2:{ left. destruct e; simpl; split; (discriminate || reflexivity). }
  destruct (Db.by_user_date uid ref t) as [|r rs] eqn:Hq; simpl.
  2:{ left. split; [discriminate|reflexivity]. }
  destruct (new_record t uid ref data) as [fd | e] eqn:Hn.
  2:{ left. destruct e; simpl; split; (discriminate || reflexivity). }
  unfold Db.insert. destruct (Db.storable fd) eqn:Hs; simpl.
  - right. exists ref, fd. repeat split; auto.
  - left. split; [discriminate|reflexivity].
Qed.

Lemma set_field_keeps (f : field) (x : F64.float) (r : FinancialData) :
  id (set_field f x r) = id r /\ user_id (set_field f x r) = user_id r
  /\ reference_date (set_field f x r) = reference_date r.
Proof. repeat split. Qed.

Lemma assign_all_keeps (fs : list field) (data : json) (obj : FinancialData) :
  let obj' := fst (assign_all fs data obj) in
  id obj' = id obj /\ user_id obj' = user_id obj
  /\ reference_date obj' = reference_date obj.
Proof.
  revert obj. induction fs as [|f fs IH]; intros obj; simpl; [repeat split|].
  destruct (bind _ _) as [x|e]; simpl; [|repeat split].
  destruct (IH (set_field f x obj)) as (H1 & H2 & H3).
  destruct (set_field_keeps f x obj) as (K1 & K2 & K3).
  repeat split; congruence.
Qed.

Lemma first_in (rows : table) (r : FinancialData) :
  Db.first rows = Some r -> In r rows.
Proof. destruct rows; simpl; [discriminate|]. intros [= ->]. now left. Qed.

Lemma first_by_user_date_in (t : table) (uid : Z) (ref : string)
    (r : FinancialData) :
  Db.first (Db.by_user_date uid ref t) = Some r ->
  In r t /\ user_id r = uid /\ reference_date r = ref.
Proof.
  intros H. apply first_in in H. apply filter_In in H. destruct H as [Hin Hk].
  apply andb_true_iff in Hk. destruct Hk as [Hu Hd].
  apply Z.eqb_eq in Hu. apply String.eqb_eq in Hd. auto.
Qed.

Lemma find_for_update_in (t : table) (uid : Z) (rd : json)
    (old : FinancialData) :
  find_for_update t uid rd = Ok (Some old) -> In old t /\ user_id old = uid.
Proof.
  destruct rd; cbn [find_for_update]; try discriminate.
  - intros [= H]. destruct (first_by_user_date_in _ _ _ _ H); tauto.
  - destruct (_ && _); [|discriminate].
    intros [= H]. destruct (first_by_user_date_in _ _ _ _ H); tauto.
  - intros [= H]. destruct (first_by_user_date_in _ _ _ _ H); tauto.
Qed.

(** What a request of update does to the table. *)
Lemma update_financial_data_table (t : table) (uid : Z) (data : json) :
  (code (fst (update_financial_data t uid data)) <> 200
   /\ snd (update_financial_data t uid data) = t)
  \/ (exists old new,
        fst (update_financial_data t uid data) = respond 200 (Success MsgUpdated)
        /\ In old t /\ user_id old = uid
        /\ assign_all all_fields data old = (new, None)
        /\ Db.storable new = true
        /\ snd (update_financial_data t uid data)
           = map (fun r => if id r =? id new then Db.stored new else r) t).
Proof.
  unfold update_financial_data.
  destruct (negb (Json.truthy data)); [left; split; [discriminate|reflexivity]|].
  destruct (Json.get data "reference_date") as [rd | e];
    [|left; split; [discriminate|reflexivity]].
  destruct (negb (Json.truthy rd)); [left; split; [discriminate|reflexivity]|].
  destruct (find_for_update t uid rd) as [[old|] | e] eqn:Hf;
    try (left; split; [discriminate|reflexivity]).
  destruct (assign_all all_fields data old) as [new [e|]] eqn:Ha.
  { left. destruct e; split; (discriminate || reflexivity). }
  unfold Db.update. destruct (Db.storable new) eqn:Hs;
    [|left; split; [discriminate|reflexivity]].
  right. exists old, new. simpl.
  destruct (find_for_update_in t uid rd old Hf) as [Hin Hu].
  repeat split; assumption.
Qed.

Lemma delete_financial_data_table (t : table) (uid : Z) (ref : string) :
  exists p, snd (delete_financial_data t uid ref) = filter p t.
Proof.
  unfold delete_financial_data.
  destruct (Db.first _) as [r|]; simpl.
  - eexists. reflexivity.
  - exists (fun _ => true). symmetry. apply forallb_filter_id.
    apply forallb_forall. reflexivity.
Qed.


Lemma next_id_above (t : table) (r : FinancialData) :
  In r t -> id r < Db.next_id t.
Proof.
  unfold Db.next_id. induction t as [|r' t IH]; [intros []|].
  cbn [fold_right]. intros [-> | Hin]; [lia|]. specialize (IH Hin). lia.
Qed.

Lemma no_row_no_key (t : table) (uid : Z) (ref : string) :
  Db.by_user_date uid ref t = [] -> ~ In (uid, ref) (map period_key t).
Proof.
  intros Hq Hin. apply in_map_iff in Hin. destruct Hin as (r & Hk & Hin).
  assert (Hf : In r (Db.by_user_date uid ref t)).
  { apply filter_In. split; [assumption|].
    unfold period_key in Hk. injection Hk as -> ->.
    rewrite Z.eqb_refl, String.eqb_refl. reflexivity. }
  rewrite Hq in Hf. destruct Hf.
Qed.

Lemma NoDup_map_snoc {A B : Type} (f : A -> B) (l : list A) (a : A) :
  NoDup (map f l) -> ~ In (f a) (map f l) -> NoDup (map f (l ++ [a])%list).
Proof.
  intros Hnd Hnot. rewrite map_app. simpl.
  apply NoDup_app; [assumption|repeat constructor; simpl; tauto|].
  intros x Hx [<- | []]. exact (Hnot Hx).
Qed.

Lemma filter_keeps_distinct {K : Type} (key : FinancialData -> K)
    (keep : FinancialData -> bool) (t : table) :
  NoDup (map key t) -> NoDup (map key (filter keep t)).
Proof.
  induction t as [|r t IH]; simpl; [auto|].
  intros Hnd. inversion Hnd as [|? ? Hnot Hnd']; subst.
  destruct (keep r); simpl; [|auto].
  constructor; [|auto].
  intros Hin. apply Hnot. apply in_map_iff in Hin.
  destruct Hin as (r' & Hk & Hin). apply filter_In in Hin.
  apply in_map_iff. exists r'. tauto.
Qed.

Lemma NoDup_map_injective {A B : Type} (f : A -> B) (l : list A) (a b : A) :
  NoDup (map f l) -> In a l -> In b l -> f a = f b -> a = b.
Proof.
  induction l as [|c l IH]; simpl; [tauto|].
  intros Hnd Ha Hb Hf. inversion Hnd as [|? ? Hnot Hnd']; subst.
  destruct Ha as [-> | Ha], Hb as [-> | Hb]; auto.
  - exfalso. apply Hnot. rewrite Hf. now apply in_map.
  - exfalso. apply Hnot. rewrite <- Hf. now apply in_map.
Qed.

(** Replacing a row by one with the same id, owner and period changes no id
    and no key. *)
Lemma replace_row_keeps (t : table) (old new : FinancialData) :
  NoDup (map id t) -> In old t ->
  id new = id old -> period_key new = period_key old ->
  let t' := map (fun r => if id r =? id new then new else r) t in
  map id t' = map id t /\ map period_key t' = map period_key t
  /\ (forall r, In r t' -> r = new \/ In r t).
Proof.
  intros Hnd Hin Hid Hkey t'. subst t'.
  assert (Hsame : forall r, In r t -> (id r =? id new) = true -> r = old).
  { intros r Hr E. apply Z.eqb_eq in E.
    apply (NoDup_map_injective id t); auto. congruence. }
  repeat split.
  - rewrite map_map. apply map_ext_in. intros r Hr.
    destruct (id r =? id new) eqn:E; [|reflexivity].
    rewrite (Hsame r Hr E). assumption.
  - rewrite map_map. apply map_ext_in. intros r Hr.
    destruct (id r =? id new) eqn:E; [|reflexivity].
    rewrite (Hsame r Hr E). assumption.
  - intros r Hr. apply in_map_iff in Hr. destruct Hr as (r0 & <- & Hr0).
    destruct (id r0 =? id new); auto.
Qed.

Lemma handle_keeps_ok (t : table) (q : request) :
  table_ok t -> table_ok (snd (handle t q)).
Proof.
  intros [Hids Hkeys Hper]. destruct q as [uid data | uid data | uid ref]; simpl.
  - destruct (add_financial_data_table t uid data)
      as [[_ ->] | (ref & fd & _ & Hr & Hq & Hn & _ & ->)];
      [constructor; assumption|].
    destruct (new_record_inv _ _ _ _ _ Hn) as (Hid & Hu & Hd).
    pose proof (read_reference_date_canonical _ _ Hr) as Hc.
    rewrite (normalize_date_canonical _ Hc) in Hd.
    destruct (stored_keeps fd) as (S1 & S2 & S3).
    constructor.
    + apply NoDup_map_snoc; [assumption|].
      intros Hin. apply in_map_iff in Hin. destruct Hin as (r & Hrid & Hin).
      pose proof (next_id_above t r Hin). lia.
    + apply NoDup_map_snoc; [assumption|].
      unfold period_key at 1. rewrite S2, S3, Hu, Hd.
      apply no_row_no_key, Hq.
    + apply Forall_app. split; [assumption|].
      constructor; [|constructor]. rewrite S3, Hd. exact Hc.
  - destruct (update_financial_data_table t uid data)
      as [[_ ->] | (old & new & _ & Hin & _ & Ha & _ & ->)];
      [constructor; assumption|].
    destruct (assign_all_keeps all_fields data old) as (K1 & K2 & K3).
    rewrite Ha in K1, K2, K3. simpl in K1, K2, K3.
    assert (Hk : period_key (Db.stored new) = period_key old)
      by (unfold period_key; cbn [Db.stored user_id reference_date];
          congruence).
    destruct (replace_row_keeps t old (Db.stored new) Hids Hin K1 Hk)
      as (E1 & E2 & E3).
    change (id (Db.stored new)) with (id new) in E1, E2, E3.
    constructor.
    + rewrite E1. assumption.
    + rewrite E2. assumption.
    + apply Forall_forall. intros r Hr. rewrite Forall_forall in Hper.
      destruct (E3 r Hr) as [-> | Hr']; [|auto].
      cbn [Db.stored reference_date]. rewrite K3. auto.
  - destruct (delete_financial_data_table t uid ref) as [p ->].
    constructor.
    + apply filter_keeps_distinct, Hids.
    + apply filter_keeps_distinct, Hkeys.
    + apply Forall_forall. intros r Hr. apply filter_In in Hr.
      rewrite Forall_forall in Hper. apply Hper. tauto.
Qed.

Lemma reachable_ok (t : table) : reachable t -> table_ok t.
Proof.
  induction 1 as [|t q _ IH].
  - repeat constructor.
  - apply handle_keeps_ok, IH.
Qed.

Lemma add_again_is_duplicate (t t1 : table) (uid : Z)
    (fields1 fields2 : list (string * json)) :
  add_financial_data t uid (JDict (("reference_date", JStr "01/2024") :: fields1))
  = (respond 200 (Success MsgAdded), t1) ->
  add_financial_data t1 uid (JDict (("reference_date", JStr "1/2024") :: fields2))
  = (respond 400 (Error MsgDuplicate), t1).
Proof.
  intros H1.
  destruct (add_financial_data_table t uid
              (JDict (("reference_date", JStr "01/2024") :: fields1)))
    as [[Hc _] | (ref & fd & _ & Hr & _ & Hn & _ & Ht)].
  { rewrite H1 in Hc. simpl in Hc. contradiction. }
  rewrite H1 in Ht. cbn [snd] in Ht. subst t1.
  change (read_reference_date (JDict (("reference_date", JStr "01/2024") :: fields1)))
    with (Ok (A:=string) "01/2024") in Hr.
  injection Hr as <-.
  destruct (new_record_inv _ _ _ _ _ Hn) as (_ & Hu & Hd).
  change (normalize_date "01/2024") with "01/2024" in Hd.
  unfold add_financial_data.
  change (read_reference_date (JDict (("reference_date", JStr "1/2024") :: fields2)))
    with (Ok (A:=string) "01/2024").
  cbv iota beta.
  unfold Db.by_user_date. rewrite filter_app.
  cbn [filter Db.stored user_id reference_date].
  rewrite Hu, Hd, Z.eqb_refl. simpl.
  destruct (filter _ t); reflexivity.
Qed.

(** ** Ordering by the text of the period *)

Lemma string_leb_trans (a b c : string) :
  String.leb a b = true -> String.leb b c = true -> String.leb a c = true.
Proof.
  unfold String.leb. intros Hab Hbc.
  destruct (String.compare a b) eqn:Eab; try discriminate.
  - apply String_as_OT.cmp_eq in Eab. subst. exact Hbc.
  - destruct (String.compare b c) eqn:Ebc; try discriminate.
    + apply String_as_OT.cmp_eq in Ebc. subst. rewrite Eab. reflexivity.
    + apply String_as_OT.cmp_lt in Eab, Ebc.
      pose proof (String_as_OT.lt_trans _ _ _ Eab Ebc) as Hac.
      apply String_as_OT.cmp_lt in Hac. unfold String_as_OT.cmp in Hac.
      rewrite Hac. reflexivity.
Qed.

Section SortByDate.

Variable le : string -> string -> bool.
Hypothesis le_total : forall a b, le a b = true \/ le b a = true.
Hypothesis le_trans : forall a b c, le a b = true -> le b c = true -> le a c = true.

Let before (r1 r2 : FinancialData) : Prop :=
  le (reference_date r1) (reference_date r2) = true.

Lemma insert_sorted_perm (r : FinancialData) (rows : table) :
  Permutation (r :: rows) (Db.insert_sorted le r rows).
Proof.
  induction rows as [|r' rows IH]; simpl; [reflexivity|].
  destruct (le _ _); [reflexivity|].
  rewrite perm_swap. apply perm_skip, IH.
Qed.

Lemma sort_by_date_perm (rows : table) :
  Permutation rows (Db.sort_by_date le rows).
Proof.
  induction rows as [|r rows IH]; simpl; [reflexivity|].
  rewrite <- insert_sorted_perm. apply perm_skip, IH.
Qed.

Lemma insert_sorted_sorted (r : FinancialData) (rows : table) :
  StronglySorted before rows ->
  StronglySorted before (Db.insert_sorted le r rows).
Proof.
  induction 1 as [|r' rows Hs IH Hall]; simpl.
  - repeat constructor.
  - destruct (le (reference_date r) (reference_date r')) eqn:E.
    + constructor; [constructor; assumption|].
      constructor; [exact E|].
      apply Forall_forall. intros x Hx. rewrite Forall_forall in Hall.
      exact (le_trans _ _ _ E (Hall x Hx)).
    + constructor; [exact IH|].
      apply Forall_forall. intros x Hx.
      apply (Permutation_in _ (Permutation_sym (insert_sorted_perm r rows))) in Hx.
      destruct Hx as [<- | Hx].
      * destruct (le_total (reference_date r) (reference_date r')) as [H | H];
          [congruence|exact H].
      * rewrite Forall_forall in Hall. exact (Hall x Hx).
Qed.

Lemma sort_by_date_sorted (rows : table) :
  StronglySorted before (Db.sort_by_date le rows).
Proof.
  induction rows as [|r rows IH]; simpl; [constructor|].
  apply insert_sorted_sorted, IH.
Qed.

End SortByDate.

Lemma StronglySorted_map {A B : Type} (f : A -> B) (R : B -> B -> Prop)
    (l : list A) :
  StronglySorted (fun a b => R (f a) (f b)) l -> StronglySorted R (map f l).
Proof.
  induction 1 as [|a l Hs IH Hall]; simpl; constructor; [assumption|].
  apply Forall_map. exact Hall.
Qed.

Lemma months_sorted_by_text (t : table) (uid : Z) :
  exists months,
    get_available_months t uid = respond 200 (Months months)
    /\ Permutation (map reference_date (Db.by_user uid t)) months
    /\ StronglySorted (fun a b => String.leb b a = true) months.
Proof.
  eexists. split; [reflexivity|]. split.
  - apply Permutation_map, sort_by_date_perm.
  - apply StronglySorted_map.
    apply (sort_by_date_sorted (fun a b => String.leb b a)).
    + intros a b. destruct (String.leb_total a b); auto.
    + intros a b c Hab Hbc. exact (string_leb_trans _ _ _ Hbc Hab).
Qed.

(** ** Money *)


Lemma append_nil_r (s : string) : s ++ "" = s.
Proof. induction s; simpl; congruence. Qed.

Lemma append_assoc (a b c : string) : (a ++ b) ++ c = a ++ b ++ c.
Proof. induction a; simpl; congruence. Qed.

Lemma length_append (a b : string) :
  String.length (a ++ b) = (String.length a + String.length b)%nat.
Proof. induction a; simpl; congruence. Qed.

Lemma smap_app f a b : smap f (a ++ b) = smap f a ++ smap f b.
Proof. induction a; simpl; congruence. Qed.

Lemma sfilter_app p a b : sfilter p (a ++ b) = sfilter p a ++ sfilter p b.
Proof.
  induction a as [|c a IH]; simpl; [reflexivity|].
  destruct (p c); simpl; congruence.
Qed.

Lemma sall_app p a b : sall p (a ++ b) = sall p a && sall p b.
Proof.
  induction a as [|c a IH]; simpl; [reflexivity|].
  rewrite IH. apply andb_assoc.
Qed.

Lemma sall_impl (p q : ascii -> bool) (s : string) :
  (forall c, p c = true -> q c = true) -> sall p s = true -> sall q s = true.
Proof.
  intros Hpq. induction s as [|c s IH]; simpl; [reflexivity|].
  intros H. apply andb_true_iff in H. destruct H as [Hc Hs].
  rewrite (Hpq c Hc), (IH Hs). reflexivity.
Qed.

Lemma sfilter_all p s : sall p s = true -> sfilter p s = s.
Proof.
  induction s as [|c s IH]; simpl; [reflexivity|].
  intros H. apply andb_true_iff in H. destruct H as [Hc Hs].
  rewrite Hc, (IH Hs). reflexivity.
Qed.

(** *** [replace] with patterns of one character *)

Lemma prefix_single (a c : ascii) (s : string) :
  prefix (String a "") (String c s) = Ascii.eqb c a.
Proof.
  simpl. destruct (ascii_dec a c) as [-> | Hne].
  - rewrite Ascii.eqb_refl. destruct s; reflexivity.
  - symmetry. apply Ascii.eqb_neq. congruence.
Qed.

Lemma replace_char (a b : ascii) (s : string) :
  Text.replace (String a "") (String b "") s = smap (subst_char a b) s.
Proof.
  unfold Text.replace. induction s as [|c s IH]; [reflexivity|].
  cbn [Text.replace_from smap]. rewrite prefix_single.
  unfold subst_char at 1. cbn [String.length Nat.sub].
  destruct (Ascii.eqb c a); simpl; rewrite IH; reflexivity.
Qed.

Lemma replace_char_drop (a : ascii) (s : string) :
  Text.replace (String a "") "" s = sfilter (other_than a) s.
Proof.
  unfold Text.replace. induction s as [|c s IH]; [reflexivity|].
  cbn [Text.replace_from sfilter]. rewrite prefix_single.
  unfold other_than at 1. cbn [String.length Nat.sub].
  destruct (Ascii.eqb c a); simpl; rewrite IH; reflexivity.
Qed.

Lemma replace_from_absent (a b : ascii) (new s : string) :
  sall (other_than a) s = true ->
  Text.replace_from (String a (String b "")) new O s = s.
Proof.
  induction s as [|c s IH]; [reflexivity|].
  cbn [sall]. intros H. apply andb_true_iff in H. destruct H as [Hc Hs].
  cbn [Text.replace_from].
  replace (prefix (String a (String b "")) (String c s)) with false.
  - rewrite (IH Hs). reflexivity.
  - simpl. destruct (ascii_dec a c) as [-> | Hne]; [|reflexivity].
    unfold other_than in Hc. rewrite Ascii.eqb_refl in Hc. discriminate.
Qed.

(** *** Cleaning a formatted amount *)



Lemma swap_separators_smap (s : string) :
  swap_separators s = smap swap_char s.
Proof.
  unfold swap_separators. rewrite !replace_char.
  induction s as [|c s IH]; simpl; [reflexivity|].
  rewrite IH. reflexivity.
Qed.

Lemma money_char_cleaned (c : ascii) :
  money_char c = true ->
  other_than "R" (swap_char c) = true
  /\ (if Ascii.eqb c "," then other_than "." (swap_char c) = false
      else other_than "." (swap_char c) = true
           /\ subst_char "," "." (swap_char c) = c).
Proof.
  destruct c as [[] [] [] [] [] [] [] []]; vm_compute; intros H;
    try discriminate H; repeat split.
Qed.

Lemma money_text_cleaned (body : string) :
  sall money_char body = true ->
  sall (other_than "R") (smap swap_char body) = true
  /\ smap (subst_char "," ".") (sfilter (other_than ".") (smap swap_char body))
     = sfilter (other_than ",") body.
Proof.
  induction body as [|c body IH]; [split; reflexivity|].
  cbn [sall smap sfilter]. intros H. apply andb_true_iff in H.
  destruct H as [Hc Hb]. destruct (IH Hb) as [IH1 IH2].
  destruct (money_char_cleaned c Hc) as [HR Hrest].
  rewrite HR, IH1. split; [reflexivity|].
  change (other_than "," c) with (negb (Ascii.eqb c ",")).
  destruct (Ascii.eqb c ",") eqn:E; cbn [negb].
  - rewrite Hrest. exact IH2.
  - destruct Hrest as [Hkeep Hback]. rewrite Hkeep. cbn [smap].
    rewrite Hback, IH2. reflexivity.
Qed.

Lemma currency_mark_removed (s : string) :
  sall (other_than "R") s = true ->
  Text.replace "R$" "" ("R$ " ++ s) = " " ++ s.
Proof.
  intros H. unfold Text.replace. cbn [append Text.replace_from].
  replace (prefix "R$" (String "R" (String "$" (String " " s)))) with true
    by (simpl; destruct s; reflexivity).
  cbn [String.length Nat.sub append Text.replace_from].
  replace (prefix "R$" (String " " s)) with false by reflexivity.
  rewrite (replace_from_absent "R" "$" "" s H). reflexivity.
Qed.

Lemma cleaned_currency (body : string) :
  sall money_char body = true ->
  Text.replace "," "."
    (Text.replace "." "" (Text.replace "R$" "" (swap_separators ("R$ " ++ body))))
  = " " ++ sfilter (other_than ",") body.
Proof.
  intros H. destruct (money_text_cleaned body H) as [HR Hclean].
  rewrite swap_separators_smap, smap_app.
  change (smap swap_char "R$ ") with "R$ ".
  rewrite (currency_mark_removed _ HR).
  rewrite replace_char_drop, replace_char. cbn [append sfilter smap].
  change (other_than "." " ") with true. cbv iota. cbn [smap].
  rewrite Hclean. reflexivity.
Qed.

(** *** Digits *)

Lemma digit_char_is_digit (d : Z) :
  0 <= d <= 9 ->
  Text.is_digit (Text.digit_char d) = true
  /\ Text.digit_value (Text.digit_char d) = d.
Proof.
  intros H. unfold Text.is_digit, Text.digit_value, Text.digit_char, Text.ord, Text.chr.
  rewrite N_ascii_embedding by lia. split; [|lia].
  apply andb_true_iff. split; apply N.leb_le; lia.
Qed.

Lemma is_digit_facts (c : ascii) :
  Text.is_digit c = true ->
  money_char c = true /\ other_than "," c = true /\ other_than "_" c = true
  /\ Text.is_space c = false /\ Text.lower_char c = c
  /\ Ascii.eqb c "-" = false /\ Ascii.eqb c "+" = false
  /\ Ascii.eqb c "." = false /\ Ascii.eqb c "i" = false
  /\ Ascii.eqb c "n" = false /\ Ascii.eqb c "_" = false.
Proof.
  destruct c as [[] [] [] [] [] [] [] []]; vm_compute; intros H;
    try discriminate H; repeat split.
Qed.

Lemma sval_app (a : Z) (s t : string) : sval a (s ++ t) = sval (sval a s) t.
Proof. revert a. induction s as [|c s IH]; intros a; simpl; auto. Qed.

Lemma digits_fuel_spec (fuel : nat) (n : Z) (acc : string) :
  0 <= n < 10 ^ Z.of_nat (S fuel) ->
  exists D,
    Text.digits_fuel (S fuel) n acc = D ++ acc
    /\ sall Text.is_digit D = true
    /\ D <> EmptyString
    /\ forall a, sval a D = a * 10 ^ Z.of_nat (String.length D) + n.
Proof.
  revert n acc. induction fuel as [|fuel IH]; intros n acc Hn;
    cbn [Text.digits_fuel]; destruct (n <? 10) eqn:E.
  1,3: apply Z.ltb_lt in E;
    destruct (digit_char_is_digit (n mod 10)) as [Hd Hv];
      [rewrite Z.mod_small; lia|];
    exists (String (Text.digit_char (n mod 10)) EmptyString);
    repeat split;
    [ simpl; rewrite Hd; reflexivity
    | discriminate
    | intros a; cbn [sval String.length]; rewrite Hv, Z.mod_small by lia;
      change (10 ^ Z.of_nat 1) with 10; lia ].
  - apply Z.ltb_ge in E. change (10 ^ Z.of_nat 1) with 10 in Hn. lia.
  - apply Z.ltb_ge in E.
    assert (Hq : 0 <= n / 10 < 10 ^ Z.of_nat (S fuel)).
    { split; [apply Z.div_pos; lia|].
      apply Z.div_lt_upper_bound; [lia|].
      rewrite (Nat2Z.inj_succ (S fuel)), Z.pow_succ_r in Hn by lia. lia. }
    destruct (IH (n / 10) (String (Text.digit_char (n mod 10)) acc) Hq)
      as (D & HD & Hall & _ & Hval).
    destruct (digit_char_is_digit (n mod 10)) as [Hd Hv];
      [pose proof (Z.mod_pos_bound n 10); lia|].
    exists (D ++ String (Text.digit_char (n mod 10)) EmptyString).
    repeat split.
    + cbn [Text.digits_fuel] in HD. rewrite HD, append_assoc. reflexivity.
    + rewrite sall_app, Hall. simpl. rewrite Hd. reflexivity.
    + destruct D; discriminate.
    + intros a. rewrite sval_app, Hval. cbn [sval]. rewrite Hv.
      rewrite length_append. cbn [String.length].
      rewrite Nat2Z.inj_add, Z.pow_add_r by lia.
      change (10 ^ Z.of_nat 1) with 10.
      pose proof (Z.div_mod n 10). lia.
Qed.

Lemma digits_spec (n : Z) :
  0 <= n ->
  sall Text.is_digit (Text.digits n) = true
  /\ Text.digits n <> EmptyString
  /\ forall a,
       sval a (Text.digits n)
       = a * 10 ^ Z.of_nat (String.length (Text.digits n)) + n.
Proof.
  intros Hn. unfold Text.digits.
  assert (Hb : 0 <= n < 10 ^ Z.of_nat (S (Z.to_nat (Z.log2 n)))).
  { split; [assumption|].
    destruct (Z.eq_dec n 0) as [-> | Hne]; [reflexivity|].
    rewrite Nat2Z.inj_succ, Z2Nat.id by apply Z.log2_nonneg.
    pose proof (Z.log2_spec n ltac:(lia)) as [_ Hlt].
    apply Z.lt_le_trans with (1 := Hlt).
    apply Z.pow_le_mono_l. lia. }
  destruct (digits_fuel_spec _ n EmptyString Hb) as (D & HD & Hall & Hne & Hval).
  rewrite append_nil_r in HD. rewrite HD. auto.
Qed.

Lemma two_digits_spec (r : Z) :
  0 <= r < 100 ->
  sall Text.is_digit (Conv.two_digits r) = true
  /\ forall a, sval a (Conv.two_digits r) = a * 100 + r.
Proof.
  intros Hr. unfold Conv.two_digits.
  destruct (digit_char_is_digit (r / 10)) as [H1 V1].
  { split; [apply Z.div_pos; lia|]. 
    assert (r / 10 < 10) by (apply Z.div_lt_upper_bound; lia). lia. }
  destruct (digit_char_is_digit (r mod 10)) as [H2 V2].
  { pose proof (Z.mod_pos_bound r 10). lia. }
  split.
  - simpl. rewrite H1, H2. reflexivity.
  - intros a. cbn [sval]. rewrite V1, V2. pose proof (Z.div_mod r 10). lia.
Qed.

(** *** Thousands separators *)

Lemma group3_cleaned (D : string) :
  sall Text.is_digit D = true ->
  sall money_char (Text.group3 D) = true
  /\ sfilter (other_than ",") (Text.group3 D) = D.
Proof.
  induction D as [|c D IH]; [split; reflexivity|].
  cbn [sall]. intros H. apply andb_true_iff in H. destruct H as [Hc HD].
  destruct (IH HD) as [IH1 IH2].
  destruct (is_digit_facts c Hc) as (Hm & Hk & _).
  cbn [Text.group3 sall sfilter]. rewrite Hm, Hk.
  destruct D as [|c' D']; [split; reflexivity|].
  destruct (Nat.eqb _ _); cbn [sall sfilter].
  - change (money_char ",") with true. change (other_than "," ",") with false.
    cbv iota. rewrite IH1, IH2. split; reflexivity.
  - rewrite IH1, IH2. split; reflexivity.
Qed.

(** *** White space, underscores and digit runs *)

Lemma rstrip_keeps (u : string) (l : ascii) :
  Text.is_space l = false ->
  Text.rstrip (u ++ String l "") = u ++ String l "".
Proof.
  intros Hl. induction u as [|c u IH]; simpl.
  - rewrite Hl. reflexivity.
  - rewrite IH. destruct u; reflexivity.
Qed.

Lemma strip_keeps (c l : ascii) (u : string) :
  Text.is_space c = false -> Text.is_space l = false ->
  Text.strip (String c (u ++ String l "")) = String c (u ++ String l "").
Proof.
  intros Hc Hl. unfold Text.strip. cbn [Text.lstrip]. rewrite Hc.
  apply (rstrip_keeps (String c u) l Hl).
Qed.

(** The white space of [float] is white space of [str.strip]. *)
Lemma float_space_is_space (c : ascii) :
  Text.is_space c = false -> Conv.is_float_space c = false.
Proof.
  destruct c as [[] [] [] [] [] [] [] []]; vm_compute; intros H;
    (reflexivity || discriminate H).
Qed.

Lemma skip_right_keeps (u : string) (l : ascii) :
  Conv.is_float_space l = false ->
  Conv.skip_right (u ++ String l "") = u ++ String l "".
Proof.
  intros Hl. induction u as [|c u IH]; simpl.
  - rewrite Hl. reflexivity.
  - rewrite IH. destruct u; reflexivity.
Qed.

Lemma skip_spaces_keeps (c l : ascii) (u : string) :
  Text.is_space c = false -> Text.is_space l = false ->
  Conv.skip_spaces (String c (u ++ String l ""))
  = String c (u ++ String l "").
Proof.
  intros Hc Hl. unfold Conv.skip_spaces. cbn [Conv.skip_left].
  rewrite (float_space_is_space c Hc).
  apply (skip_right_keeps (String c u) l (float_space_is_space l Hl)).
Qed.

Lemma drop_underscores_none (prev : ascii) (s : string) :
  Ascii.eqb prev "_" = false ->
  sall (other_than "_") s = true ->
  Conv.drop_underscores prev s = Some s.
Proof.
  revert prev. induction s as [|c s IH]; intros prev Hp; simpl.
  - rewrite Hp. reflexivity.
  - intros H. apply andb_true_iff in H. destruct H as [Hc Hs].
    unfold other_than in Hc. apply negb_true_iff in Hc.
    rewrite Hc, Hp. simpl. rewrite (IH c Hc Hs). reflexivity.
Qed.

Lemma take_digits_run (D rest : string) (a cnt : Z) :
  sall Text.is_digit D = true ->
  match rest with
  | String c _ => Text.is_digit c = false
  | EmptyString => True
  end ->
  Conv.take_digits (D ++ rest) a cnt
  = (sval a D, cnt + Z.of_nat (String.length D), rest).
Proof.
  intros HD Hrest. revert a cnt HD.
  induction D as [|c D IH]; intros a cnt HD.
  - cbn [append sval String.length]. replace (cnt + Z.of_nat 0) with cnt by lia.
    destruct rest as [|c r]; [reflexivity|].
    cbn [Conv.take_digits]. rewrite Hrest. reflexivity.
  - cbn [sall] in HD. apply andb_true_iff in HD. destruct HD as [Hc HD].
    cbn [append Conv.take_digits sval String.length]. rewrite Hc.
    rewrite (IH _ _ HD). f_equal. f_equal. lia.
Qed.

(** *** Reading back the text of an amount *)


Lemma format_f2_finite (comma s : bool) (m : positive) (e : Z) :
  Conv.format_f2 false comma (S754_finite s m e)
  = fixed_text comma s (F64.hundredths m e).
Proof. reflexivity. Qed.

Lemma format_f2_zero (comma s : bool) :
  Conv.format_f2 false comma (S754_zero s) = fixed_text comma s 0.
Proof. destruct comma, s; reflexivity. Qed.

Lemma fixed_text_money (neg : bool) (h : Z) :
  0 <= h ->
  sall money_char (fixed_text true neg h) = true
  /\ sfilter (other_than ",") (fixed_text true neg h) = fixed_text false neg h.
Proof.
  intros Hh. unfold fixed_text.
  destruct (digits_spec (h / 100)) as (HD & _ & _); [apply Z.div_pos; lia|].
  destruct (group3_cleaned _ HD) as [Hg1 Hg2].
  destruct (two_digits_spec (h mod 100)) as [Ht _];
    [apply Z.mod_pos_bound; lia|].
  assert (Htm : sall money_char (Conv.two_digits (h mod 100)) = true).
  { apply (sall_impl Text.is_digit); [|exact Ht].
    intros c Hc. apply (is_digit_facts c Hc). }
  assert (Htk : sall (other_than ",") (Conv.two_digits (h mod 100)) = true).
  { apply (sall_impl Text.is_digit); [|exact Ht].
    intros c Hc. apply (is_digit_facts c Hc). }
  split.
  - rewrite !sall_app, Hg1. cbn [sall append]. rewrite Htm.
    destruct neg; reflexivity.
  - rewrite !sfilter_app, Hg2. cbn [sfilter append].
    change (other_than "," ".") with true. cbv iota.
    rewrite (sfilter_all _ _ Htk). destruct neg; reflexivity.
Qed.

Lemma float_of_unsigned_text (neg : bool) (c : ascii) (D : string)
    (d1 d2 : ascii) :
  sall Text.is_digit (String c D) = true ->
  Text.is_digit d1 = true -> Text.is_digit d2 = true ->
  let body := String c D ++ "." ++ String d1 (String d2 "") in
  (String.eqb (Text.lower body) "inf"
   || String.eqb (Text.lower body) "infinity" = false
   /\ String.eqb (Text.lower body) "nan" = false)
  /\ Conv.parse_number neg body
     = Some (F64.of_decimal neg
               (sval 0 (String c D ++ String d1 (String d2 ""))) (-2)).
Proof.
  intros HD H1 H2 body. split.
  - cbn [sall] in HD. apply andb_true_iff in HD. destruct HD as [Hc _].
    destruct (is_digit_facts c Hc) as (_ & _ & _ & _ & Hl & _ & _ & _ & Hi & Hn & _).
    subst body. cbn [append Text.lower]. rewrite Hl.
    cbn [String.eqb]. rewrite Hi, Hn. split; reflexivity.
  - unfold Conv.parse_number. subst body.
    rewrite (take_digits_run (String c D) _ 0 0 HD) by reflexivity.
    cbn [append]. change (Ascii.eqb "." ".") with true. cbv iota.
    rewrite <- (append_nil_r (String d1 (String d2 ""))) at 1.
    rewrite (take_digits_run (String d1 (String d2 "")) "" _ 0);
      [|cbn [sall]; rewrite H1, H2; reflexivity|exact I].
    cbn [String.length].
    replace (0 <? _ + _) with true by (symmetry; apply Z.ltb_lt; lia).
    cbn [Conv.parse_exponent]. rewrite <- sval_app.
    reflexivity.
Qed.

Lemma float_of_fixed_text (neg : bool) (h : Z) :
  0 <= h ->
  Conv.float_of_string (Text.strip (" " ++ fixed_text false neg h))
  = Ok (F64.of_decimal neg h (-2)).
Proof.
  intros Hh. unfold fixed_text.
  destruct (digits_spec (h / 100)) as (HD & Hne & Hval);
    [apply Z.div_pos; lia|].
  destruct (two_digits_spec (h mod 100)) as [Ht Htv];
    [apply Z.mod_pos_bound; lia|].
  destruct (Text.digits (h / 100)) as [|c D] eqn:ED; [contradiction|].
  unfold Conv.two_digits in *.
  set (d1 := Text.digit_char (h mod 100 / 10)) in *.
  set (d2 := Text.digit_char (h mod 100 mod 10)) in *.
  cbn [sall] in Ht. rewrite andb_true_r in Ht.
  apply andb_true_iff in Ht. destruct Ht as [H1 H2].
  pose proof HD as HD'. cbn [sall] in HD'.
  apply andb_true_iff in HD'. destruct HD' as [Hc HDt].
  destruct (float_of_unsigned_text neg c D d1 d2 HD H1 H2)
    as [[Hword Hword'] Hnum].
  assert (Hv : sval 0 (String c D ++ String d1 (String d2 "")) = h).
  { rewrite sval_app, Htv, Hval. pose proof (Z.div_mod h 100). lia. }
  rewrite Hv in Hnum.
  assert (Hus : sall (other_than "_") (String c D ++ "." ++ String d1 (String d2 "")) = true).
  { rewrite sall_app. rewrite (sall_impl Text.is_digit _ _ (fun c H => proj1 (proj2 (proj2 (is_digit_facts c H)))) HD).
    cbn [sall append].
    rewrite (proj1 (proj2 (proj2 (is_digit_facts d1 H1)))).
    rewrite (proj1 (proj2 (proj2 (is_digit_facts d2 H2)))). reflexivity. }
  assert (Hsp2 : Text.is_space d2 = false) by apply (is_digit_facts d2 H2).
  assert (Hspc : Text.is_space c = false) by apply (is_digit_facts c Hc).
  set (body := String c D ++ "." ++ String d1 (String d2 "")) in *.
  assert (Hbody : body = String c ((D ++ "." ++ String d1 "") ++ String d2 "")).
  { subst body. cbn [append]. rewrite append_assoc. reflexivity. }
  assert (Hstrip : Text.strip (" " ++ Conv.sign_text false neg ++ body)
                   = Conv.sign_text false neg ++ body).
  { unfold Text.strip. cbn [append Text.lstrip].
    change (Text.is_space " ") with true. cbv iota.
    destruct neg; cbn [Conv.sign_text append].
    - change (Text.lstrip (String "-" body)) with (String "-" body).
      rewrite Hbody.
      apply (rstrip_keeps (String "-" (String c (D ++ "." ++ String d1 ""))) d2 Hsp2).
    - rewrite Hbody. apply (strip_keeps c d2 _ Hspc Hsp2). }
  change (String c D ++ "." ++ String d1 (String d2 "")) with body.
  rewrite Hstrip. unfold Conv.float_of_string.
  assert (Hstrip2 : Conv.skip_spaces (Conv.sign_text false neg ++ body)
                   = Conv.sign_text false neg ++ body).
  { destruct neg; cbn [Conv.sign_text append].
    - rewrite Hbody.
      apply (skip_spaces_keeps "-" d2 (String c (D ++ "." ++ String d1 ""))
               eq_refl Hsp2).
    - rewrite Hbody. apply (skip_spaces_keeps c d2 _ Hspc Hsp2). }
  rewrite Hstrip2.
  rewrite drop_underscores_none;
    [|reflexivity|destruct neg; cbn [Conv.sign_text append sall];
                  rewrite Hus; reflexivity].
  assert (Hsign : Conv.take_sign (Conv.sign_text false neg ++ body) = (neg, body)).
  { destruct neg; cbn [Conv.sign_text append]; [reflexivity|].
    rewrite Hbody. cbn [Conv.take_sign].
    destruct (is_digit_facts c Hc) as (_ & _ & _ & _ & _ & Hm & Hp & _).
    rewrite Hm, Hp. reflexivity. }
  rewrite Hsign. fold body in Hword, Hword', Hnum.
  rewrite Hword, Hword', Hnum. reflexivity.
Qed.

Lemma process_formatted (neg : bool) (h : Z) :
  0 <= h ->
  process_currency (JStr (swap_separators ("R$ " ++ fixed_text true neg h)))
  = Ok (F64.of_decimal neg h (-2)).
Proof.
  intros Hh. unfold process_currency.
  destruct (fixed_text_money neg h Hh) as [Hm Hf].
  rewrite (cleaned_currency _ Hm), Hf, (float_of_fixed_text neg h Hh).
  reflexivity.
Qed.

(** *** Rounding *)

Lemma rne_div_error (a b : Z) :
  0 < b -> 2 * Z.abs (b * F64.rne_div a b - a) <= b.
Proof.
  intros Hb. unfold F64.rne_div. cbv zeta.
  pose proof (Z.div_mod a b ltac:(lia)) as Hdm.
  pose proof (Z.mod_pos_bound a b Hb) as Hr.
  set (q := a / b) in *. set (r := a mod b) in *.
  assert (Hq1 : b * (q + 1) = b * q + b) by ring.
  clearbody q r.
  destruct (2 * r ?= b) eqn:E.
  - apply Z.compare_eq in E. destruct (Z.even q); lia.
  - rewrite Z.compare_lt_iff in E. lia.
  - rewrite Z.compare_gt_iff in E. lia.
Qed.

Lemma rne_div_near (a b c : Z) :
  0 < b -> 2 * Z.abs (a - c * b) < b -> F64.rne_div a b = c.
Proof.
  intros Hb Hnear. unfold F64.rne_div. cbv zeta.
  destruct (Z_le_gt_dec (c * b) a) as [Hle | Hgt].
  - assert (Hq : a / b = c) by (symmetry; apply Z.div_unique with (a - c * b); lia).
    assert (Hr : a mod b = a - c * b) by (symmetry; apply Z.mod_unique with c; lia).
    rewrite Hq, Hr.
    replace (2 * (a - c * b) ?= b) with Lt; [reflexivity|].
    symmetry. apply Z.compare_lt_iff. lia.
  - assert (Hq : a / b = c - 1)
      by (symmetry; apply Z.div_unique with (a - (c - 1) * b); lia).
    assert (Hr : a mod b = a - (c - 1) * b)
      by (symmetry; apply Z.mod_unique with (c - 1); lia).
    rewrite Hq, Hr.
    replace (2 * (a - (c - 1) * b) ?= b) with Gt; [lia|].
    symmetry. apply Z.compare_gt_iff. lia.
Qed.


Lemma pow2_pos (k : Z) : 0 <= k -> 0 < 2 ^ k.
Proof. intros H. apply Z.pow_pos_nonneg; lia. Qed.

Lemma up_pos (L : Z) : 0 < up L.
Proof. apply pow2_pos. lia. Qed.

Lemma dn_pos (L : Z) : 0 < dn L.
Proof. apply pow2_pos. lia. Qed.

Lemma up_dn_scale (K L : Z) :
  0 <= K -> 0 <= K + L -> up L * 2 ^ K = dn L * 2 ^ (K + L).
Proof.
  intros HK HKL. unfold up, dn.
  destruct (Z.le_gt_cases 0 L) as [H | H].
  - rewrite (Z.max_r 0 L), (Z.max_l 0 (- L)) by lia.
    rewrite Z.pow_0_r, Z.mul_1_l, <- Z.pow_add_r by lia. f_equal. lia.
  - rewrite (Z.max_l 0 L), (Z.max_r 0 (- L)) by lia.
    rewrite Z.pow_0_r, Z.mul_1_l, <- Z.pow_add_r by lia. f_equal. lia.
Qed.

Lemma ge2_scaled (n d L K : Z) :
  0 <= K -> 0 <= K + L ->
  ge2 n d L <-> d * 2 ^ (K + L) <= n * 2 ^ K.
Proof.
  intros HK HKL. unfold ge2.
  pose proof (up_dn_scale K L HK HKL) as E.
  pose proof (dn_pos L) as Hd. pose proof (up_pos L) as Hu.
  pose proof (pow2_pos K HK) as HpK. pose proof (pow2_pos (K + L) HKL) as HpKL.
  set (u := up L) in *. set (v := dn L) in *.
  set (a := 2 ^ K) in *. set (b := 2 ^ (K + L)) in *.
  clearbody u v a b.
  split; intros H.
  - apply (Z.mul_le_mono_pos_l _ _ v Hd).
    replace (v * (d * b)) with (d * (v * b)) by ring. rewrite <- E.
    replace (d * (u * a)) with (d * u * a) by ring.
    replace (v * (n * a)) with (n * v * a) by ring.
    apply Z.mul_le_mono_nonneg_r; lia.
  - apply (Z.mul_le_mono_pos_r _ _ a HpK).
    replace (d * u * a) with (d * (u * a)) by ring. rewrite E.
    replace (d * (v * b)) with (v * (d * b)) by ring.
    replace (n * v * a) with (v * (n * a)) by ring.
    apply Z.mul_le_mono_nonneg_l; lia.
Qed.

Lemma ge2_mono (n d L L' : Z) :
  0 <= d -> L' <= L -> ge2 n d L -> ge2 n d L'.
Proof.
  intros Hd HL H.
  set (K := Z.max 0 (- L')).
  apply (ge2_scaled n d L K) in H; [|lia|lia].
  apply (ge2_scaled n d L' K); [lia|lia|].
  apply Z.le_trans with (2 := H).
  apply Z.mul_le_mono_nonneg_l; [assumption|].
  apply Z.pow_le_mono_r; lia.
Qed.

Lemma ilog2_ratio_spec (n d : Z) :
  0 < n -> 0 < d ->
  ge2 n d (F64.ilog2_ratio n d) /\ ~ ge2 n d (F64.ilog2_ratio n d + 1).
Proof.
  intros Hn Hd. unfold F64.ilog2_ratio. cbv zeta.
  pose proof (Z.log2_spec n Hn) as [Hn1 Hn2].
  pose proof (Z.log2_spec d Hd) as [Hd1 Hd2].
  pose proof (Z.log2_nonneg n) as Ha. pose proof (Z.log2_nonneg d) as Hb.
  set (a := Z.log2 n) in *. set (b := Z.log2 d) in *.
  fold (dn (a - b)). fold (up (a - b)).
  set (K := b + 1).
  assert (HK : 0 <= K) by lia.
  assert (HKt : 0 <= K + (a - b - 1)) by lia.
  pose proof (pow2_pos K HK) as HpK.
  destruct (n * dn (a - b) <? d * up (a - b)) eqn:E.
  - apply Z.ltb_lt in E. split.
    + apply (ge2_scaled n d (a - b - 1) K HK HKt).
      apply Z.le_trans with (2 ^ Z.succ b * 2 ^ (K + (a - b - 1))).
      * apply Z.mul_le_mono_nonneg_r; [|lia].
        apply Z.lt_le_incl, pow2_pos. lia.
      * rewrite <- Z.pow_add_r by lia.
        replace (Z.succ b + (K + (a - b - 1))) with (a + K) by lia.
        rewrite Z.pow_add_r by lia.
        apply Z.mul_le_mono_nonneg_r; lia.
    + replace (a - b - 1 + 1) with (a - b) by lia. unfold ge2. lia.
  - apply Z.ltb_ge in E. split; [exact E|].
    intros H. apply (ge2_scaled n d (a - b + 1) K HK) in H; [|lia].
    assert (Hlt : n * 2 ^ K < d * 2 ^ (K + (a - b + 1))).
    { apply Z.lt_le_trans with (2 ^ Z.succ a * 2 ^ K).
      - apply Z.mul_lt_mono_pos_r; assumption.
      - rewrite <- Z.pow_add_r by lia.
        replace (Z.succ a + K) with (b + (K + (a - b + 1))) by lia.
        rewrite Z.pow_add_r by lia.
        apply Z.mul_le_mono_nonneg_r; [|lia].
        apply Z.lt_le_incl, pow2_pos. lia. }
    lia.
Qed.

Lemma ilog2_ratio_unique (n d L : Z) :
  0 < n -> 0 < d -> ge2 n d L -> ~ ge2 n d (L + 1) ->
  F64.ilog2_ratio n d = L.
Proof.
  intros Hn Hd H1 H2.
  destruct (ilog2_ratio_spec n d Hn Hd) as [G1 G2].
  destruct (Z.lt_trichotomy (F64.ilog2_ratio n d) L) as [Hlt | [Heq | Hgt]];
    [|exact Heq|].
  - exfalso. apply G2. apply (ge2_mono n d L); [lia|lia|exact H1].
  - exfalso. apply H2.
    apply (ge2_mono n d (F64.ilog2_ratio n d)); [lia|lia|exact G1].
Qed.

Lemma ge2_shift (n d e c : Z) :
  0 <= c -> ge2 n d (e + c) <-> d * up e * 2 ^ c <= n * dn e.
Proof.
  intros Hc.
  pose proof (pow2_pos c Hc) as Hpc.
  destruct (Z.le_gt_cases 0 e) as [He | He].
  - rewrite (ge2_scaled n d (e + c) 0) by lia.
    unfold up, dn. rewrite (Z.max_r 0 e), (Z.max_l 0 (- e)) by lia.
    rewrite Z.pow_0_r, Z.add_0_l, Z.pow_add_r by lia.
    rewrite Z.mul_assoc. reflexivity.
  - rewrite (ge2_scaled n d (e + c) (- e)) by lia.
    unfold up, dn. rewrite (Z.max_l 0 e), (Z.max_r 0 (- e)) by lia.
    replace (- e + (e + c)) with c by lia.
    rewrite Z.pow_0_r, Z.mul_1_r. reflexivity.
Qed.

Lemma rne_div_lower (a b lo : Z) :
  0 < b -> lo * b <= a -> lo <= F64.rne_div a b.
Proof.
  intros Hb H. unfold F64.rne_div. cbv zeta.
  assert (Hq : lo <= a / b) by (apply Z.div_le_lower_bound; lia).
  destruct (_ ?= _); [destruct (Z.even _)| |]; lia.
Qed.

Lemma rne_div_upper (a b hi : Z) :
  0 < b -> a <= hi * b -> F64.rne_div a b <= hi.
Proof.
  intros Hb H.
  destruct (Z.eq_dec a (hi * b)) as [-> | Hne].
  - rewrite (rne_div_near (hi * b) b hi); [lia|lia|].
    replace (hi * b - hi * b) with 0 by ring. simpl. lia.
  - unfold F64.rne_div. cbv zeta.
    assert (Hq : a / b < hi) by (apply Z.div_lt_upper_bound; lia).
    destruct (_ ?= _); [destruct (Z.even _)| |]; lia.
Qed.

(** A value in the binade of [m * 2 ^ e] and nearer to it than half a unit
    in the last place is rounded to it. *)
Lemma of_ratio_in_binade (s : bool) (n d m e : Z) :
  0 < n -> 0 < d ->
  2 ^ 52 <= m < 2 ^ 53 -> -1074 <= e <= 971 ->
  ge2 n d (e + 52) -> ~ ge2 n d (e + 53) ->
  2 * Z.abs (n * dn e - m * (d * up e)) < d * up e ->
  F64.of_ratio s n d = S754_finite s (Z.to_pos m) e.
Proof.
  intros Hn Hd Hm He G1 G2 Hnear.
  unfold F64.of_ratio.
  replace (n <=? 0) with false by (symmetry; apply Z.leb_gt; lia).
  rewrite (ilog2_ratio_unique n d (e + 52) Hn Hd G1)
    by (replace (e + 52 + 1) with (e + 53) by lia; exact G2).
  replace (Z.max (e + 52 - 52) (-1074)) with e by lia. cbv zeta.
  fold (dn e). fold (up e).
  rewrite (rne_div_near (n * dn e) (d * up e) m);
    [|pose proof (up_pos e); nia|exact Hnear].
  replace (m =? 2 ^ 53) with false by (symmetry; apply Z.eqb_neq; lia).
  replace (m =? 0) with false
    by (symmetry; apply Z.eqb_neq; change (2 ^ 52) with 4503599627370496 in Hm; lia).
  replace (971 <? e) with false by (symmetry; apply Z.ltb_ge; lia).
  reflexivity.
Qed.

(** The value that [of_ratio] gives in the normal range: its mantissa has 53
    bits. *)
Lemma of_ratio_normal (s : bool) (n d : Z) (s' : bool) (m : positive) (e : Z) :
  0 < n -> 0 < d ->
  -1022 <= F64.ilog2_ratio n d ->
  F64.of_ratio s n d = S754_finite s' m e ->
  s' = s /\ 2 ^ 52 <= Z.pos m < 2 ^ 53 /\ -1074 <= e <= 971
  /\ (e = F64.ilog2_ratio n d - 52 \/ e = F64.ilog2_ratio n d - 51).
Proof.
  intros Hn Hd Hlg. unfold F64.of_ratio.
  replace (n <=? 0) with false by (symmetry; apply Z.leb_gt; lia).
  destruct (ilog2_ratio_spec n d Hn Hd) as [G1 G2].
  set (lg := F64.ilog2_ratio n d) in *.
  replace (Z.max (lg - 52) (-1074)) with (lg - 52) by lia. cbv zeta.
  set (e0 := lg - 52).
  fold (dn e0). fold (up e0).
  replace lg with (e0 + 52) in G1 by (subst e0; lia).
  replace (lg + 1) with (e0 + 53) in G2 by (subst e0; lia).
  apply ge2_shift in G1; [|lia].
  rewrite ge2_shift in G2 by lia.
  pose proof (up_pos e0) as Hu. pose proof (dn_pos e0) as Hv.
  assert (Hlo : 2 ^ 52 <= F64.rne_div (n * dn e0) (d * up e0)).
  { apply rne_div_lower; [nia|]. lia. }
  assert (Hhi : F64.rne_div (n * dn e0) (d * up e0) <= 2 ^ 53).
  { apply rne_div_upper; [nia|]. lia. }
  set (m0 := F64.rne_div (n * dn e0) (d * up e0)) in *.
  change (2 ^ 52) with 4503599627370496 in *.
  change (2 ^ 53) with 9007199254740992 in *.
  destruct (m0 =? 9007199254740992) eqn:Em.
  - change (4503599627370496 =? 0) with false. cbv iota.
    destruct (971 <? e0 + 1) eqn:E9; [discriminate|].
    apply Z.ltb_ge in E9.
    intros [= <- <- <-]. change (Z.pos (Z.to_pos 4503599627370496)) with 4503599627370496.
    repeat split; try lia.
  - apply Z.eqb_neq in Em.
    destruct (m0 =? 0) eqn:Ez; [discriminate|].
    destruct (971 <? e0) eqn:E9; [discriminate|].
    apply Z.ltb_ge in E9.
    intros [= <- <- <-]. rewrite Z2Pos.id by lia. repeat split; try lia.
Qed.

Lemma ilog2_ratio_cents_lower (N : Z) : 0 < N -> -7 <= F64.ilog2_ratio N 100.
Proof.
  intros HN. destruct (ilog2_ratio_spec N 100 HN ltac:(lia)) as [_ G2].
  destruct (Z_le_gt_dec (-7) (F64.ilog2_ratio N 100)) as [H | H]; [exact H|].
  exfalso. apply G2. apply (ge2_mono N 100 (-7)); [lia|lia|].
  unfold ge2. change (up (-7)) with 1. change (dn (-7)) with 128. lia.
Qed.

(** In the normal range the float of a positive ratio is not a zero. *)
Lemma of_ratio_not_zero (s : bool) (n d : Z) (s' : bool) :
  0 < n -> 0 < d ->
  -1022 <= F64.ilog2_ratio n d ->
  F64.of_ratio s n d <> S754_zero s'.
Proof.
  intros Hn Hd Hlg. unfold F64.of_ratio.
  replace (n <=? 0) with false by (symmetry; apply Z.leb_gt; lia).
  destruct (ilog2_ratio_spec n d Hn Hd) as [G1 G2].
  set (lg := F64.ilog2_ratio n d) in *.
  replace (Z.max (lg - 52) (-1074)) with (lg - 52) by lia. cbv zeta.
  set (e0 := lg - 52).
  fold (dn e0). fold (up e0).
  replace lg with (e0 + 52) in G1 by (subst e0; lia).
  apply ge2_shift in G1; [|lia].
  pose proof (up_pos e0) as Hu. pose proof (dn_pos e0) as Hv.
  assert (Hlo : 2 ^ 52 <= F64.rne_div (n * dn e0) (d * up e0)).
  { apply rne_div_lower; [nia|]. lia. }
  set (m0 := F64.rne_div (n * dn e0) (d * up e0)) in *.
  change (2 ^ 52) with 4503599627370496 in *.
  change (2 ^ 53) with 9007199254740992 in *.
  destruct (m0 =? 9007199254740992).
  - change (4503599627370496 =? 0) with false. cbv iota.
    destruct (971 <? e0 + 1); discriminate.
  - replace (m0 =? 0) with false by (symmetry; apply Z.eqb_neq; lia).
    destruct (971 <? e0); discriminate.
Qed.

(** Where the floats are finer than a hundredth, the float of [N]
    hundredths prints the digits of [N]. *)
Lemma of_ratio_fine (s : bool) (N : Z) (s' : bool) (m : positive) (e : Z) :
  0 < N -> F64.ilog2_ratio N 100 <= 45 ->
  F64.of_ratio s N 100 = S754_finite s' m e ->
  s' = s /\ F64.hundredths m e = N.
Proof.
  intros HN Hlg.
  unfold F64.of_ratio.
  replace (N <=? 0) with false by (symmetry; apply Z.leb_gt; lia).
  set (e0 := Z.max (F64.ilog2_ratio N 100 - 52) (-1074)).
  assert (He0 : e0 <= -7) by (subst e0; lia).
  replace (Z.max 0 (- e0)) with (- e0) by lia.
  replace (Z.max 0 e0) with 0 by lia.
  change (100 * 2 ^ 0) with 100.
  pose proof (rne_div_error (N * 2 ^ (- e0)) 100 ltac:(lia)) as Herr.
  set (m0 := F64.rne_div (N * 2 ^ (- e0)) 100) in *.
  assert (Hp : 2 ^ (- e0) = 2 * 2 ^ (- e0 - 1)).
  { rewrite <- Z.pow_succ_r by lia. f_equal. lia. }
  assert (Hp64 : 64 <= 2 ^ (- e0 - 1)).
  { change 64 with (2 ^ 6). apply Z.pow_le_mono_r; lia. }
  destruct (m0 =? 2 ^ 53) eqn:Em.
  - apply Z.eqb_eq in Em. change (2 ^ 52 =? 0) with false. cbv iota.
    destruct (971 <? e0 + 1); [discriminate|].
    intros [= <- <- <-]. split; [reflexivity|].
    unfold F64.hundredths.
    replace (0 <=? e0 + 1) with false by (symmetry; apply Z.leb_gt; lia).
    replace (- (e0 + 1)) with (- e0 - 1) by lia.
    apply rne_div_near; [lia|].
    change (Z.pos (Z.to_pos (2 ^ 52))) with 4503599627370496.
    change (2 ^ 53) with 9007199254740992 in Em.
    rewrite Em, Hp in Herr. lia.
  - destruct (m0 =? 0) eqn:Ez; [discriminate|].
    destruct (971 <? e0); [discriminate|].
    apply Z.eqb_neq in Ez.
    intros [= <- <- <-]. split; [reflexivity|].
    unfold F64.hundredths.
    replace (0 <=? e0) with false by (symmetry; apply Z.leb_gt; lia).
    assert (Hm0 : 0 <= m0).
    { subst m0. unfold F64.rne_div.
      assert (0 <= N * 2 ^ (- e0) / 100) by (apply Z.div_pos; nia).
      destruct (_ ?= _); [destruct (Z.even _)| |]; lia. }
    rewrite Z2Pos.id by lia.
    apply rne_div_near; [lia|]. rewrite Hp in *. lia.
Qed.

(** Where the floats are coarser than a hundredth, the text of a float is
    read back as that float. *)
Lemma of_ratio_coarse (s : bool) (m : positive) (e : Z) :
  2 ^ 52 <= Z.pos m < 2 ^ 53 -> -6 <= e <= 971 ->
  F64.of_ratio s (F64.hundredths m e) 100 = S754_finite s m e.
Proof.
  intros Hm He.
  change (2 ^ 52) with 4503599627370496 in Hm.
  change (2 ^ 53) with 9007199254740992 in Hm.
  rewrite <- (Pos2Z.id m) at 2.
  destruct (Z_le_gt_dec 0 e) as [Hpos | Hneg].
  - unfold F64.hundredths.
    replace (0 <=? e) with true by (symmetry; apply Z.leb_le; lia).
    pose proof (pow2_pos e Hpos) as Hpe.
    assert (Hu : up e = 2 ^ e) by (unfold up; rewrite Z.max_r by lia; reflexivity).
    assert (Hd : dn e = 1) by (unfold dn; rewrite Z.max_l by lia; reflexivity).
    set (Q := 2 ^ e) in *. clearbody Q.
    assert (Hn : 0 < Z.pos m * Q * 100) by nia.
    apply of_ratio_in_binade; try lia.
    + apply ge2_shift; [lia|]. rewrite Hu, Hd.
      change (2 ^ 52) with 4503599627370496. nia.
    + rewrite ge2_shift by lia. rewrite Hu, Hd.
      change (2 ^ 53) with 9007199254740992. nia.
  - assert (Hcases : e = -1 \/ e = -2 \/ e = -3 \/ e = -4 \/ e = -5 \/ e = -6)
      by lia.
    unfold F64.hundredths.
    replace (0 <=? e) with false by (symmetry; apply Z.leb_gt; lia).
    pose proof (rne_div_error (Z.pos m * 100) (2 ^ (- e))
                  (pow2_pos (- e) ltac:(lia))) as Herr.
    assert (Hexact : Z.pos m = 4503599627370496 ->
                     F64.rne_div (Z.pos m * 100) (2 ^ (- e)) * 2 ^ (- e)
                     = Z.pos m * 100).
    { intros ->.
      destruct Hcases as [-> | [-> | [-> | [-> | [-> | ->]]]]];
        vm_compute; reflexivity. }
    set (h := F64.rne_div (Z.pos m * 100) (2 ^ (- e))) in *.
    assert (Hu : up e = 1) by (unfold up; rewrite Z.max_l by lia; reflexivity).
    assert (Hd : dn e = 2 ^ (- e)) by (unfold dn; rewrite Z.max_r by lia; reflexivity).
    assert (HP : 2 <= 2 ^ (- e) <= 64).
    { destruct Hcases as [-> | [-> | [-> | [-> | [-> | ->]]]]];
        vm_compute; split; discriminate. }
    set (P := 2 ^ (- e)) in *. clearbody P h.
    assert (Hlow : 100 * 4503599627370496 <= h * P).
    { destruct (Z.eq_dec (Z.pos m) 4503599627370496) as [E | Hne].
      - rewrite (Hexact E). lia.
      - lia. }
    assert (Hh : 0 < h) by nia.
    apply of_ratio_in_binade; try lia.
    + apply ge2_shift; [lia|]. rewrite Hu, Hd.
      change (2 ^ 52) with 4503599627370496. lia.
    + rewrite ge2_shift by lia. rewrite Hu, Hd.
      change (2 ^ 53) with 9007199254740992. lia.
Qed.

Lemma currency_round_trip (s : bool) (N : Z) :
  0 <= N ->
  process_currency (JStr (format_currency (F64.of_decimal s N (-2))))
  = Ok (F64.of_decimal s N (-2)).
Proof.
  intros HN. unfold format_currency.
  change (F64.of_decimal s N (-2)) with (F64.of_ratio s N 100).
  destruct (F64.of_ratio s N 100) as [s' | s' | | s' m e] eqn:Ex.
  - rewrite format_f2_zero. apply (process_formatted s' 0). lia.
  - destruct s'; reflexivity.
  - reflexivity.
  - assert (HN' : 0 < N).
    { destruct (Z.eq_dec N 0) as [-> | ]; [discriminate Ex|lia]. }
    pose proof (ilog2_ratio_cents_lower N HN') as Hlow.
    destruct (of_ratio_normal s N 100 s' m e HN' ltac:(lia) ltac:(lia) Ex)
      as (-> & Hm & He & Hlg).
    assert (Hh : 0 <= F64.hundredths m e).
    { unfold F64.hundredths. destruct (0 <=? e) eqn:E.
      - apply Z.leb_le in E. pose proof (pow2_pos e E). nia.
      - apply rne_div_lower; [apply pow2_pos; apply Z.leb_gt in E; lia|lia]. }
    rewrite format_f2_finite, (process_formatted s _ Hh).
    change (F64.of_decimal s (F64.hundredths m e) (-2))
      with (F64.of_ratio s (F64.hundredths m e) 100).
    destruct (Z_le_gt_dec (F64.ilog2_ratio N 100) 45) as [Hfine | Hcoarse].
    + destruct (of_ratio_fine s N s m e HN' Hfine Ex) as [_ ->].
      rewrite Ex. reflexivity.
    + rewrite (of_ratio_coarse s m e Hm) by lia. reflexivity.
Qed.

Lemma of_ratio_not_nan (s : bool) (n d : Z) :
  F64.is_nan (F64.of_ratio s n d) = false.
Proof.
  unfold F64.of_ratio. destruct (n <=? 0); [reflexivity|]. cbv zeta.
  destruct (_ =? 2 ^ 53); [destruct (_ =? 0)|destruct (_ =? 0)];
    try reflexivity; destruct (971 <? _); reflexivity.
Qed.

Lemma process_currency_not_text (v : json) :
  (forall s, v <> JStr s) -> process_currency v = Ok F64.zero.
Proof.
  intros H. destruct v; try reflexivity. destruct (H s eq_refl).
Qed.

(** [process_currency] raises nothing: its handler covers the two exceptions
    that its body can raise. *)
Lemma process_currency_total (v : json) : exists x, process_currency v = Ok x.
Proof.
  unfold process_currency. destruct v; try (eexists; reflexivity).
  unfold Conv.float_of_string.
  destruct (Conv.drop_underscores _ _) as [t|]; [|eexists; reflexivity].
  destruct (Conv.take_sign t) as [neg body].
  destruct (_ || _); [eexists; reflexivity|].
  destruct (String.eqb _ _); [eexists; reflexivity|].
  destruct (Conv.parse_number neg body); eexists; reflexivity.
Qed.

Lemma variation_text_some (previous equity : F64.float) :
  F64.is_zero previous = false ->
  variation_text (Some previous) equity =
    Ok (let variation :=
          F64.mul
            (SFdiv F64.prec F64.emax (F64.sub equity previous) previous)
            (F64.lit 100) in
        if F64.neb variation F64.zero
        then Conv.format_f2 true false variation ++ "%"
        else "0,00%").
Proof.
  intros Hnz. unfold variation_text, F64.truediv. rewrite Hnz. reflexivity.
Qed.

(** With a previous equity of zero the division raises. *)
Lemma variation_text_zero_previous (previous equity : F64.float) :
  F64.is_zero previous = true ->
  variation_text (Some previous) equity = Raise ZeroDivisionError.
Proof.
  intros Hz. unfold variation_text, F64.truediv. rewrite Hz. reflexivity.
Qed.

(** * The claims *)

(** C1 (fails on the code).  For a user with at least one stored record,
    [get_financial_results] should answer with one row per record.  The code
    calls [strftime] on the text of the period, which raises AttributeError
    in the first iteration: the answer is the error response with status
    500, whatever the records are. *)
Theorem C1_results_fail_when_some_record (t : table) (uid : Z) :
  Db.by_user uid t <> [] ->
  get_financial_results t uid = respond 500 (Error MsgResultsFailed).
Proof. apply results_fail_when_some_record. Qed.

Lemma C1_results_fail_witness :
  Db.by_user 1 [snapshot 1 1 "01/2024" (F64.lit 1000) (F64.lit 2000)] <> []
  /\ get_financial_results
       [snapshot 1 1 "01/2024" (F64.lit 1000) (F64.lit 2000)] 1
     = respond 500 (Error MsgResultsFailed).
Proof.
  assert (H : Db.by_user 1 [snapshot 1 1 "01/2024" (F64.lit 1000) (F64.lit 2000)]
              <> []) by discriminate.
  split; [exact H|].
  exact (C1_results_fail_when_some_record _ _ H).
Defined.

(** C10.  For a user with no stored record, [get_financial_results] answers
    with status 200, success and an empty list of rows. *)
Theorem C10_results_empty_when_no_record (t : table) (uid : Z) :
  Db.by_user uid t = [] ->
  get_financial_results t uid = respond 200 (SuccessData []).
Proof.
  intros H. unfold get_financial_results. rewrite H. reflexivity.
Qed.

Lemma C10_results_empty_witness :
  Db.by_user 2 [snapshot 1 1 "01/2024" (F64.lit 1000) (F64.lit 2000)] = []
  /\ get_financial_results
       [snapshot 1 1 "01/2024" (F64.lit 1000) (F64.lit 2000)] 2
     = respond 200 (SuccessData []).
Proof.
  split; [reflexivity|].
  apply (C10_results_empty_when_no_record
           [snapshot 1 1 "01/2024" (F64.lit 1000) (F64.lit 2000)] 2).
  reflexivity.
Defined.

(** C9 (fails on the code).  For every record the answer should carry the
    result over the sales, and [0.00%] for equity 500 with sales 0.  Line 468
    does compute [equity / total_sales * 100] for positive sales and the int
    [0] otherwise, whose text would be [0.00%]; but the row that should carry
    it is never built: the month of the first row raises AttributeError
    (line 471) and the answer is the error response with status 500. *)
Theorem C9_revenue_result_never_reported (t : table) (uid : Z)
    (item : FinancialData) (rest : table) :
  Db.order_by_date (Db.by_user uid t) = item :: rest ->
  revenue_result_of (equity_of item) item
  = Ok (if F64.gtb (total_sales item) F64.zero
        then PyFloat
               (F64.mul
                  (SFdiv F64.prec F64.emax (equity_of item) (total_sales item))
                  (F64.lit 100))
        else PyInt 0)
  /\ revenue_result_text (PyInt 0) = Ok "0.00%"
  /\ results_loop (item :: rest) None [] = Raise AttributeError
  /\ get_financial_results t uid = respond 500 (Error MsgResultsFailed).
Proof.
  intros Hd. split; [apply revenue_result_of_eq|].
  split; [vm_compute; reflexivity|].
  assert (Hl : results_loop (item :: rest) None [] = Raise AttributeError).
  { cbn [results_loop variation_text bind].
    rewrite revenue_result_of_eq. reflexivity. }
  split; [exact Hl|].
  unfold get_financial_results. rewrite Hd, Hl. reflexivity.
Qed.

Lemma C9_revenue_result_never_reported_witness :
  equity_of (snapshot 1 1 "01/2024" (F64.lit 500) F64.zero) = F64.lit 500
  /\ revenue_result_of (F64.lit 500)
       (snapshot 1 1 "01/2024" (F64.lit 500) F64.zero) = Ok (PyInt 0)
  /\ get_financial_results [snapshot 1 1 "01/2024" (F64.lit 500) F64.zero] 1
     = respond 500 (Error MsgResultsFailed).
Proof.
  destruct (C9_revenue_result_never_reported
              [snapshot 1 1 "01/2024" (F64.lit 500) F64.zero] 1
              (snapshot 1 1 "01/2024" (F64.lit 500) F64.zero) [] eq_refl)
    as (H1 & _ & _ & H2).
  split; [vm_compute; reflexivity|]. split; [vm_compute; reflexivity|].
  exact H2.
Defined.

(** C4 (fails on the code).  For a user with two records or more the answer
    should carry [N/A] in the first row and the signed percentage in every
    later one.  Lines 461 to 465 do compute [N/A] for the first record, and
    for a previous equity 1000 and an equity 1100 they would give [+10.00%];
    but the loop raises AttributeError at the month of the first row
    (line 471), before a second record is reached: no variation against a
    previous equity is ever computed and the answer is the error response
    with status 500. *)
Theorem C4_variation_never_reported (t : table) (uid : Z)
    (item next : FinancialData) (rest : table) :
  Db.order_by_date (Db.by_user uid t) = item :: next :: rest ->
  variation_text None (equity_of item) = Ok "N/A"
  /\ variation_text (Some (F64.lit 1000)) (F64.lit 1100) = Ok "+10.00%"
  /\ results_loop (item :: next :: rest) None [] = Raise AttributeError
  /\ get_financial_results t uid = respond 500 (Error MsgResultsFailed).
Proof.
  intros Hd. split; [reflexivity|]. split; [vm_compute; reflexivity|].
  assert (Hl : results_loop (item :: next :: rest) None []
               = Raise AttributeError).
  { cbn [results_loop variation_text bind].
    rewrite revenue_result_of_eq. reflexivity. }
  split; [exact Hl|].
  unfold get_financial_results. rewrite Hd, Hl. reflexivity.
Qed.

Lemma C4_variation_never_reported_witness :
  equity_of (snapshot 1 1 "01/2024" (F64.lit 1000) F64.zero) = F64.lit 1000
  /\ equity_of (snapshot 2 1 "02/2024" (F64.lit 1100) F64.zero) = F64.lit 1100
  /\ get_financial_results
       [snapshot 1 1 "01/2024" (F64.lit 1000) F64.zero;
        snapshot 2 1 "02/2024" (F64.lit 1100) F64.zero] 1
     = respond 500 (Error MsgResultsFailed).
Proof.
  destruct (C4_variation_never_reported
              [snapshot 1 1 "01/2024" (F64.lit 1000) F64.zero;
               snapshot 2 1 "02/2024" (F64.lit 1100) F64.zero] 1
              (snapshot 1 1 "01/2024" (F64.lit 1000) F64.zero)
              (snapshot 2 1 "02/2024" (F64.lit 1100) F64.zero) [] eq_refl)
    as (_ & _ & _ & H).
  split; [vm_compute; reflexivity|]. split; [vm_compute; reflexivity|].
  exact H.
Defined.

Lemma new_record_amounts (t : table) (uid : Z) (ref : string) (data : json)
    (amount : field -> F64.float) :
  (forall f, read_amount data f = Ok (amount f)) ->
  exists fd,
    new_record t uid ref data = Ok fd
    /\ id fd = Db.next_id t /\ user_id fd = uid
    /\ reference_date fd = normalize_date ref
    /\ forall f, get_field f fd = amount f.
Proof.
  intros H. unfold new_record. rewrite !H. cbn [bind].
  eexists. split; [reflexivity|]. repeat split. intros f. destruct f; reflexivity.
Qed.

Lemma storable_get_field (r : FinancialData) :
  (forall f, F64.is_nan (get_field f r) = false) -> Db.storable r = true.
Proof.
  intros H. unfold Db.storable, Db.amounts. cbn [forallb].
  rewrite (H CashBalance : F64.is_nan (cash_balance r) = false).
  rewrite (H BankBalance : F64.is_nan (bank_balance r) = false).
  rewrite (H AccountsReceivable : F64.is_nan (accounts_receivable r) = false).
  rewrite (H InventoryBalance : F64.is_nan (inventory_balance r) = false).
  rewrite (H OtherCredits : F64.is_nan (other_credits r) = false).
  rewrite (H FixedAssets : F64.is_nan (fixed_assets r) = false).
  rewrite (H Investments : F64.is_nan (investments r) = false).
  rewrite (H AccountsPayable : F64.is_nan (accounts_payable r) = false).
  rewrite (H LoansFinancing : F64.is_nan (loans_financing r) = false).
  rewrite (H InstallmentsPayable : F64.is_nan (installments_payable r) = false).
  rewrite (H TotalSales : F64.is_nan (total_sales r) = false).
  reflexivity.
Qed.

(** A creation with a valid new period whose amounts are read as the floats
    [x], none of them NaN, appends the record that holds them as SQLite gives
    them back. *)
Lemma create_with_amounts (t : table) (uid : Z) (data : json) (ref : string)
    (x : field -> F64.float) :
  read_reference_date data = Ok ref ->
  Db.by_user_date uid ref t = [] ->
  (forall f, read_amount data f = Ok (x f)) ->
  (forall f, F64.is_nan (x f) = false) ->
  exists fd,
    add_financial_data t uid data
    = (respond 200 (Success MsgAdded), (t ++ [fd])%list)
    /\ id fd = Db.next_id t /\ user_id fd = uid /\ reference_date fd = ref
    /\ forall f, get_field f fd = Db.stored_amount (x f).
Proof.
  intros Hr Hq Hx Hnan.
  destruct (new_record_amounts t uid ref data x Hx)
    as (fd & Hn & Hid & Hu & Hd & Hg).
  rewrite (normalize_date_canonical ref (read_reference_date_canonical _ _ Hr))
    in Hd.
  exists (Db.stored fd). unfold add_financial_data.
  rewrite Hr, Hq. cbn [Db.first]. rewrite Hn. unfold Db.insert.
  rewrite storable_get_field by (intros f; rewrite Hg; apply Hnan).
  repeat split; try assumption.
  intros f. rewrite stored_get_field, Hg. reflexivity.
Qed.

Lemma of_decimal_not_nan (s : bool) (N : Z) :
  F64.is_nan (F64.of_decimal s N (-2)) = false.
Proof. apply (of_ratio_not_nan s N 100). Qed.

(** An amount of hundredths other than the negative zero is read back from
    the table as it was written. *)
Lemma stored_amount_cents (s : bool) (N : Z) :
  0 <= N -> (s = true -> 0 < N) ->
  Db.stored_amount (F64.of_decimal s N (-2)) = F64.of_decimal s N (-2).
Proof.
  intros HN Hs. change (F64.of_decimal s N (-2)) with (F64.of_ratio s N 100).
  destruct (Z.eq_dec N 0) as [-> | Hne].
  - destruct s; [specialize (Hs eq_refl); lia|reflexivity].
  - assert (HN' : 0 < N) by lia.
    pose proof (ilog2_ratio_cents_lower N HN') as Hlg.
    destruct (F64.of_ratio s N 100) as [s' | | |] eqn:E; try reflexivity.
    exfalso. apply (of_ratio_not_zero s N 100 s' HN'); [lia|lia|exact E].
Qed.

(** C2 (amended).  On create, a monetary field supplied as formatted currency
    text (the text that [format_currency] gives for an amount with two
    fraction digits) is stored as that amount, a negative zero as [0.0]; a
    field supplied as a value that is not text, a raw JSON number included,
    is stored as [0.0].  Whatever the mix of the two in the eleven fields,
    the request succeeds and appends a record with these amounts. *)
Theorem C2_create_amounts (t : table) (uid : Z) (data : json) (ref : string)
    (value : field -> json) (amount : field -> F64.float) :
  read_reference_date data = Ok ref ->
  Db.by_user_date uid ref t = [] ->
  (forall f, Json.getitem data (field_name f) = Ok (value f)) ->
  (forall f,
     (exists neg cents,
        0 <= cents
        /\ value f = JStr (format_currency (F64.of_decimal neg cents (-2)))
        /\ amount f = Db.stored_amount (F64.of_decimal neg cents (-2)))
     \/ ((forall s, value f <> JStr s) /\ amount f = F64.zero)) ->
  exists fd,
    add_financial_data t uid data
    = (respond 200 (Success MsgAdded), (t ++ [fd])%list)
    /\ user_id fd = uid /\ reference_date fd = ref
    /\ forall f, get_field f fd = amount f.
Proof.
  intros Hr Hq Hv Hk.
  assert (Hx : forall f,
             process_currency (value f) = Ok (amount_read (value f))
             /\ F64.is_nan (amount_read (value f)) = false
             /\ Db.stored_amount (amount_read (value f)) = amount f).
  { intros f. unfold amount_read.
    destruct (Hk f) as [(neg & cents & Hc & -> & ->) | [Hn ->]].
    - rewrite (currency_round_trip neg cents Hc).
      split; [reflexivity|]. split; [apply of_decimal_not_nan|reflexivity].
    - rewrite (process_currency_not_text (value f) Hn). repeat split. }
  destruct (create_with_amounts t uid data ref (fun f => amount_read (value f))
              Hr Hq)
    as (fd & Ha & _ & Hu & Hd & Hg).
  - intros f. unfold read_amount. rewrite Hv. cbn [bind]. apply Hx.
  - intros f. apply Hx.
  - exists fd. split; [exact Ha|]. split; [exact Hu|]. split; [exact Hd|].
    intros f. rewrite Hg. apply Hx.
Qed.

Lemma C2_create_amounts_witness :
  exists fd,
    add_financial_data [] 1 text_and_numbers
    = (respond 200 (Success MsgAdded), [fd])
    /\ get_field CashBalance fd = F64.of_decimal false 123450 (-2)
    /\ get_field TotalSales fd = F64.zero.
Proof.
  destruct (C2_create_amounts [] 1 text_and_numbers "01/2024"
              (fun f => match f with
                        | CashBalance => JStr "R$ 1.234,50"
                        | BankBalance => JInt 1234
                        | _ => JFloat (F64.of_decimal false 12345 (-1))
                        end)
              (fun f => match f with
                        | CashBalance => F64.of_decimal false 123450 (-2)
                        | _ => F64.zero
                        end))
    as (fd & Ha & _ & _ & Hg).
  - vm_compute. reflexivity.
  - reflexivity.
  - intros f. destruct f; vm_compute; reflexivity.
  - intros f. destruct f;
      try (right; split; [intros s; discriminate|reflexivity]).
    left. exists false, 123450.
    split; [lia|]. split; vm_compute; reflexivity.
  - exists fd. split; [exact Ha|].
    split; [exact (Hg CashBalance)|exact (Hg TotalSales)].
Defined.

(** C2 as stated fails: a body whose amounts are the raw number 1234.5 is
    accepted, and the record created stores 0.0 in every amount. *)
Lemma C2_create_amounts_counterexample :
  add_financial_data [] 1
    (body_with (JStr "01/2024") (JFloat (F64.of_decimal false 12345 (-1))))
  = (respond 200 (Success MsgAdded),
     [snapshot 1 1 "01/2024" F64.zero F64.zero])
  /\ F64.eqb F64.zero (F64.of_decimal false 12345 (-1)) = false.
Proof. split; vm_compute; reflexivity. Qed.

(** C5.  For every amount of [N] hundredths and either sign, parsing the
    formatted float of the amount (the float nearest to [N / 100]) gives the
    float back.
    The float of 1234.5 is formatted as [R$ 1.234,50], that of 1234567.89 as
    [R$ 1.234.567,89], and [R$ 1.234,50] is parsed as the float of 1234.5. *)
Theorem C5_currency_round_trip (s : bool) (N : Z) :
  0 <= N ->
  process_currency (JStr (format_currency (F64.of_decimal s N (-2))))
  = Ok (F64.of_decimal s N (-2))
  /\ format_currency (F64.of_decimal false 12345 (-1)) = "R$ 1.234,50"
  /\ format_currency (F64.of_decimal false 123456789 (-2)) = "R$ 1.234.567,89"
  /\ process_currency (JStr "R$ 1.234,50")
     = Ok (F64.of_decimal false 12345 (-1)).
Proof.
  intros HN. split; [apply currency_round_trip, HN|].
  repeat split.
Qed.

Lemma C5_currency_round_trip_witness :
  0 <= 123450
  /\ process_currency (JStr (format_currency (F64.of_decimal true 123450 (-2))))
     = Ok (F64.of_decimal true 123450 (-2)).
Proof.
  assert (H : 0 <= 123450) by lia.
  split; [exact H|].
  exact (proj1 (C5_currency_round_trip true 123450 H)).
Defined.
Lemma two_years_reachable : reachable two_years.
Proof.
  unfold two_years, run. cbn [fold_left].
  apply reachable_step, reachable_step, reachable_empty.
Qed.

(** C3 (amended).  [get_available_months] answers with the periods of the
    user's records, each record once, in descending order of the texts
    compared character by character. *)
Theorem C3_months_by_text (t : table) (uid : Z) :
  exists months,
    get_available_months t uid = respond 200 (Months months)
    /\ Permutation (map reference_date (Db.by_user uid t)) months
    /\ StronglySorted (fun a b => String.leb b a = true) months.
Proof. apply months_sorted_by_text. Qed.

(** C3 as stated fails: after creating 01/2024 and 02/2023 the answer lists
    02/2023 before 01/2024, which is not the most recent first. *)
Lemma C3_months_counterexample :
  reachable two_years
  /\ get_available_months two_years 1
     = respond 200 (Months ["02/2023"; "01/2024"])
  /\ ~ most_recent_first ["02/2023"; "01/2024"].
Proof.
  split; [exact two_years_reachable|]. split; [vm_compute; reflexivity|].
  intros H. inversion H as [|a l _ Hall]; subst.
  inversion Hall as [|b l' Hnb _]; subst.
  unfold not_before in Hnb. vm_compute in Hnb.
  destruct Hnb as [Hlt | [Heq _]]; discriminate.
Qed.

(** C6.  In every table that requests produce from the empty one, no two
    records have the same user and period and every stored period is in the
    canonical form MM/20YY.  After a successful creation for 01/2024, a
    creation for 1/2024 by the same user is refused as a duplicate and leaves
    the table as it is. *)
Theorem C6_one_record_per_period (t : table) :
  reachable t ->
  NoDup (map period_key t)
  /\ Forall (fun r => canonical_period (reference_date r)) t
  /\ forall (uid : Z) (fields1 fields2 : list (string * json)) (t1 : table),
       add_financial_data t uid
         (JDict (("reference_date", JStr "01/2024") :: fields1))
       = (respond 200 (Success MsgAdded), t1) ->
       add_financial_data t1 uid
         (JDict (("reference_date", JStr "1/2024") :: fields2))
       = (respond 400 (Error MsgDuplicate), t1).
Proof.
  intros Hr. destruct (reachable_ok t Hr) as [_ Hk Hp].
  split; [exact Hk|]. split; [exact Hp|].
  intros uid fields1 fields2 t1. apply add_again_is_duplicate.
Qed.

Lemma C6_one_record_per_period_witness :
  NoDup (map period_key two_years)
  /\ Forall (fun r => canonical_period (reference_date r)) two_years.
Proof.
  destruct (C6_one_record_per_period two_years two_years_reachable)
    as (Hk & Hp & _).
  split; [exact Hk|exact Hp].
Defined.

Lemma update_stops_at_first_amount (t : table) (uid : Z) (ref : string)
    (old : FinancialData) (v : json) (fields : list (string * json)) :
  ref <> EmptyString ->
  Db.first (Db.by_user_date uid ref t) = Some old ->
  forall e, Json.to_float v = Raise e ->
  update_financial_data t uid
    (JDict (("reference_date", JStr ref) :: ("cash_balance", v) :: fields))
  = (match e with
     | ValueError => respond 400 (Error (MsgConvert ValueError))
     | KeyError k => respond 400 (Error (MsgConvert (KeyError k)))
     | _ => respond 500 (Error (MsgException e))
     end, t).
Proof.
  intros Hne Hold e He. unfold update_financial_data.
  cbn [Json.truthy negb Json.get Json.assoc String.eqb Ascii.eqb Bool.eqb].
  replace (String.eqb ref "") with false
    by (symmetry; apply String.eqb_neq, Hne).
  cbn [negb find_for_update]. rewrite Hold.
  cbn [all_fields assign_all field_name Json.getitem Json.assoc].
  change (String.eqb "cash_balance" "reference_date") with false.
  change (String.eqb "cash_balance" "cash_balance") with true.
  cbn [bind]. rewrite He. destruct e; reflexivity.
Qed.

(** C8 (fails on the code).  On the update of an existing record, an amount
    that is not a number should be refused with status 400.  A JSON null in
    the first amount makes [float] raise TypeError, which the handler of the
    conversion does not catch: the answer has status 500.  A text that is not
    a number is refused with status 400.  The table is unchanged in both
    cases. *)
Theorem C8_update_null_amount (t : table) (uid : Z) (ref : string)
    (old : FinancialData) (fields : list (string * json)) :
  ref <> EmptyString ->
  Db.first (Db.by_user_date uid ref t) = Some old ->
  update_financial_data t uid
    (JDict (("reference_date", JStr ref) :: ("cash_balance", JNull) :: fields))
  = (respond 500 (Error (MsgException TypeError)), t)
  /\ update_financial_data t uid
       (JDict (("reference_date", JStr ref)
               :: ("cash_balance", JStr "abc") :: fields))
     = (respond 400 (Error (MsgConvert ValueError)), t).
Proof.
  intros Hne Hold. split.
  - apply (update_stops_at_first_amount t uid ref old JNull fields Hne Hold
             TypeError eq_refl).
  - apply (update_stops_at_first_amount t uid ref old (JStr "abc") fields
             Hne Hold ValueError eq_refl).
Qed.

Lemma C8_update_null_amount_witness :
  Db.first
    (Db.by_user_date 1 "01/2024"
       [snapshot 1 1 "01/2024" (F64.lit 100) (F64.lit 200)])
  = Some (snapshot 1 1 "01/2024" (F64.lit 100) (F64.lit 200))
  /\ update_financial_data
       [snapshot 1 1 "01/2024" (F64.lit 100) (F64.lit 200)] 1
       (body_with (JStr "01/2024") JNull)
     = (respond 500 (Error (MsgException TypeError)),
        [snapshot 1 1 "01/2024" (F64.lit 100) (F64.lit 200)]).
Proof.
  split; [reflexivity|].
  refine (proj1 (C8_update_null_amount
                   [snapshot 1 1 "01/2024" (F64.lit 100) (F64.lit 200)] 1
                   "01/2024"
                   (snapshot 1 1 "01/2024" (F64.lit 100) (F64.lit 200))
                   _ _ eq_refl)).
  discriminate.
Defined.

(** * Further properties *)

(** ** Creation *)

Lemma read_amount_present (d : list (string * json)) (f : field) (v : json) :
  Json.assoc (field_name f) d = Some v ->
  read_amount (JDict d) f = process_currency v.
Proof. intros H. unfold read_amount. cbn [Json.getitem]. rewrite H. reflexivity. Qed.

Lemma read_amount_absent (d : list (string * json)) (f : field) :
  Json.assoc (field_name f) d = None ->
  read_amount (JDict d) f = Raise (KeyError (field_name f)).
Proof. intros H. unfold read_amount. cbn [Json.getitem]. rewrite H. reflexivity. Qed.

Lemma new_record_missing (t : table) (uid : Z) (ref : string)
    (d : list (string * json)) (f : field) :
  first_missing d = Some f ->
  new_record t uid ref (JDict d) = Raise (KeyError (field_name f)).
Proof.
  unfold first_missing, all_fields. cbn [find]. intros H.
  unfold new_record.
  repeat match type of H with
  | context [Json.assoc (field_name ?g) d] =>
      let E := fresh "E" in
      destruct (Json.assoc (field_name g) d) as [?v|] eqn:E;
      cbv beta iota in H;
      [ rewrite (read_amount_present d g _ E);
        match type of E with
        | _ = Some ?w =>
            let x := fresh "x" in
            let Hx := fresh "Hx" in
            destruct (process_currency_total w) as [x Hx]; rewrite Hx;
            cbn [bind]
        end
      | injection H as <-; rewrite (read_amount_absent d _ E); reflexivity ]
  end.
  discriminate H.
Qed.

Lemma new_record_present (t : table) (uid : Z) (ref : string)
    (d : list (string * json)) :
  first_missing d = None ->
  exists fd,
    new_record t uid ref (JDict d) = Ok fd
    /\ id fd = Db.next_id t /\ user_id fd = uid
    /\ reference_date fd = normalize_date ref
    /\ forall f, exists v,
         Json.assoc (field_name f) d = Some v
         /\ process_currency v = Ok (get_field f fd).
Proof.
  unfold first_missing, all_fields. cbn [find]. intros H.
  unfold new_record.
  repeat match type of H with
  | context [Json.assoc (field_name ?g) d] =>
      let E := fresh "E" in
      destruct (Json.assoc (field_name g) d) as [?v|] eqn:E;
      cbv beta iota in H;
      [ rewrite (read_amount_present d g _ E);
        match type of E with
        | _ = Some ?w =>
            let x := fresh "x" in
            let Hx := fresh "Hx" in
            destruct (process_currency_total w) as [x Hx]; rewrite Hx;
            cbn [bind]
        end
      | discriminate H ]
  end.
  eexists. split; [reflexivity|]. repeat split.
  intros f. destruct f; eexists; split; eassumption.
Qed.

Lemma create_effect_lemma (t : table) (uid : Z) (data : json) :
  (code (fst (add_financial_data t uid data)) = 400
   /\ snd (add_financial_data t uid data) = t)
  \/ (fst (add_financial_data t uid data) = respond 200 (Success MsgAdded)
      /\ exists fd,
           snd (add_financial_data t uid data) = (t ++ [fd])%list
           /\ id fd = Db.next_id t /\ user_id fd = uid
           /\ canonical_period (reference_date fd)
           /\ Db.by_user_date uid (reference_date fd) t = []
           /\ Db.storable fd = true).
Proof.
  unfold add_financial_data.
  destruct (read_reference_date data) as [ref | e] eqn:Hr.
  2:{ left. destruct e; split; reflexivity. }
  destruct (Db.by_user_date uid ref t) as [|r rs] eqn:Hq; cbn [Db.first].
  2:{ left. split; reflexivity. }
  destruct (new_record t uid ref data) as [fd | e] eqn:Hn.
  2:{ left. destruct e; split; reflexivity. }
  unfold Db.insert. destruct (Db.storable fd) eqn:Hs.
  2:{ left. split; reflexivity. }
  right. split; [reflexivity|]. exists (Db.stored fd).
  destruct (new_record_inv _ _ _ _ _ Hn) as (Hid & Hu & Hd).
  pose proof (read_reference_date_canonical _ _ Hr) as Hc.
  rewrite (normalize_date_canonical _ Hc) in Hd.
  rewrite stored_is_storable.
  cbn [Db.stored id user_id reference_date].
  rewrite Hd. repeat split; auto.
Qed.

Lemma create_missing_lemma (t : table) (uid : Z) (d : list (string * json))
    (ref : string) (f : field) :
  read_reference_date (JDict d) = Ok ref ->
  Db.by_user_date uid ref t = [] ->
  first_missing d = Some f ->
  add_financial_data t uid (JDict d)
  = (respond 400 (Error (MsgMissingField (KeyError (field_name f)))), t).
Proof.
  intros Hr Hq Hf. unfold add_financial_data. rewrite Hr, Hq. cbn [Db.first].
  rewrite (new_record_missing t uid ref d f Hf). reflexivity.
Qed.

Lemma create_accepts_lemma (t : table) (uid : Z) (d : list (string * json))
    (ref : string) :
  read_reference_date (JDict d) = Ok ref ->
  Db.by_user_date uid ref t = [] ->
  first_missing d = None ->
  exists fd,
    id fd = Db.next_id t /\ user_id fd = uid /\ reference_date fd = ref
    /\ (forall f, exists v x,
          Json.assoc (field_name f) d = Some v
          /\ process_currency v = Ok x
          /\ get_field f fd = Db.stored_amount x)
    /\ add_financial_data t uid (JDict d)
       = if Db.storable fd
         then (respond 200 (Success MsgAdded), (t ++ [fd])%list)
         else (respond 400 (Error (MsgException IntegrityError)), t).
Proof.
  intros Hr Hq Hf.
  destruct (new_record_present t uid ref d Hf) as (fd & Hn & Hid & Hu & Hd & Hv).
  pose proof (read_reference_date_canonical _ _ Hr) as Hc.
  rewrite (normalize_date_canonical _ Hc) in Hd.
  exists (Db.stored fd). rewrite stored_is_storable.
  split; [exact Hid|]. split; [exact Hu|]. split; [exact Hd|]. split.
  - intros f. destruct (Hv f) as (v & Ev & Ex).
    exists v, (get_field f fd). rewrite stored_get_field. auto.
  - unfold add_financial_data. rewrite Hr, Hq. cbn [Db.first]. rewrite Hn.
    unfold Db.insert. destruct (Db.storable fd); reflexivity.
Qed.

(** ** Text with a decimal point *)

Lemma strip_fixed (c : ascii) (s v : string) (l : ascii) :
  Text.is_space c = false ->
  String c s = v ++ String l "" ->
  Text.is_space l = false ->
  Text.strip (String c s) = String c s.
Proof.
  intros Hc E Hl. unfold Text.strip. cbn [Text.lstrip]. rewrite Hc, E.
  apply rstrip_keeps, Hl.
Qed.

Lemma digit_text_last (a : ascii) (u : string) :
  sall Text.is_digit (String a u) = true ->
  exists v l, String a u = v ++ String l "" /\ Text.is_space l = false.
Proof.
  revert a. induction u as [|b u IH]; intros a Ha.
  - exists "", a. split; [reflexivity|].
    cbn [sall] in Ha. apply andb_true_iff in Ha.
    apply (is_digit_facts a (proj1 Ha)).
  - cbn [sall] in Ha. apply andb_true_iff in Ha. destruct Ha as [_ Hb].
    destruct (IH b Hb) as (v & l & E & Hl'). exists (String a v), l.
    rewrite E. split; [reflexivity|exact Hl'].
Qed.

Lemma strip_digit_text (neg : bool) (c : ascii) (D : string) :
  sall Text.is_digit (String c D) = true ->
  Text.strip (Conv.sign_text false neg ++ String c D)
  = Conv.sign_text false neg ++ String c D.
Proof.
  intros HD. destruct (digit_text_last c D HD) as (v & l & E & Hl).
  pose proof HD as HD'. cbn [sall] in HD'. apply andb_true_iff in HD'.
  destruct (is_digit_facts c (proj1 HD')) as (_ & _ & _ & Hsp & _).
  destruct neg; cbn [Conv.sign_text append].
  - rewrite E. apply (strip_keeps "-" l v eq_refl Hl).
  - apply (strip_fixed c D v l Hsp E Hl).
Qed.

Lemma skip_digit_text (neg : bool) (c : ascii) (D : string) :
  sall Text.is_digit (String c D) = true ->
  Conv.skip_spaces (Conv.sign_text false neg ++ String c D)
  = Conv.sign_text false neg ++ String c D.
Proof.
  intros HD. destruct (digit_text_last c D HD) as (v & l & E & Hl).
  pose proof HD as HD'. cbn [sall] in HD'. apply andb_true_iff in HD'.
  destruct (is_digit_facts c (proj1 HD')) as (_ & _ & _ & Hsp & _).
  destruct neg; cbn [Conv.sign_text append].
  - rewrite E. apply (skip_spaces_keeps "-" l v eq_refl Hl).
  - unfold Conv.skip_spaces. cbn [Conv.skip_left].
    rewrite (float_space_is_space c Hsp), E.
    apply skip_right_keeps, float_space_is_space, Hl.
Qed.

Lemma float_of_digit_text (neg : bool) (D : string) :
  sall Text.is_digit D = true -> D <> EmptyString ->
  Conv.float_of_string (Conv.sign_text false neg ++ D)
  = Ok (F64.of_decimal neg (sval 0 D) 0).
Proof.
  intros HD Hne. destruct D as [|c D]; [contradiction|].
  pose proof HD as HD'. cbn [sall] in HD'.
  apply andb_true_iff in HD'. destruct HD' as [Hc HDt].
  destruct (is_digit_facts c Hc)
    as (_ & _ & _ & Hsp & Hl & Hm & Hp & Hdot & Hi & Hn & _).
  assert (Hus : sall (other_than "_") (String c D) = true).
  { apply (sall_impl Text.is_digit); [|exact HD].
    intros a Ha. apply (is_digit_facts a Ha). }
  unfold Conv.float_of_string. rewrite (skip_digit_text neg c D HD).
  rewrite drop_underscores_none;
    [|reflexivity|destruct neg; cbn [Conv.sign_text append sall];
                  rewrite ?Hus; try reflexivity; exact Hus].
  assert (Hsign : Conv.take_sign (Conv.sign_text false neg ++ String c D)
                  = (neg, String c D)).
  { destruct neg; cbn [Conv.sign_text append]; [reflexivity|].
    cbn [Conv.take_sign]. rewrite Hm, Hp. reflexivity. }
  rewrite Hsign. cbn [Text.lower String.eqb]. rewrite Hl, Hi, Hn.
  cbn [orb]. unfold Conv.parse_number.
  rewrite <- (append_nil_r (String c D)) at 1.
  rewrite (take_digits_run (String c D) "" 0 0 HD I).
  cbn [String.length].
  replace (0 <? _ + _) with true by (symmetry; apply Z.ltb_lt; lia).
  cbn [Conv.parse_exponent]. reflexivity.
Qed.

Lemma plain_char_cleaned (c : ascii) :
  Text.is_digit c = true ->
  other_than "R" c = true /\ other_than "." c = true
  /\ subst_char "," "." c = c.
Proof.
  destruct c as [[] [] [] [] [] [] [] []]; vm_compute; intros H;
    try discriminate H; repeat split.
Qed.

Lemma digit_text_cleaned (D : string) :
  sall Text.is_digit D = true ->
  sall (other_than "R") D = true
  /\ sfilter (other_than ".") D = D
  /\ smap (subst_char "," ".") D = D.
Proof.
  induction D as [|c D IH]; [repeat split|].
  cbn [sall sfilter smap]. intros H. apply andb_true_iff in H.
  destruct H as [Hc HD]. destruct (IH HD) as (I1 & I2 & I3).
  destruct (plain_char_cleaned c Hc) as (C1 & C2 & C3).
  rewrite C1, C2, C3, I1, I2, I3. repeat split.
Qed.

(** A text with a decimal point is read without it: the two fraction digits
    become integer digits. *)
Lemma process_fixed_text (neg : bool) (h : Z) :
  0 <= h ->
  process_currency (JStr (fixed_text false neg h))
  = Ok (F64.of_decimal neg h 0).
Proof.
  intros Hh. unfold process_currency, fixed_text.
  destruct (digits_spec (h / 100)) as (HD & Hne & Hval);
    [apply Z.div_pos; lia|].
  destruct (two_digits_spec (h mod 100)) as [Ht Htv];
    [apply Z.mod_pos_bound; lia|].
  set (D := Text.digits (h / 100)) in *.
  set (dd := Conv.two_digits (h mod 100)) in *.
  destruct (digit_text_cleaned D HD) as (D1 & D2 & D3).
  destruct (digit_text_cleaned dd Ht) as (T1 & T2 & T3).
  assert (HR : sall (other_than "R")
                 (Conv.sign_text false neg ++ D ++ "." ++ dd) = true).
  { rewrite !sall_app, D1. cbn [sall append]. rewrite T1.
    destruct neg; reflexivity. }
  unfold Text.replace at 3.
  rewrite (replace_from_absent "R" "$" "" _ HR).
  rewrite replace_char_drop, replace_char.
  rewrite !sfilter_app, D2. cbn [sfilter append].
  change (other_than "." ".") with false. cbv iota. rewrite T2.
  assert (Hs : sfilter (other_than ".") (Conv.sign_text false neg)
               = Conv.sign_text false neg) by (destruct neg; reflexivity).
  rewrite Hs. rewrite !smap_app, D3, T3.
  assert (Hs' : smap (subst_char "," ".") (Conv.sign_text false neg)
                = Conv.sign_text false neg) by (destruct neg; reflexivity).
  rewrite Hs'. cbn [smap append].
  assert (HDD : sall Text.is_digit (D ++ dd) = true)
    by (rewrite sall_app, HD, Ht; reflexivity).
  assert (HDDne : D ++ dd <> EmptyString)
    by (destruct D; [contradiction|discriminate]).
  destruct (D ++ dd) as [|c rest] eqn:EDD; [contradiction|].
  rewrite (strip_digit_text neg c rest HDD).
  rewrite (float_of_digit_text neg (String c rest) HDD HDDne).
  rewrite <- EDD, sval_app, Htv, Hval.
  replace ((0 * 10 ^ Z.of_nat (String.length D) + h / 100) * 100 + h mod 100)
    with h by (pose proof (Z.div_mod h 100); lia).
  reflexivity.
Qed.

(** ** Update *)

Lemma assign_all_success (data : json) (old : FinancialData)
    (x : field -> F64.float) :
  (forall f,
     (v <- Json.getitem data (field_name f) ;; Json.to_float v) = Ok (x f)) ->
  exists new,
    assign_all all_fields data old = (new, None)
    /\ id new = id old /\ user_id new = user_id old
    /\ reference_date new = reference_date old
    /\ forall f, get_field f new = x f.
Proof.
  intros H. unfold all_fields. cbn [assign_all]. rewrite !H.
  eexists. split; [reflexivity|]. repeat split.
  intros f. destruct f; reflexivity.
Qed.

(** In a table with distinct keys the record of a user for a period is the
    only one that the query finds. *)
Lemma by_user_date_unique (t : table) (r : FinancialData) :
  NoDup (map period_key t) -> In r t ->
  Db.by_user_date (user_id r) (reference_date r) t = [r].
Proof.
  induction t as [|a t IH]; [intros _ []|].
  cbn [map]. intros Hnd Hin. inversion Hnd as [|? ? Hnot Hnd']; subst.
  unfold Db.by_user_date in *. cbn [filter].
  destruct Hin as [-> | Hin].
  - rewrite Z.eqb_refl, String.eqb_refl. cbn [andb]. f_equal.
    destruct (filter _ t) as [|b l] eqn:E; [reflexivity|].
    exfalso. apply Hnot.
    assert (Hb : In b (filter (fun r0 => (user_id r0 =? user_id r)
                                 && String.eqb (reference_date r0) (reference_date r)) t))
      by (rewrite E; now left).
    apply filter_In in Hb. destruct Hb as [Hb Hk].
    apply andb_true_iff in Hk. destruct Hk as [Hu Hd].
    apply Z.eqb_eq in Hu. apply String.eqb_eq in Hd.
    apply in_map_iff. exists b. split; [|exact Hb].
    unfold period_key. congruence.
  - rewrite (IH Hnd' Hin).
    destruct ((user_id a =? user_id r)
              && String.eqb (reference_date a) (reference_date r)) eqn:E;
      [|reflexivity].
    exfalso. apply Hnot. apply andb_true_iff in E. destruct E as [Hu Hd].
    apply Z.eqb_eq in Hu. apply String.eqb_eq in Hd.
    apply in_map_iff. exists r. split; [|exact Hin].
    unfold period_key. congruence.
Qed.

Lemma by_user_date_replaced (t : table) (old new : FinancialData) :
  NoDup (map id t) -> NoDup (map period_key t) -> In old t ->
  id new = id old -> period_key new = period_key old ->
  Db.by_user_date (user_id old) (reference_date old)
    (map (fun r => if id r =? id old then new else r) t) = [new].
Proof.
  intros Hids Hkeys Hin Hid Hkey.
  rewrite <- Hid.
  destruct (replace_row_keeps t old new Hids Hin Hid Hkey) as (E1 & E2 & E3).
  cbv zeta in E1, E2, E3.
  set (t' := map (fun r => if id r =? id new then new else r) t) in *.
  assert (Hin' : In new t').
  { subst t'. apply in_map_iff. exists old. split; [|exact Hin].
    rewrite Hid, Z.eqb_refl. reflexivity. }
  assert (Hk' : NoDup (map period_key t')) by (rewrite E2; exact Hkeys).
  pose proof (by_user_date_unique t' new Hk' Hin') as H.
  unfold period_key in Hkey. injection Hkey as Hu Hd.
  rewrite Hu, Hd in H. exact H.
Qed.

Lemma update_success_lemma (t : table) (uid : Z) (d : list (string * json))
    (ref : string) (old : FinancialData) (x : field -> F64.float) :
  Json.assoc "reference_date" d = Some (JStr ref) ->
  ref <> EmptyString ->
  Db.first (Db.by_user_date uid ref t) = Some old ->
  (forall f, exists v,
     Json.assoc (field_name f) d = Some v /\ Json.to_float v = Ok (x f)) ->
  (forall f, F64.is_nan (x f) = false) ->
  exists new,
    update_financial_data t uid (JDict d)
    = (respond 200 (Success MsgUpdated),
       map (fun r => if id r =? id old then new else r) t)
    /\ id new = id old /\ user_id new = uid /\ reference_date new = ref
    /\ forall f, get_field f new = Db.stored_amount (x f).
Proof.
  intros Hrd Hne Hold Hv Hnan.
  destruct (first_by_user_date_in t uid ref old Hold) as (Hin & Hu & Hd).
  destruct (assign_all_success (JDict d) old x) as (new & Ha & Hid & Hu' & Hd' & Hg).
  { intros f. destruct (Hv f) as (v & Ev & Ex). cbn [Json.getitem].
    rewrite Ev. cbn [bind]. exact Ex. }
  exists (Db.stored new).
  split;
    [|cbn [Db.stored id user_id reference_date];
      repeat split; try congruence;
      intros f; rewrite stored_get_field, Hg; reflexivity].
  unfold update_financial_data.
  assert (Ht : Json.truthy (JDict d) = true).
  { destruct d; [discriminate Hrd|reflexivity]. }
  rewrite Ht. cbn [negb Json.get]. rewrite Hrd. cbn [Json.truthy].
  replace (String.eqb ref "") with false
    by (symmetry; apply String.eqb_neq, Hne).
  cbn [negb find_for_update]. rewrite Hold, Ha.
  unfold Db.update. rewrite storable_get_field.
  - rewrite Hid. reflexivity.
  - intros f. rewrite Hg. apply Hnan.
Qed.

(** The text that [format_currency] gives is refused by [float]. *)
Lemma skip_head (c : ascii) (s : string) :
  Conv.is_float_space c = false ->
  exists r, Conv.skip_spaces (String c s) = String c r.
Proof.
  intros Hc. unfold Conv.skip_spaces. cbn [Conv.skip_left]. rewrite Hc.
  cbn [Conv.skip_right]. destruct (Conv.skip_right s); [rewrite Hc|]; eauto.
Qed.

Lemma float_of_marked_text (s : string) :
  Conv.float_of_string (String "R" s) = Raise ValueError.
Proof.
  unfold Conv.float_of_string.
  destruct (skip_head "R" s eq_refl) as [r ->].
  cbn [Conv.drop_underscores]. change (Ascii.eqb "R" "_") with false.
  change (Ascii.eqb (Text.chr 0) "_" && negb (Text.is_digit "R")) with false.
  cbv iota.
  destruct (Conv.drop_underscores "R" r) as [t'|]; [|reflexivity].
  cbn [option_map Conv.take_sign].
  change (Ascii.eqb "R" "-") with false. change (Ascii.eqb "R" "+") with false.
  cbv iota. cbn [Text.lower String.eqb].
  change (Ascii.eqb (Text.lower_char "R") "i") with false.
  change (Ascii.eqb (Text.lower_char "R") "n") with false.
  cbv iota. cbn [orb].
  unfold Conv.parse_number. cbn [Conv.take_digits].
  change (Text.is_digit "R") with false. cbv iota.
  change (Ascii.eqb "R" ".") with false. cbv iota. reflexivity.
Qed.

Lemma format_currency_marked (x : F64.float) :
  exists s, format_currency x = String "R" s.
Proof.
  unfold format_currency. rewrite swap_separators_smap. cbn [append smap].
  eexists. reflexivity.
Qed.

Lemma update_refuses_currency_text (t : table) (uid : Z) (ref : string)
    (old : FinancialData) (x : F64.float) (fields : list (string * json)) :
  ref <> EmptyString ->
  Db.first (Db.by_user_date uid ref t) = Some old ->
  update_financial_data t uid
    (JDict (("reference_date", JStr ref)
            :: ("cash_balance", JStr (format_currency x)) :: fields))
  = (respond 400 (Error (MsgConvert ValueError)), t).
Proof.
  intros Hne Hold.
  apply (update_stops_at_first_amount t uid ref old _ fields Hne Hold ValueError).
  cbn [Json.to_float]. destruct (format_currency_marked x) as [s ->].
  apply float_of_marked_text.
Qed.

(** A request of update keeps every id and every key of the table. *)
Lemma update_keeps_keys (t : table) (uid : Z) (data : json) :
  NoDup (map id t) ->
  map id (snd (update_financial_data t uid data)) = map id t
  /\ map period_key (snd (update_financial_data t uid data))
     = map period_key t.
Proof.
  intros Hids.
  destruct (update_financial_data_table t uid data)
    as [[_ ->] | (old & new & _ & Hin & _ & Ha & _ & ->)];
    [split; reflexivity|].
  destruct (assign_all_keeps all_fields data old) as (K1 & K2 & K3).
  rewrite Ha in K1, K2, K3. simpl in K1, K2, K3.
  assert (Hk : period_key (Db.stored new) = period_key old)
    by (unfold period_key; cbn [Db.stored user_id reference_date];
        congruence).
  destruct (replace_row_keeps t old (Db.stored new) Hids Hin K1 Hk)
    as (E1 & E2 & _).
  split; assumption.
Qed.

(** ** Deletion *)

Lemma same_id_same_row (t : table) (a b : FinancialData) :
  NoDup (map id t) -> In a t -> In b t -> id a = id b -> a = b.
Proof. intros Hnd Ha Hb E. exact (NoDup_map_injective id t a b Hnd Ha Hb E). Qed.

(** A canonical period holds a slash. *)
Lemma canonical_period_has_slash (ref : string) :
  canonical_period ref -> sall (other_than "/") ref = false.
Proof.
  intros (m & y & _ & _ & ->). unfold Conv.two_digits.
  cbn [append sall]. change (other_than "/" "/") with false.
  rewrite !andb_false_r. reflexivity.
Qed.

(** ** Requests of other users *)

Lemma by_user_after_replace (t : table) (uid : Z) (old new : FinancialData) :
  NoDup (map id t) -> In old t ->
  id new = id old -> user_id new = user_id old -> user_id old <> uid ->
  Db.by_user uid (map (fun r => if id r =? id new then new else r) t)
  = Db.by_user uid t.
Proof.
  intros Hids Hin Hid Hu Hne. unfold Db.by_user.
  assert (H : forall r, In r t ->
                (user_id (if id r =? id new then new else r) =? uid)
                = (user_id r =? uid)
                /\ ((user_id r =? uid) = true ->
                    (if id r =? id new then new else r) = r)).
  { intros r Hr. destruct (id r =? id new) eqn:E.
    - apply Z.eqb_eq in E.
      assert (r = old) by (apply (same_id_same_row t r old Hids Hr Hin); congruence).
      subst r. rewrite Hu. split; [reflexivity|].
      intros Hc. apply Z.eqb_eq in Hc. contradiction.
    - auto. }
  clear Hids Hin. induction t as [|a t IH]; [reflexivity|].
  cbn [map filter].
  destruct (H a (or_introl eq_refl)) as [H1 H2]. rewrite H1.
  rewrite IH by (intros r Hr; apply H; now right).
  destruct (user_id a =? uid) eqn:E; [|reflexivity].
  rewrite (H2 eq_refl). reflexivity.
Qed.

Lemma by_user_after_delete (t : table) (uid : Z) (r : FinancialData) :
  NoDup (map id t) -> In r t -> user_id r <> uid ->
  Db.by_user uid (Db.delete r t) = Db.by_user uid t.
Proof.
  intros Hids Hin Hne. unfold Db.by_user, Db.delete.
  assert (H : forall a, In a t -> (user_id a =? uid) = true ->
                negb (id a =? id r) = true).
  { intros a Ha Hu. apply Z.eqb_eq in Hu.
    apply negb_true_iff, Z.eqb_neq. intros E.
    assert (a = r) by exact (same_id_same_row t a r Hids Ha Hin E).
    subst a. contradiction. }
  clear Hids Hin. induction t as [|a t IH]; [reflexivity|].
  cbn [filter]. destruct (user_id a =? uid) eqn:E.
  - rewrite (H a (or_introl eq_refl) E). cbn [filter]. rewrite E.
    f_equal. apply IH. intros b Hb. apply H. now right.
  - destruct (negb (id a =? id r)); cbn [filter]; rewrite ?E;
      apply IH; intros b Hb; apply H; now right.
Qed.

Lemma other_user_untouched (t : table) (q : request) (uid : Z) :
  NoDup (map id t) -> sender q <> uid ->
  Db.by_user uid (snd (handle t q)) = Db.by_user uid t.
Proof.
  intros Hids Hne. destruct q as [u data | u data | u ref]; cbn [sender handle] in *.
  - destruct (create_effect_lemma t u data)
      as [[_ ->] | (_ & fd & -> & _ & Hu & _)]; [reflexivity|].
    unfold Db.by_user. rewrite filter_app. cbn [filter].
    replace (user_id fd =? uid) with false
      by (symmetry; apply Z.eqb_neq; congruence).
    apply app_nil_r.
  - destruct (update_financial_data_table t u data)
      as [[_ ->] | (old & new & _ & Hin & Hu & Ha & _ & ->)]; [reflexivity|].
    destruct (assign_all_keeps all_fields data old) as (K1 & K2 & _).
    rewrite Ha in K1, K2. cbn [fst] in K1, K2.
    apply (by_user_after_replace t uid old (Db.stored new)); try assumption.
    congruence.
  - unfold delete_financial_data.
    destruct (Db.first (Db.by_user_date u ref t)) as [r|] eqn:E;
      [|reflexivity].
    cbn [snd]. destruct (first_by_user_date_in t u ref r E) as (Hin & Hu & _).
    apply by_user_after_delete; try assumption. congruence.
Qed.

Lemma by_user_date_of_by_user (t : table) (uid : Z) (ref : string) :
  Db.by_user_date uid ref t
  = filter (fun r => String.eqb (reference_date r) ref) (Db.by_user uid t).
Proof.
  unfold Db.by_user_date, Db.by_user.
  induction t as [|a t IH]; [reflexivity|]. cbn [filter].
  destruct (user_id a =? uid); cbn [andb filter];
    [destruct (String.eqb _ _)|]; rewrite IH; reflexivity.
Qed.

(** ** Stored amounts and ids *)

Lemma update_effect_lemma (t : table) (uid : Z) (data : json) :
  (code (fst (update_financial_data t uid data)) <> 200
   /\ snd (update_financial_data t uid data) = t)
  \/ (exists old new,
        fst (update_financial_data t uid data) = respond 200 (Success MsgUpdated)
        /\ In old t /\ user_id old = uid
        /\ id new = id old /\ user_id new = user_id old
        /\ reference_date new = reference_date old
        /\ Db.storable new = true
        /\ snd (update_financial_data t uid data)
           = map (fun r => if id r =? id new then new else r) t).
Proof.
  destruct (update_financial_data_table t uid data)
    as [H | (old & new & H & Hin & Hu & Ha & Hs & Ht)]; [left; exact H|].
  right. exists old, (Db.stored new).
  destruct (assign_all_keeps all_fields data old) as (K1 & K2 & K3).
  rewrite Ha in K1, K2, K3. cbn [fst] in K1, K2, K3.
  rewrite stored_is_storable. repeat split; assumption.
Qed.

Lemma next_id_positive (t : table) : 1 <= Db.next_id t.
Proof.
  unfold Db.next_id. induction t as [|r t IH]; cbn [fold_right]; lia.
Qed.

Lemma handle_keeps_stored (t : table) (q : request) :
  Forall (fun r => Db.storable r = true /\ 1 <= id r) t ->
  Forall (fun r => Db.storable r = true /\ 1 <= id r) (snd (handle t q)).
Proof.
  intros H. destruct q as [u data | u data | u ref]; cbn [handle].
  - destruct (create_effect_lemma t u data)
      as [[_ ->] | (_ & fd & -> & Hid & _ & _ & _ & Hs)]; [exact H|].
    apply Forall_app. split; [exact H|].
    constructor; [|constructor]. split; [exact Hs|].
    rewrite Hid. apply next_id_positive.
  - destruct (update_effect_lemma t u data)
      as [[_ ->] | (old & new & _ & Hin & _ & Hid & _ & _ & Hs & ->)];
      [exact H|].
    rewrite Forall_forall in H. apply Forall_forall. intros r Hr.
    apply in_map_iff in Hr. destruct Hr as (r0 & <- & Hr0).
    destruct (id r0 =? id new); [|auto].
    split; [exact Hs|]. rewrite Hid. apply (H old Hin).
  - destruct (delete_financial_data_table t u ref) as [p ->].
    rewrite Forall_forall in H. apply Forall_forall. intros r Hr.
    apply filter_In in Hr. apply H. tauto.
Qed.

Lemma reachable_stored (t : table) :
  reachable t -> Forall (fun r => Db.storable r = true /\ 1 <= id r) t.
Proof.
  induction 1 as [|t q _ IH]; [constructor|]. apply handle_keeps_stored, IH.
Qed.

(** ** Normalising a period twice *)

Lemma split_not_empty (sep : ascii) (s : string) : Text.split sep s <> [].
Proof.
  destruct s as [|c s]; cbn [Text.split]; [discriminate|].
  destruct (Ascii.eqb c sep); [discriminate|].
  destruct (Text.split sep s); discriminate.
Qed.

Lemma split_one (sep : ascii) (s h : string) :
  Text.split sep s = [h] -> s = h /\ sall (other_than sep) h = true.
Proof.
  revert h. induction s as [|c s IH]; intros h; cbn [Text.split].
  - intros [= <-]. auto.
  - destruct (Ascii.eqb c sep) eqn:E.
    + intros [= _ H]. destruct (split_not_empty sep s H).
    + destruct (Text.split sep s) as [|h' tl] eqn:Es;
        [destruct (split_not_empty sep s Es)|].
      intros [= <- ->]. destruct (IH h' eq_refl) as [-> Hh].
      split; [reflexivity|]. cbn [sall]. unfold other_than at 1.
      rewrite E. exact Hh.
Qed.

Lemma split_two (sep : ascii) (s m y : string) :
  Text.split sep s = [m; y] ->
  s = (m ++ String sep y)%string
  /\ sall (other_than sep) m = true /\ sall (other_than sep) y = true.
Proof.
  revert m. induction s as [|c s IH]; intros m; cbn [Text.split];
    [discriminate|].
  destruct (Ascii.eqb c sep) eqn:E.
  - intros [= <- H]. apply Ascii.eqb_eq in E. subst c.
    destruct (split_one sep s y H) as [-> Hy]. auto.
  - destruct (Text.split sep s) as [|h' tl] eqn:Es; [discriminate|].
    intros [= <- ->]. destruct (IH h' eq_refl) as (-> & Hm & Hy).
    split; [reflexivity|]. split; [|exact Hy].
    cbn [sall]. unfold other_than at 1. rewrite E. exact Hm.
Qed.

Lemma split_joined (sep : ascii) (m y : string) :
  sall (other_than sep) m = true -> sall (other_than sep) y = true ->
  Text.split sep (m ++ String sep y) = [m; y].
Proof.
  intros Hm Hy.
  assert (H1 : Text.split sep y = [y]).
  { clear Hm. induction y as [|c y IH]; [reflexivity|].
    cbn [sall] in Hy. apply andb_true_iff in Hy. destruct Hy as [Hc Hy].
    unfold other_than in Hc. apply negb_true_iff in Hc.
    cbn [Text.split]. rewrite Hc, (IH Hy). reflexivity. }
  induction m as [|c m IH]; cbn [append Text.split].
  - rewrite Ascii.eqb_refl, H1. reflexivity.
  - cbn [sall] in Hm. apply andb_true_iff in Hm. destruct Hm as [Hc Hm].
    unfold other_than in Hc. apply negb_true_iff in Hc.
    rewrite Hc, (IH Hm). reflexivity.
Qed.

Lemma rstrip_twice (s : string) : Text.rstrip (Text.rstrip s) = Text.rstrip s.
Proof.
  induction s as [|c s IH]; [reflexivity|]. cbn [Text.rstrip].
  destruct (Text.rstrip s) as [|d r] eqn:E.
  - destruct (Text.is_space c) eqn:Ec; [reflexivity|].
    cbn [Text.rstrip]. rewrite Ec. reflexivity.
  - change (Text.rstrip (String c (String d r)))
      with (match Text.rstrip (String d r) with
            | EmptyString =>
                if Text.is_space c then EmptyString else String c EmptyString
            | String a b => String c (String a b)
            end).
    rewrite IH. reflexivity.
Qed.

Lemma rstrip_head (c : ascii) (s : string) :
  Text.is_space c = false ->
  exists r, Text.rstrip (String c s) = String c r.
Proof.
  intros Hc. cbn [Text.rstrip]. rewrite Hc.
  destruct (Text.rstrip s); eauto.
Qed.

Lemma lstrip_head (s : string) :
  match Text.lstrip s with
  | EmptyString => True
  | String c _ => Text.is_space c = false
  end.
Proof.
  induction s as [|c s IH]; [exact I|]. cbn [Text.lstrip].
  destruct (Text.is_space c) eqn:E; [exact IH|exact E].
Qed.

Lemma strip_head_not_space (s : string) :
  match Text.strip s with
  | EmptyString => True
  | String c _ => Text.is_space c = false
  end.
Proof.
  unfold Text.strip. pose proof (lstrip_head s) as H.
  destruct (Text.lstrip s) as [|c u]; [exact I|].
  cbn [Text.rstrip]. destruct (Text.rstrip u); [|exact H].
  rewrite H. exact H.
Qed.

Lemma rstrip_after (a b : string) (c : ascii) :
  Text.is_space c = false ->
  Text.rstrip (a ++ String c b) = (a ++ Text.rstrip (String c b))%string.
Proof.
  intros Hc. induction a as [|d a IH]; [reflexivity|].
  cbn [append]. 
  change (Text.rstrip (String d (a ++ String c b)))
    with (match Text.rstrip (a ++ String c b) with
          | EmptyString =>
              if Text.is_space d then EmptyString else String d EmptyString
          | String x y => String d (String x y)
          end).
  rewrite IH. destruct (rstrip_head c b Hc) as [r ->].
  destruct a; reflexivity.
Qed.

Lemma append_same_head (a b c : string) :
  (a ++ b)%string = (a ++ c)%string -> b = c.
Proof.
  induction a as [|d a IH]; cbn [append]; [auto|].
  intros [= H]. exact (IH H).
Qed.

Lemma zfill_two_shape (m : string) :
  sall (other_than "/") m = true ->
  match m with
  | EmptyString => True
  | String c _ => Text.is_space c = false
  end ->
  sall (other_than "/") (Text.zfill 2 m) = true
  /\ Text.zfill 2 (Text.zfill 2 m) = Text.zfill 2 m
  /\ match Text.zfill 2 m with
     | EmptyString => False
     | String c _ => Text.is_space c = false
     end.
Proof.
  intros Hm Hh. destruct m as [|a [|b m]].
  - repeat split.
  - unfold Text.zfill. cbn [String.length Nat.sub Text.zeros append].
    cbn [sall] in Hm |- *. rewrite andb_true_r in Hm.
    destruct (Ascii.eqb a "+" || Ascii.eqb a "-") eqn:E.
    + cbn [sall String.length Nat.sub Text.zeros append]. rewrite E, Hm.
      repeat split. exact Hh.
    + cbn [sall String.length Nat.sub Text.zeros append]. rewrite Hm.
      repeat split.
  - unfold Text.zfill. cbn [String.length Nat.sub Text.zeros append].
    destruct (Ascii.eqb a "+" || Ascii.eqb a "-") eqn:E.
    + cbn [String.length Nat.sub Text.zeros append]. rewrite E.
      repeat split; assumption.
    + cbn [String.length Nat.sub Text.zeros append]. rewrite E.
      repeat split; assumption.
Qed.

Lemma normalize_date_twice (s : string) :
  normalize_date (normalize_date s) = normalize_date s.
Proof.
  unfold normalize_date at 2 3.
  destruct (Text.split "/" (Text.strip s)) as [|m [|y [|z l]]] eqn:E;
    try (unfold normalize_date; rewrite E; reflexivity).
  destruct (split_two "/" _ m y E) as (Hs & Hm & Hy).
  pose proof (strip_head_not_space s) as Hh. rewrite Hs in Hh.
  assert (Hr : Text.rstrip ("/" ++ y) = ("/" ++ y)%string).
  { pose proof (rstrip_twice (Text.lstrip s)) as H.
    change (Text.rstrip (Text.lstrip s)) with (Text.strip s) in H.
    rewrite Hs in H. rewrite (rstrip_after m y "/" eq_refl) in H.
    exact (append_same_head _ _ _ H). }
  destruct (zfill_two_shape m Hm) as (Zm & Zz & Zh).
  { destruct m; [exact I|exact Hh]. }
  unfold normalize_date, Text.strip.
  assert (Hl : Text.lstrip (Text.zfill 2 m ++ "/" ++ y)
               = (Text.zfill 2 m ++ "/" ++ y)%string).
  { destruct (Text.zfill 2 m) as [|c u]; [destruct Zh|].
    cbn [append Text.lstrip]. rewrite Zh. reflexivity. }
  rewrite Hl.
  change ("/" ++ y)%string with (String "/" y) in *.
  rewrite (rstrip_after (Text.zfill 2 m) y "/" eq_refl), Hr.
  rewrite (split_joined "/" _ y Zm Hy), Zz. reflexivity.
Qed.

(** ** The list of months *)

Lemma user_periods_distinct (t : table) (uid : Z) :
  NoDup (map period_key t) -> NoDup (map reference_date (Db.by_user uid t)).
Proof.
  unfold Db.by_user. induction t as [|a t IH]; cbn [map filter];
    [constructor|].
  intros H. inversion H as [|k ks Hnot Hnd]; subst.
  destruct (user_id a =? uid) eqn:E; [|exact (IH Hnd)].
  cbn [map]. constructor; [|exact (IH Hnd)].
  intros Hin. apply Hnot. apply in_map_iff in Hin.
  destruct Hin as (b & Hb & Hbin). apply filter_In in Hbin.
  destruct Hbin as [Hbin Hbu]. apply in_map_iff. exists b.
  split; [|exact Hbin]. apply Z.eqb_eq in E, Hbu.
  unfold period_key. congruence.
Qed.

Lemma months_lemma (t : table) (uid : Z) :
  table_ok t ->
  exists months,
    get_available_months t uid = respond 200 (Months months)
    /\ NoDup months
    /\ Forall canonical_period months
    /\ forall p, In p months
                 <-> exists r, In r t /\ user_id r = uid /\ reference_date r = p.
Proof.
  intros [_ Hk Hp].
  destruct (months_sorted_by_text t uid) as (months & Hm & Hperm & _).
  exists months. split; [exact Hm|].
  assert (Hiff : forall p, In p months
            <-> exists r, In r t /\ user_id r = uid /\ reference_date r = p).
  { intros p. split.
    - intros Hin. apply (Permutation_in _ (Permutation_sym Hperm)) in Hin.
      apply in_map_iff in Hin. destruct Hin as (r & Hr & Hin).
      apply filter_In in Hin. destruct Hin as [Hin Hu].
      apply Z.eqb_eq in Hu. eauto.
    - intros (r & Hin & Hu & Hr). apply (Permutation_in _ Hperm).
      apply in_map_iff. exists r. split; [exact Hr|].
      apply filter_In. split; [exact Hin|]. apply Z.eqb_eq, Hu. }
  split; [|split; [|exact Hiff]].
  - apply (Permutation_NoDup Hperm), user_periods_distinct, Hk.
  - apply Forall_forall. intros p Hin. apply Hiff in Hin.
    destruct Hin as (r & Hin & _ & <-).
    rewrite Forall_forall in Hp. exact (Hp r Hin).
Qed.

(** ** Reading records back *)

Section ReadBack.

Variable unquote : string -> string.

Lemma get_of_row (t : table) (r : FinancialData) (encoded : string) :
  NoDup (map period_key t) -> In r t ->
  unquote encoded = reference_date r ->
  get_financial_data unquote t (user_id r) encoded
  = {| data_code := 200; data_content := DataOne (shown false r) |}.
Proof.
  intros Hk Hin He. unfold get_financial_data. rewrite He.
  rewrite (by_user_date_unique t r Hk Hin). reflexivity.
Qed.

Lemma get_absent (t : table) (uid : Z) (encoded : string) :
  Db.by_user_date uid (unquote encoded) t = [] ->
  get_financial_data unquote t uid encoded
  = {| data_code := 404; data_content := DataError MsgResourceNotFound |}.
Proof.
  intros H. unfold get_financial_data. rewrite H. reflexivity.
Qed.

Lemma list_lemma (t : table) (uid : Z) :
  list_financial_data t uid
  = {| data_code := 200;
       data_content := DataList (map (shown true) (Db.by_user uid t)) |}
  /\ Forall (fun e => shown_user_id e = Some uid)
            (map (shown true) (Db.by_user uid t))
  /\ (NoDup (map period_key t) ->
      forall r encoded,
        In r (Db.by_user uid t) ->
        unquote encoded = reference_date r ->
        get_financial_data unquote t uid encoded
        = {| data_code := 200; data_content := DataOne (shown false r) |}).
Proof.
  split; [reflexivity|]. split.
  - apply Forall_forall. intros e He. apply in_map_iff in He.
    destruct He as (r & <- & Hr). apply filter_In in Hr.
    destruct Hr as [_ Hu]. apply Z.eqb_eq in Hu. cbn. congruence.
  - intros Hk r encoded Hr He. apply filter_In in Hr.
    destruct Hr as [Hin Hu]. apply Z.eqb_eq in Hu. subst uid.
    apply get_of_row; assumption.
Qed.

Lemma get_after_create (t : table) (uid : Z) (data : json) (ref encoded : string)
    (neg : field -> bool) (cents : field -> Z) :
  read_reference_date data = Ok ref ->
  Db.by_user_date uid ref t = [] ->
  (forall f, 0 <= cents f) ->
  (forall f,
     Json.getitem data (field_name f)
     = Ok (JStr (format_currency (F64.of_decimal (neg f) (cents f) (-2))))) ->
  unquote encoded = ref ->
  get_financial_data unquote t uid encoded
  = {| data_code := 404; data_content := DataError MsgResourceNotFound |}
  /\ exists e,
       get_financial_data unquote (snd (add_financial_data t uid data)) uid
         encoded
       = {| data_code := 200; data_content := DataOne e |}
       /\ shown_reference_date e = ref
       /\ shown_amounts e
          = map (fun f =>
                   (field_name f,
                    format_currency
                      (Db.stored_amount
                         (F64.of_decimal (neg f) (cents f) (-2)))))
                all_fields
       /\ ((forall f, neg f = true -> 0 < cents f) ->
           shown_amounts e
           = map (fun f =>
                    (field_name f,
                     format_currency (F64.of_decimal (neg f) (cents f) (-2))))
                 all_fields).
Proof.
  intros Hr Hq Hc Hf He.
  split; [apply get_absent; rewrite He; exact Hq|].
  destruct (create_with_amounts t uid data ref
              (fun f => F64.of_decimal (neg f) (cents f) (-2)) Hr Hq)
    as (fd & Ha & _ & Hu & Hd & Hg).
  { intros f. unfold read_amount. rewrite Hf. cbn [bind].
    apply currency_round_trip, Hc. }
  { intros f. apply of_decimal_not_nan. }
  exists (shown false fd). rewrite Ha. cbn [snd].
  unfold get_financial_data. rewrite He.
  unfold Db.by_user_date. rewrite filter_app.
  change (filter _ t) with (Db.by_user_date uid ref t). rewrite Hq.
  cbn [filter app]. rewrite Hu, Hd, Z.eqb_refl, String.eqb_refl.
  cbn [andb Db.first]. split; [reflexivity|]. split; [exact Hd|].
  assert (Hs : shown_amounts (shown false fd)
               = map (fun f =>
                        (field_name f,
                         format_currency
                           (Db.stored_amount
                              (F64.of_decimal (neg f) (cents f) (-2)))))
                     all_fields).
  { cbn [shown shown_amounts]. unfold formatted_amounts.
    apply map_ext. intros f. rewrite Hg. reflexivity. }
  split; [exact Hs|].
  intros Hpos. rewrite Hs. apply map_ext. intros f.
  rewrite (stored_amount_cents (neg f) (cents f) (Hc f) (Hpos f)).
  reflexivity.
Qed.

End ReadBack.

Lemma reads_depend_on_own_rows (unquote : string -> string) (t t' : table)
    (uid : Z) :
  Db.by_user uid t' = Db.by_user uid t ->
  list_financial_data t' uid = list_financial_data t uid
  /\ get_available_months t' uid = get_available_months t uid
  /\ get_financial_results t' uid = get_financial_results t uid
  /\ forall encoded,
       get_financial_data unquote t' uid encoded
       = get_financial_data unquote t uid encoded.
Proof.
  intros H. unfold list_financial_data, get_available_months,
    get_financial_results, get_financial_data.
  rewrite H. repeat split. intros encoded.
  rewrite !by_user_date_of_by_user, H. reflexivity.
Qed.

(** ** The handlers, property by property *)

Lemma one_record_ok : table_ok one_record.
Proof.
  constructor.
  - repeat constructor. intros [].
  - repeat constructor. intros [].
  - repeat constructor. exists 1, 24. repeat split; lia.
Qed.

Lemma not_found_when_not_canonical (t : table) (uid : Z) (ref : string) :
  table_ok t -> ~ canonical_period ref -> Db.by_user_date uid ref t = [].
Proof.
  intros [_ _ Hp] Hn.
  destruct (Db.by_user_date uid ref t) as [|r l] eqn:E; [reflexivity|].
  exfalso. apply Hn.
  destruct (first_by_user_date_in t uid ref r) as (Hin & _ & <-).
  { rewrite E. reflexivity. }
  rewrite Forall_forall in Hp. exact (Hp r Hin).
Qed.

(** X1.  A creation either answers 400 and leaves the table as it is, or
    answers 200 and appends exactly one record: its id is above every id of
    the table, its owner is the sender, its period is canonical and was not
    yet recorded for the sender, and none of its amounts is NaN. *)
Theorem X1_create_appends_or_refuses (t : table) (uid : Z) (data : json) :
  (code (fst (add_financial_data t uid data)) = 400
   /\ snd (add_financial_data t uid data) = t)
  \/ (fst (add_financial_data t uid data) = respond 200 (Success MsgAdded)
      /\ exists fd,
           snd (add_financial_data t uid data) = (t ++ [fd])%list
           /\ Forall (fun r => id r < id fd) t
           /\ user_id fd = uid
           /\ canonical_period (reference_date fd)
           /\ Db.by_user_date uid (reference_date fd) t = []
           /\ Db.storable fd = true).
Proof.
  destruct (create_effect_lemma t uid data)
    as [H | (H & fd & Ht & Hid & Hu & Hc & Hq & Hs)]; [left; exact H|].
  right. split; [exact H|]. exists fd. repeat split; try assumption.
  apply Forall_forall. intros r Hr. rewrite Hid. apply next_id_above, Hr.
Qed.

(** X2.  A creation with a valid new period whose body lacks an amount is
    answered with 400 and the message of the missing field, which names the
    first missing column in the order of the constructor call; the table is
    left as it is. *)
Theorem X2_create_names_first_missing_field (t : table) (uid : Z)
    (d : list (string * json)) (ref : string) (f : field) :
  read_reference_date (JDict d) = Ok ref ->
  Db.by_user_date uid ref t = [] ->
  first_missing d = Some f ->
  add_financial_data t uid (JDict d)
  = (respond 400 (Error (MsgMissingField (KeyError (field_name f)))), t).
Proof. apply create_missing_lemma. Qed.

Lemma X2_create_names_first_missing_field_witness :
  add_financial_data [] 1
    (JDict [("total_sales", JStr "R$ 2,00"); ("reference_date", JStr "1/2024");
            ("cash_balance", JStr "R$ 1,00")])
  = (respond 400 (Error (MsgMissingField (KeyError "bank_balance"))), []).
Proof.
  apply (X2_create_names_first_missing_field [] 1 _ "01/2024" BankBalance);
    vm_compute; reflexivity.
Defined.

(** X3.  A creation with a valid new period and all eleven amounts present
    never fails on the content of an amount: each value is read by
    [process_currency], which always gives a float, and the record is
    appended with these floats as the table gives them back (a negative zero
    as [0.0]); only a NaN among them makes the insertion fail, with status
    400 and the table as it was. *)
Theorem X3_create_reads_every_amount (t : table) (uid : Z)
    (d : list (string * json)) (ref : string) :
  read_reference_date (JDict d) = Ok ref ->
  Db.by_user_date uid ref t = [] ->
  first_missing d = None ->
  exists fd,
    id fd = Db.next_id t /\ user_id fd = uid /\ reference_date fd = ref
    /\ (forall f, exists v x,
          Json.assoc (field_name f) d = Some v
          /\ process_currency v = Ok x
          /\ get_field f fd = Db.stored_amount x)
    /\ add_financial_data t uid (JDict d)
       = if Db.storable fd
         then (respond 200 (Success MsgAdded), (t ++ [fd])%list)
         else (respond 400 (Error (MsgException IntegrityError)), t).
Proof. apply create_accepts_lemma. Qed.

Lemma X3_create_reads_every_amount_witness :
  process_currency (JStr "R$ -0,00") = Ok (S754_zero true)
  /\ exists fd,
       id fd = 1 /\ user_id fd = 1 /\ reference_date fd = "01/2024"
       /\ (forall f, get_field f fd = F64.zero)
       /\ add_financial_data [] 1 (body_with (JStr "1/2024") (JStr "R$ -0,00"))
          = (respond 200 (Success MsgAdded), [fd]).
Proof.
  split; [vm_compute; reflexivity|].
  destruct (X3_create_reads_every_amount [] 1
              (("reference_date", JStr "1/2024")
               :: map (fun f => (field_name f, JStr "R$ -0,00")) all_fields)
              "01/2024")
    as (fd & Hid & Hu & Hd & Hv & Ha); try (vm_compute; reflexivity).
  exists fd. split; [exact Hid|]. split; [exact Hu|]. split; [exact Hd|].
  assert (Hz : forall f, get_field f fd = F64.zero).
  { intros f. destruct (Hv f) as (v & x & Hv1 & Hv2 & Hv3).
    destruct f; vm_compute in Hv1; injection Hv1 as <-;
      vm_compute in Hv2; injection Hv2 as <-; exact Hv3. }
  split; [exact Hz|].
  unfold body_with. rewrite Ha, storable_get_field; [reflexivity|].
  intros f. rewrite Hz. reflexivity.
Defined.

(** X4.  [process_currency] removes every dot, so an amount written with a
    decimal point and two fraction digits, as [.2f] writes it, is read as the
    whole number of its digits, a hundred times the amount: the text
    [1234.56] gives the float of 123456. *)
Theorem X4_decimal_point_read_as_hundredfold (neg : bool) (h : Z) :
  0 <= h ->
  process_currency (JStr (fixed_text false neg h))
  = Ok (F64.of_decimal neg h 0).
Proof. apply process_fixed_text. Qed.

Lemma X4_decimal_point_read_as_hundredfold_witness :
  0 <= 123456
  /\ fixed_text false false 123456 = "1234.56"
  /\ process_currency (JStr "1234.56") = Ok (F64.of_decimal false 123456 0).
Proof.
  assert (H : 0 <= 123456) by lia.
  split; [exact H|]. split; [vm_compute; reflexivity|].
  exact (X4_decimal_point_read_as_hundredfold false 123456 H).
Defined.

(** X5.  An update for a recorded period whose eleven amounts are present and
    convert with [float] to values other than NaN answers 200 and replaces
    the record of the period, in its place: the new record keeps the id, the
    owner and the period and holds the converted amounts as the table gives
    them back (a negative zero as [0.0]), and the query for the period then
    finds it alone. *)
Theorem X5_update_stores_amounts (t : table) (uid : Z)
    (d : list (string * json)) (ref : string) (old : FinancialData)
    (x : field -> F64.float) :
  table_ok t ->
  Json.assoc "reference_date" d = Some (JStr ref) ->
  ref <> EmptyString ->
  Db.first (Db.by_user_date uid ref t) = Some old ->
  (forall f, exists v,
     Json.assoc (field_name f) d = Some v /\ Json.to_float v = Ok (x f)) ->
  (forall f, F64.is_nan (x f) = false) ->
  exists new,
    update_financial_data t uid (JDict d)
    = (respond 200 (Success MsgUpdated),
       map (fun r => if id r =? id old then new else r) t)
    /\ id new = id old /\ user_id new = uid /\ reference_date new = ref
    /\ (forall f, get_field f new = Db.stored_amount (x f))
    /\ Db.by_user_date uid ref
         (map (fun r => if id r =? id old then new else r) t) = [new].
Proof.
  intros [Hids Hkeys _] Hrd Hne Hold Hv Hnan.
  destruct (update_success_lemma t uid d ref old x Hrd Hne Hold Hv Hnan)
    as (new & Hu & Hid & Hown & Hper & Hg).
  exists new. repeat split; try assumption.
  destruct (first_by_user_date_in t uid ref old Hold) as (Hin & Hu' & Hd').
  rewrite <- Hu', <- Hd'.
  apply by_user_date_replaced; try assumption.
  unfold period_key. congruence.
Qed.

Lemma X5_update_stores_amounts_witness :
  Json.to_float (JStr "-0") = Ok (S754_zero true)
  /\ exists new,
       update_financial_data one_record 1 (JDict minus_zeros)
       = (respond 200 (Success MsgUpdated), [new])
       /\ id new = 1 /\ user_id new = 1 /\ reference_date new = "01/2024"
       /\ (forall f, get_field f new = F64.zero)
       /\ Db.by_user_date 1 "01/2024" [new] = [new].
Proof.
  split; [vm_compute; reflexivity|].
  destruct (X5_update_stores_amounts one_record 1 minus_zeros "01/2024"
              (snapshot 1 1 "01/2024" F64.zero F64.zero)
              (fun _ => S754_zero true) one_record_ok)
    as (new & Hu & Hid & Hown & Hper & Hg & Hq).
  - reflexivity.
  - discriminate.
  - reflexivity.
  - intros f. exists (JStr "-0"). split; [|vm_compute; reflexivity].
    destruct f; reflexivity.
  - intros f. reflexivity.
  - exists new. repeat split; assumption.
Defined.

(** X6.  The text that [format_currency] gives for an amount, the form in
    which the read handlers show amounts and the creation accepts them, is
    refused by an update: [float] raises ValueError on it, the answer is 400
    with the message of the conversion, and the table is left as it is. *)
Theorem X6_update_refuses_currency_text (t : table) (uid : Z) (ref : string)
    (old : FinancialData) (x : F64.float) (fields : list (string * json)) :
  ref <> EmptyString ->
  Db.first (Db.by_user_date uid ref t) = Some old ->
  update_financial_data t uid
    (JDict (("reference_date", JStr ref)
            :: ("cash_balance", JStr (format_currency x)) :: fields))
  = (respond 400 (Error (MsgConvert ValueError)), t).
Proof. apply update_refuses_currency_text. Qed.

Lemma X6_update_refuses_currency_text_witness :
  format_currency (F64.lit 7) = "R$ 7,00"
  /\ update_financial_data one_record 1
       (JDict [("reference_date", JStr "01/2024");
               ("cash_balance", JStr (format_currency (F64.lit 7)))])
     = (respond 400 (Error (MsgConvert ValueError)), one_record).
Proof.
  split; [vm_compute; reflexivity|].
  apply (X6_update_refuses_currency_text one_record 1 "01/2024"
           (snapshot 1 1 "01/2024" F64.zero F64.zero) (F64.lit 7) []).
  - discriminate.
  - reflexivity.
Defined.

(** X7.  An update, whatever its body, neither adds nor removes a record and
    changes no id, owner or period: the ids and the keys of the table are the
    same afterwards, in the same order; when the answer is not 200 the table
    is the same. *)
Theorem X7_update_keeps_ids_and_keys (t : table) (uid : Z) (data : json) :
  table_ok t ->
  map id (snd (update_financial_data t uid data)) = map id t
  /\ map period_key (snd (update_financial_data t uid data))
     = map period_key t
  /\ (code (fst (update_financial_data t uid data)) <> 200 ->
      snd (update_financial_data t uid data) = t).
Proof.
  intros [Hids _ _].
  destruct (update_keeps_keys t uid data Hids) as [H1 H2].
  split; [exact H1|]. split; [exact H2|].
  destruct (update_effect_lemma t uid data)
    as [[_ H] | (old & new & H & _)]; [intros _; exact H|].
  rewrite H. intros Hc. destruct Hc. reflexivity.
Qed.

Lemma X7_update_keeps_ids_and_keys_witness :
  map id (snd (update_financial_data one_record 1 (JDict sevens))) = [1]
  /\ map period_key (snd (update_financial_data one_record 1 (JDict sevens)))
     = [(1, "01/2024")]
  /\ (code (fst (update_financial_data one_record 1 (JDict sevens))) <> 200 ->
      snd (update_financial_data one_record 1 (JDict sevens)) = one_record).
Proof.
  exact (X7_update_keeps_ids_and_keys one_record 1 (JDict sevens) one_record_ok).
Defined.

(** X8.  The deletion compares its argument with the stored periods as it
    is, without decoding it.  In a table that requests produced every stored
    period holds a slash, so for an argument without slash, which is all that
    one segment of a path can hold, the deletion finds nothing: it answers
    404 and leaves the table as it is, also when the argument is the encoded
    form [01%2F2024] of a recorded period. *)
Theorem X8_delete_without_slash_finds_nothing (t : table) (uid : Z)
    (ref : string) :
  reachable t ->
  sall (other_than "/") ref = true ->
  delete_financial_data t uid ref = (respond 404 (Error MsgNotFound), t).
Proof.
  intros Hr Hs. unfold delete_financial_data.
  rewrite (not_found_when_not_canonical t uid ref (reachable_ok t Hr));
    [reflexivity|].
  intros Hc. rewrite (canonical_period_has_slash ref Hc) in Hs.
  discriminate Hs.
Qed.

Lemma X8_delete_without_slash_finds_nothing_witness :
  Db.by_user_date 1 "01/2024" two_years <> []
  /\ delete_financial_data two_years 1 "01%2F2024"
     = (respond 404 (Error MsgNotFound), two_years).
Proof.
  split; [vm_compute; discriminate|].
  apply (X8_delete_without_slash_finds_nothing two_years 1 "01%2F2024"
           two_years_reachable).
  reflexivity.
Defined.

(** X9.  A request of one user changes no answer that another user gets: in
    a table that requests produced, after a creation, an update or a deletion
    sent by someone else, the list of records, the months, the results and
    the record of each period are answered to the user as before. *)
Theorem X9_requests_of_others_change_no_answer (unquote : string -> string)
    (t : table) (q : request) (uid : Z) :
  reachable t ->
  sender q <> uid ->
  list_financial_data (snd (handle t q)) uid = list_financial_data t uid
  /\ get_available_months (snd (handle t q)) uid = get_available_months t uid
  /\ get_financial_results (snd (handle t q)) uid = get_financial_results t uid
  /\ forall encoded,
       get_financial_data unquote (snd (handle t q)) uid encoded
       = get_financial_data unquote t uid encoded.
Proof.
  intros Hr Hne. apply reads_depend_on_own_rows.
  apply other_user_untouched; [|exact Hne].
  exact (ok_ids t (reachable_ok t Hr)).
Qed.

Lemma X9_requests_of_others_change_no_answer_witness :
  fst (handle two_years (Post 2 (body_with (JStr "03/2024") (JStr "R$ 5,00"))))
  = respond 200 (Success MsgAdded)
  /\ list_financial_data
       (snd (handle two_years
               (Post 2 (body_with (JStr "03/2024") (JStr "R$ 5,00"))))) 1
     = list_financial_data two_years 1.
Proof.
  split; [vm_compute; reflexivity|].
  refine (proj1 (X9_requests_of_others_change_no_answer (fun s => s) two_years
                   (Post 2 (body_with (JStr "03/2024") (JStr "R$ 5,00"))) 1
                   two_years_reachable _)).
  cbn [sender]. lia.
Defined.

(** X10.  [normalize_date] is idempotent: normalising a normalised text
    changes nothing, whatever the text. *)
Theorem X10_normalize_date_idempotent (date_str : string) :
  normalize_date (normalize_date date_str) = normalize_date date_str.
Proof. apply normalize_date_twice. Qed.

(** X11.  In a table that requests produced, [get_available_months] answers
    200 with a list in which no period occurs twice, every period is
    canonical, and a period occurs exactly when the user has a record for
    it. *)
Theorem X11_months_distinct_and_canonical (t : table) (uid : Z) :
  reachable t ->
  exists months,
    get_available_months t uid = respond 200 (Months months)
    /\ NoDup months
    /\ Forall canonical_period months
    /\ forall p, In p months
                 <-> exists r, In r t /\ user_id r = uid /\ reference_date r = p.
Proof. intros Hr. apply months_lemma, reachable_ok, Hr. Qed.

Lemma X11_months_distinct_and_canonical_witness :
  exists months,
    get_available_months two_years 1 = respond 200 (Months months)
    /\ NoDup months
    /\ Forall canonical_period months
    /\ forall p, In p months
                 <-> exists r, In r two_years /\ user_id r = 1
                               /\ reference_date r = p.
Proof.
  exact (X11_months_distinct_and_canonical two_years 1 two_years_reachable).
Defined.

(** X12.  [list_financial_data] answers 200 with one entry for each record
    of the user, in the order of the table, and every entry names the user as
    its owner.  In a table with one record per user and period,
    [get_financial_data] for the period of a listed record shows the same id,
    period and amounts. *)
Theorem X12_list_shows_own_records (unquote : string -> string) (t : table)
    (uid : Z) :
  list_financial_data t uid
  = {| data_code := 200;
       data_content := DataList (map (shown true) (Db.by_user uid t)) |}
  /\ Forall (fun e => shown_user_id e = Some uid)
            (map (shown true) (Db.by_user uid t))
  /\ (NoDup (map period_key t) ->
      forall r encoded,
        In r (Db.by_user uid t) ->
        unquote encoded = reference_date r ->
        get_financial_data unquote t uid encoded
        = {| data_code := 200; data_content := DataOne (shown false r) |}).
Proof. apply list_lemma. Qed.

(** X13.  What is created is read back.  When a creation for a valid new
    period gives every amount as the currency text of an amount with two
    fraction digits, [get_financial_data] for an argument that decodes to the
    period answers 404 before the creation and afterwards 200 with the period
    and, for each column, the currency text of the amount as the table gives
    it back.  That is exactly the text that was sent unless the amount is the
    negative zero, whose text [R$ -0,00] is read back as [R$ 0,00]. *)
Theorem X13_get_shows_created_texts (unquote : string -> string) (t : table)
    (uid : Z) (data : json) (ref encoded : string)
    (neg : field -> bool) (cents : field -> Z) :
  read_reference_date data = Ok ref ->
  Db.by_user_date uid ref t = [] ->
  (forall f, 0 <= cents f) ->
  (forall f,
     Json.getitem data (field_name f)
     = Ok (JStr (format_currency (F64.of_decimal (neg f) (cents f) (-2))))) ->
  unquote encoded = ref ->
  get_financial_data unquote t uid encoded
  = {| data_code := 404; data_content := DataError MsgResourceNotFound |}
  /\ exists e,
       get_financial_data unquote (snd (add_financial_data t uid data)) uid
         encoded
       = {| data_code := 200; data_content := DataOne e |}
       /\ shown_reference_date e = ref
       /\ shown_amounts e
          = map (fun f =>
                   (field_name f,
                    format_currency
                      (Db.stored_amount
                         (F64.of_decimal (neg f) (cents f) (-2)))))
                all_fields
       /\ ((forall f, neg f = true -> 0 < cents f) ->
           shown_amounts e
           = map (fun f =>
                    (field_name f,
                     format_currency (F64.of_decimal (neg f) (cents f) (-2))))
                 all_fields).
Proof. apply get_after_create. Qed.

Lemma X13_get_shows_created_texts_witness :
  format_currency (F64.of_decimal true 123450 (-2)) = "R$ -1.234,50"
  /\ unquote_slash "01%2F2024" = "01/2024"
  /\ exists e,
       get_financial_data unquote_slash
         (snd (add_financial_data [] 1
                 (body_with (JStr "1/2024") (JStr "R$ -1.234,50"))))
         1 "01%2F2024"
       = {| data_code := 200; data_content := DataOne e |}
       /\ shown_reference_date e = "01/2024"
       /\ shown_amounts e
          = map (fun f => (field_name f, "R$ -1.234,50")) all_fields.
Proof.
  split; [vm_compute; reflexivity|]. split; [vm_compute; reflexivity|].
  destruct (X13_get_shows_created_texts unquote_slash [] 1
              (body_with (JStr "1/2024") (JStr "R$ -1.234,50"))
              "01/2024" "01%2F2024" (fun _ => true) (fun _ => 123450))
    as (_ & e & He & Hd & _ & Ha).
  - vm_compute. reflexivity.
  - reflexivity.
  - intros f. lia.
  - intros f. destruct f; vm_compute; reflexivity.
  - vm_compute. reflexivity.
  - exists e. split; [exact He|]. split; [exact Hd|].
    rewrite Ha by (intros f _; lia). vm_compute. reflexivity.
Defined.

(** X14.  In a table that requests produced, no record holds a NaN amount,
    every id is at least 1 and no two records have the same id. *)
Theorem X14_no_nan_and_distinct_ids (t : table) :
  reachable t ->
  Forall (fun r => Db.storable r = true /\ 1 <= id r) t
  /\ NoDup (map id t).
Proof.
  intros Hr. split; [apply reachable_stored, Hr|].
  exact (ok_ids t (reachable_ok t Hr)).
Qed.

Lemma X14_no_nan_and_distinct_ids_witness :
  Forall (fun r => Db.storable r = true /\ 1 <= id r) two_years
  /\ NoDup (map id two_years).
Proof. exact (X14_no_nan_and_distinct_ids two_years two_years_reachable). Defined.

(** X15.  Only the creation normalises the period.  In a table that requests
    produced, every stored period is canonical, so a text [ref] that is not a
    canonical period, such as [1/2024], finds nothing: an update whose body
    names [ref] answers 404 and leaves the table as it is, and
    [get_financial_data] answers 404 for every argument that decodes to
    [ref]. *)
Theorem X15_lookups_need_canonical_period (unquote : string -> string)
    (t : table) (uid : Z) (ref encoded : string)
    (fields : list (string * json)) :
  reachable t ->
  ~ canonical_period ref ->
  ref <> EmptyString ->
  unquote encoded = ref ->
  update_financial_data t uid (JDict (("reference_date", JStr ref) :: fields))
  = (respond 404 (Error MsgNotFound), t)
  /\ get_financial_data unquote t uid encoded
     = {| data_code := 404; data_content := DataError MsgResourceNotFound |}.
Proof.
  intros Hr Hn Hne He.
  pose proof (not_found_when_not_canonical t uid ref (reachable_ok t Hr) Hn)
    as Hq.
  split.
  - unfold update_financial_data.
    cbn [Json.truthy negb Json.get Json.assoc].
    rewrite String.eqb_refl. cbn [Json.truthy].
    replace (String.eqb ref "") with false
      by (symmetry; apply String.eqb_neq, Hne).
    cbn [negb find_for_update]. rewrite Hq. reflexivity.
  - apply get_absent. rewrite He. exact Hq.
Qed.

Lemma X15_lookups_need_canonical_period_witness :
  Db.by_user_date 1 "01/2024" two_years <> []
  /\ unquote_slash "1%2F2024" = "1/2024"
  /\ update_financial_data two_years 1
       (JDict [("reference_date", JStr "1/2024")])
     = (respond 404 (Error MsgNotFound), two_years)
  /\ get_financial_data unquote_slash two_years 1 "1%2F2024"
     = {| data_code := 404; data_content := DataError MsgResourceNotFound |}.
Proof.
  split; [vm_compute; discriminate|]. split; [vm_compute; reflexivity|].
  apply (X15_lookups_need_canonical_period unquote_slash two_years 1
           "1/2024" "1%2F2024" [] two_years_reachable).
  - intros H. apply check_period_canonical in H. vm_compute in H.
    discriminate H.
  - discriminate.
  - vm_compute. reflexivity.
Defined.
